(** * aqgo: the IOT-CO-1000 polling pipeline

    A shallow embedding of [iotco1000/iotco1000.go] and [main/main.go]:
    the serial read loop and the field parser of [AnalyzeAirQuality], the
    warm-up gate and the metric batches of [submitMetricsToCloudWatch] in
    its two variants, and the channel that hands measurements from [main]
    to the submission goroutine.  The functions of the Go library that the
    program calls ([strings.Split], [strings.Trim], [strconv.ParseInt],
    [time.ParseDuration], [Duration.Seconds]) are written out after the
    library, so that the lines of the sensor can be run through the code.

    Conventions.  A Go [string] and a [[]byte] are sequences of bytes: they
    are Rocq [string]s and [list ascii].  Sized integers are [Z] with the
    wrap-around written out ([wrap]).  A [float64] is a [spec_float] of the
    binary64 format, computed with the IEEE operations of [SpecFloat].  A Go
    result pair [(v, err)] is a pair whose second component is an
    [option]; [nil] is [None]. *)

From Stdlib Require Import ZArith List String Ascii Bool Lia DecimalString.
From Stdlib Require Import Floats.SpecFloat DecimalPos DecimalZ.
Import ListNotations.

Local Open Scope string_scope.
Local Open Scope Z_scope.

(** ** Machine integers and floats *)

Definition wrap (bits : Z) (x : Z) : Z :=
  (x + 2 ^ (bits - 1)) mod 2 ^ bits - 2 ^ (bits - 1).

Definition uint64 (x : Z) : Z := x mod 2 ^ 64.
Definition int64 (x : Z) : Z := wrap 64 x.

(** [GOARCH=arm] in the build script: [int] has 32 bits. *)
Definition intSize : Z := 32.
Definition int (x : Z) : Z := wrap intSize x.

Definition float64 : Type := spec_float.

Module Float64.
Definition prec : Z := 53.
Definition emax : Z := 1024.

(** Conversion of an integer, rounding to nearest even. *)
Definition of_Z (z : Z) : float64 := binary_normalize prec emax z 0 false.
Definition zero : float64 := S754_zero false.
Definition add : float64 -> float64 -> float64 := SFadd prec emax.
Definition mul : float64 -> float64 -> float64 := SFmul prec emax.
Definition div : float64 -> float64 -> float64 := SFdiv prec emax.
Definition ltb : float64 -> float64 -> bool := SFltb.

(** Conversion to an unsigned integer: the fraction is discarded.  Go
    leaves the conversion of a value that does not fit to the
    implementation; the callers below stay under [3.6e12]. *)
Definition to_uint64 (f : float64) : Z :=
  match f with
  | S754_finite false m e =>
      uint64 (if 0 <=? e then Z.shiftl (Zpos m) e else Z.shiftr (Zpos m) (- e))
  | _ => 0
  end.
End Float64.

(** ** The Go library functions the program calls *)

Definition error : Type := string.

Definition isDigit (c : ascii) : bool :=
  (48 <=? nat_of_ascii c)%nat && (nat_of_ascii c <=? 57)%nat.

Definition digitVal (c : ascii) : Z := Z.of_nat (nat_of_ascii c) - 48.

Fixpoint containsByte (cutset : string) (c : ascii) : bool :=
  match cutset with
  | EmptyString => false
  | String k rest => Ascii.eqb k c || containsByte rest c
  end.

Definition isEmpty (s : string) : bool :=
  match s with EmptyString => true | String _ _ => false end.

Definition dropBytes (n : nat) (s : string) : string :=
  substring n (String.length s - n) s.

Module strings.

(** [strings.Index]: the first position of [sep] in [s]. *)
Definition Index (s sep : string) : option nat := String.index 0 sep s.

(** [genSplit] for a separator that is not empty: cut at the first
    occurrence, continue in what follows it.  The slice it fills has
    [Count(s, sep) + 1 <= len(s) + 1] entries, so [len(s)] rounds do. *)
Fixpoint genSplit (rounds : nat) (s sep : string) : list string :=
  match rounds with
  | O => [s]
  | S rounds' =>
      match Index s sep with
      | None => [s]
      | Some m =>
          substring 0 m s
            :: genSplit rounds' (dropBytes (m + String.length sep) s) sep
      end
  end.

Definition Split (s sep : string) : list string :=
  genSplit (String.length s) s sep.

Fixpoint TrimLeft (s cutset : string) : string :=
  match s with
  | EmptyString => EmptyString
  | String c rest => if containsByte cutset c then TrimLeft rest cutset else s
  end.

Fixpoint TrimRight (s cutset : string) : string :=
  match s with
  | EmptyString => EmptyString
  | String c rest =>
      let r := TrimRight rest cutset in
      if isEmpty r && containsByte cutset c then EmptyString else String c r
  end.

(** [strings.Trim] with an ASCII cutset. *)
Definition Trim (s cutset : string) : string :=
  TrimLeft (TrimRight s cutset) cutset.


(** [strings.Join]: the elements with [sep] between them. *)
Fixpoint Join (elems : list string) (sep : string) : string :=
  match elems with
  | [] => EmptyString
  | e :: rest =>
      match rest with
      | [] => e
      | _ :: _ => e ++ sep ++ Join rest sep
      end
  end.
End strings.

Module strconv.

Inductive NumErrorKind := ErrSyntax | ErrRange.

Definition maxUint64 : Z := 2 ^ 64 - 1.

(** [lower(c)] is [c | ('x' - 'X')]. *)
Definition lower (c : ascii) : Z := Z.lor (Z.of_nat (nat_of_ascii c)) 32.

(** The value of a digit or letter, [None] for any other byte. *)
Definition digitOf (c : ascii) : option Z :=
  if isDigit c then Some (digitVal c)
  else if (97 <=? lower c) && (lower c <=? 122) then Some (lower c - 97 + 10)
  else None.

(** The digit loop of [ParseUint] for [2 <= base <= 36], where an
    underscore is not a digit. *)
Fixpoint parseDigits (base maxVal : Z) (n : Z) (s : string)
  : Z * option NumErrorKind :=
  match s with
  | EmptyString => (n, None)
  | String c rest =>
      match digitOf c with
      | None => (0, Some ErrSyntax)
      | Some d =>
          if base <=? d then (0, Some ErrSyntax)
          else
            let cutoff := maxUint64 / base + 1 in
            if cutoff <=? n then (maxVal, Some ErrRange)
            else
              let n' := uint64 (n * base) in
              let n1 := uint64 (n' + d) in
              if (n1 <? n') || (maxVal <? n1) then (maxVal, Some ErrRange)
              else parseDigits base maxVal n1 rest
      end
  end.

(** [strconv.ParseUint(s, base, bitSize)] for [2 <= base <= 36] and
    [0 < bitSize <= 64]. *)
Definition ParseUint (s : string) (base bitSize : Z)
  : Z * option NumErrorKind :=
  if isEmpty s then (0, Some ErrSyntax)
  else parseDigits base (2 ^ bitSize - 1) 0 s.

(** [strconv.ParseInt(s, base, bitSize)], as far as [ParseUint] goes. *)
Definition ParseInt (s : string) (base bitSize : Z)
  : Z * option NumErrorKind :=
  match s with
  | EmptyString => (0, Some ErrSyntax)
  | String c rest =>
      let neg := Ascii.eqb c "-" in
      let digits := if Ascii.eqb c "+" || neg then rest else s in
      match ParseUint digits base bitSize with
      | (_, Some ErrSyntax) => (0, Some ErrSyntax)
      | (un, _) =>
          let cutoff := 2 ^ (bitSize - 1) in
          if negb neg && (cutoff <=? un) then (cutoff - 1, Some ErrRange)
          else if neg && (cutoff <? un) then (- cutoff, Some ErrRange)
          else (if neg then int64 (- int64 un) else int64 un, None)
      end
  end.

(** The [%d] verb of [fmt] on an integer. *)
Definition FormatInt (z : Z) : string := NilZero.string_of_int (Z.to_int z).

End strconv.

Module time.

(** [time.Duration] is an [int64] count of nanoseconds; [time.Time] is
    kept as the reading of the wall clock in nanoseconds. *)
Definition Duration : Type := Z.
Definition Time : Type := Z.

Definition Nanosecond : Duration := 1.
Definition Microsecond : Duration := 1000 * Nanosecond.
Definition Millisecond : Duration := 1000 * Microsecond.
Definition Second : Duration := 1000 * Millisecond.
Definition Minute : Duration := 60 * Second.
Definition Hour : Duration := 60 * Minute.

(** [Duration.Seconds]. *)
Definition Seconds (d : Duration) : float64 :=
  let sec := Z.quot d Second in
  let nsec := Z.rem d Second in
  Float64.add (Float64.of_Z sec)
    (Float64.div (Float64.of_Z nsec) (Float64.of_Z 1000000000)).

Inductive DurationError :=
| InvalidDuration (orig : string)
| MissingUnit (orig : string)
| UnknownUnit (u orig : string).

Definition micro : string := String "194" (String "181" "s").
Definition mu : string := String "206" (String "188" "s").

Definition unitMap (u : string) : option Z :=
  if String.eqb u "ns" then Some Nanosecond
  else if String.eqb u "us" then Some Microsecond
  else if String.eqb u micro then Some Microsecond
  else if String.eqb u mu then Some Microsecond
  else if String.eqb u "ms" then Some Millisecond
  else if String.eqb u "s" then Some Second
  else if String.eqb u "m" then Some Minute
  else if String.eqb u "h" then Some Hour
  else None.

(** [leadingInt]: the digits at the head of [s]; [None] on overflow. *)
Fixpoint leadingInt (x : Z) (s : string) : option (Z * string) :=
  match s with
  | EmptyString => Some (x, s)
  | String c rest =>
      if isDigit c then
        if 2 ^ 63 / 10 <? x then None
        else
          let x' := uint64 (x * 10 + digitVal c) in
          if 2 ^ 63 <? x' then None else leadingInt x' rest
      else Some (x, s)
  end.

(** [leadingFraction]: digits after the point, with their scale; digits
    past the overflow are consumed and dropped. *)
Fixpoint leadingFraction (x : Z) (scale : float64) (overflow : bool)
    (s : string) : Z * float64 * string :=
  match s with
  | EmptyString => (x, scale, s)
  | String c rest =>
      if isDigit c then
        if overflow then leadingFraction x scale true rest
        else if (2 ^ 63 - 1) / 10 <? x then leadingFraction x scale true rest
        else
          let y := uint64 (x * 10 + digitVal c) in
          if 2 ^ 63 <? y then leadingFraction x scale true rest
          else leadingFraction y (Float64.mul scale (Float64.of_Z 10)) false rest
      else (x, scale, s)
  end.

(** The unit: everything up to the next ['.'] or digit. *)
Fixpoint unitLength (s : string) : nat :=
  match s with
  | EmptyString => O
  | String c rest =>
      if Ascii.eqb c "." || isDigit c then O else S (unitLength rest)
  end.

(** One round of the loop of [ParseDuration] on what is left of the
    string: the total so far becomes [d + v], or the parse fails. *)
Definition parseTerm (orig : string) (d : Z) (s : string)
  : Z * string + DurationError :=
  match s with
  | EmptyString => inr (InvalidDuration orig)
  | String c _ =>
      if negb (Ascii.eqb c "." || isDigit c) then inr (InvalidDuration orig)
      else
        match leadingInt 0 s with
        | None => inr (InvalidDuration orig)
        | Some (v, s1) =>
            let pre := negb (Nat.eqb (String.length s) (String.length s1)) in
            let '(f, scale, s2, post) :=
              match s1 with
              | String "." s1' =>
                  let '(f, scale, s2) :=
                    leadingFraction 0 (Float64.of_Z 1) false s1' in
                  (f, scale, s2,
                   negb (Nat.eqb (String.length s1') (String.length s2)))
              | _ => (0, Float64.of_Z 1, s1, false)
              end in
            if negb pre && negb post then inr (InvalidDuration orig)
            else
              let i := unitLength s2 in
              if Nat.eqb i 0 then inr (MissingUnit orig)
              else
                let u := substring 0 i s2 in
                let s3 := dropBytes i s2 in
                match unitMap u with
                | None => inr (UnknownUnit u orig)
                | Some unit =>
                    if 2 ^ 63 / unit <? v then inr (InvalidDuration orig)
                    else
                      let v1 := uint64 (v * unit) in
                      let v2 :=
                        if 0 <? f then
                          uint64 (v1 + Float64.to_uint64
                                    (Float64.mul (Float64.of_Z f)
                                       (Float64.div (Float64.of_Z unit) scale)))
                        else v1 in
                      if (0 <? f) && (2 ^ 63 <? v2) then inr (InvalidDuration orig)
                      else
                        let d' := uint64 (d + v2) in
                        if 2 ^ 63 <? d' then inr (InvalidDuration orig)
                        else inl (d', s3)
                end
        end
  end.

(** The loop [for s != ""]: every round consumes a unit of at least one
    byte, so [len(s)] rounds do. *)
Fixpoint parseTerms (rounds : nat) (orig : string) (d : Z) (s : string)
  : Z + DurationError :=
  match s with
  | EmptyString => inl d
  | String _ _ =>
      match rounds with
      | O => inr (InvalidDuration orig)
      | S rounds' =>
          match parseTerm orig d s with
          | inr e => inr e
          | inl (d', s') => parseTerms rounds' orig d' s'
          end
      end
  end.

(** [time.ParseDuration]. *)
Definition ParseDuration (orig : string) : Duration * option DurationError :=
  let neg := match orig with String "-" _ => true | _ => false end in
  let s :=
    match orig with
    | String "-" rest => rest
    | String "+" rest => rest
    | _ => orig
    end in
  if String.eqb s "0" then (0, None)
  else if isEmpty s then (0, Some (InvalidDuration orig))
  else
    match parseTerms (String.length s) orig 0 s with
    | inr e => (0, Some e)
    | inl d =>
        if neg then (int64 (- int64 d), None)
        else if 2 ^ 63 - 1 <? d then (0, Some (InvalidDuration orig))
        else (int64 d, None)
    end.

End time.

(** ** Outcomes of a call

    A call returns, stops on a run-time fault, or is still running when the
    rounds granted to its polling loop are used up. *)

Inductive Fault :=
| IndexOutOfRange (index len : Z).

Inductive Outcome (A : Type) :=
| Returns (a : A)
| Panics (f : Fault)
| Running.

Arguments Returns {A} a.
Arguments Panics {A} f.
Arguments Running {A}.

Definition bindO {A B} (o : Outcome A) (k : A -> Outcome B) : Outcome B :=
  match o with
  | Returns a => k a
  | Panics f => Panics f
  | Running => Running
  end.

Notation "'let!' x ':=' e 'in' k" := (bindO e (fun x => k))
  (at level 10, x pattern, e at level 100, k at level 200).

(** [l[i]]: the index expression of Go, checked at run time. *)
Definition index {A} (l : list A) (i : Z) : Outcome A :=
  if (0 <=? i) && (i <? Z.of_nat (List.length l)) then
    match nth_error l (Z.to_nat i) with
    | Some a => Returns a
    | None => Panics (IndexOutOfRange i (Z.of_nat (List.length l)))
    end
  else Panics (IndexOutOfRange i (Z.of_nat (List.length l))).

(** ** io.ReadWriteCloser

    [Read p n] is a call of [Read] on a slice of [n] bytes: it yields the
    bytes stored at the head of the slice, at most [n] of them by the
    contract of [io.Reader], and the error. *)

Class ReadWriteCloser (P : Type) := {
  Write : P -> string -> P * (Z * option error);
  Read : P -> nat -> P * (list ascii * option error);
  Close : P -> P * option error
}.

Definition ReadWithinSlice {P} `{ReadWriteCloser P} : Prop :=
  forall (p : P) (n : nat), (List.length (fst (snd (Read p n))) <= n)%nat.

(** ** Package iotco1000 *)

Module iotco1000.

Record AirQualityMeasurement := {
  SensorSerialNumber : string;
  COConcentrationPPB : Z;
  TemperatureC : Z;
  RelativeHumidity : Z;
  Uptime : time.Duration;
  MeasurementTime : time.Time
}.

(** What a call does to its surroundings, in order. *)
Inductive Event :=
| EvWrite (data : string) (n : Z) (err : option error)
| EvRead (len : nat) (data : list ascii) (err : option error)
| EvSleep (d : time.Duration)
| EvPrintf (text : string).

(** The sensor handle [co] with its surroundings: the serial port, the
    wall clock, and the record of what was done. *)
Record IOTCO1000 (P : Type) := {
  SerialPort : P;
  clock : time.Time;
  trace : list Event
}.

Arguments SerialPort {P} _.
Arguments clock {P} _.
Arguments trace {P} _.

Section Effects.
Context {P : Type} `{ReadWriteCloser P}.

Definition M (A : Type) : Type := IOTCO1000 P -> Outcome A * IOTCO1000 P.

Definition ret {A} (a : A) : M A := fun co => (Returns a, co).

Definition bind {A B} (m : M A) (k : A -> M B) : M B :=
  fun co =>
    match m co with
    | (Returns a, co') => k a co'
    | (Panics f, co') => (Panics f, co')
    | (Running, co') => (Running, co')
    end.

Definition lift {A} (o : Outcome A) : M A := fun co => (o, co).

Definition stillRunning {A} : M A := fun co => (Running, co).

Definition record (e : Event) (co : IOTCO1000 P) : IOTCO1000 P :=
  {| SerialPort := SerialPort co; clock := clock co;
     trace := (trace co ++ [e])%list |}.

Definition portWrite (data : string) : M (Z * option error) :=
  fun co =>
    let '(p, (n, err)) := Write (SerialPort co) data in
    (Returns (n, err),
     record (EvWrite data n err)
       {| SerialPort := p; clock := clock co; trace := trace co |}).

Definition portRead (len : nat) : M (list ascii * option error) :=
  fun co =>
    let '(p, (data, err)) := Read (SerialPort co) len in
    (Returns (data, err),
     record (EvRead len data err)
       {| SerialPort := p; clock := clock co; trace := trace co |}).

Definition Sleep (d : time.Duration) : M unit :=
  fun co =>
    (Returns tt,
     record (EvSleep d)
       {| SerialPort := SerialPort co; clock := clock co + d;
          trace := trace co |}).

Definition Now : M time.Time := fun co => (Returns (clock co), co).

Definition Printf (text : string) : M unit :=
  fun co => (Returns tt, record (EvPrintf text) co).
End Effects.

Notation "'do' x '<-' e ';;' k" := (bind e (fun x => k))
  (at level 10, x pattern, e at level 100, k at level 200).
Notation "'run' e ';;' k" := (bind e (fun _ => k))
  (at level 10, e at level 100, k at level 200).

Definition CR : ascii := "013"%char.
Definition LF : ascii := "010"%char.
Definition NUL : ascii := "000"%char.
Definition CRLF : string := String CR (String LF EmptyString).

(** [" \r\n\x00"] *)
Definition cutset : string :=
  String " " (String CR (String LF (String NUL EmptyString))).

(** [Read] stores what it read at the head of the slice. *)
Definition store (data byteBuffer : list ascii) : list ascii :=
  (data ++ skipn (List.length data) byteBuffer)%list.

(** [fmt.Sprintf("%dh%sm%ss", daysUpInt*24+hoursUpInt, minutesUp,
    strings.Trim(secondsUp, " \r\n\x00"))] *)
Definition uptimeDurationStr (daysUpInt hoursUpInt : Z)
    (minutesUp secondsUp : string) : string :=
  strconv.FormatInt (int64 (daysUpInt * 24 + hoursUpInt)) ++ "h"
    ++ minutesUp ++ "m" ++ strings.Trim secondsUp cutset ++ "s".

Definition Result : Type := option AirQualityMeasurement * option error.

(** Lines 82 to 119 of [AnalyzeAirQuality]: the fields of the buffer and
    their conversion. *)
Definition parse (byteBuffer : list ascii) (measurementTime : time.Time)
  : Outcome Result :=
  let d := strings.Split (string_of_list_ascii byteBuffer) ", " in
  let! serialNumber := index d 0 in
  let! COConcentrationPPB := index d 1 in
  let! temperatureC := index d 2 in
  let! relativeHumidity := index d 3 in
  let! daysUp := index d 7 in
  let! hoursUp := index d 8 in
  let! minutesUp := index d 9 in
  let! secondsUp := index d 10 in
  match strconv.ParseInt COConcentrationPPB 10 32 with
  | (_, Some _) =>
      Returns (None, Some ("failed converting CO concentration ("
                             ++ COConcentrationPPB ++ ") to int"))
  | (COInt, None) =>
  match strconv.ParseInt temperatureC 10 8 with
  | (_, Some _) =>
      Returns (None, Some ("failed converting temperature ("
                             ++ temperatureC ++ ") to int"))
  | (temperatureCInt, None) =>
  match strconv.ParseInt relativeHumidity 10 8 with
  | (_, Some _) =>
      Returns (None, Some ("failed converting relative humidity ("
                             ++ relativeHumidity ++ ") to int"))
  | (relativeHumidityInt, None) =>
  match strconv.ParseInt daysUp 10 16 with
  | (_, Some _) =>
      Returns (None, Some ("failed converting days up ("
                             ++ daysUp ++ ") to int"))
  | (daysUpInt, None) =>
  match strconv.ParseInt hoursUp 10 8 with
  | (_, Some _) =>
      Returns (None, Some ("failed converting hours up ("
                             ++ hoursUp ++ ") to int"))
  | (hoursUpInt, None) =>
      let uptimeDurationStr :=
        uptimeDurationStr daysUpInt hoursUpInt minutesUp secondsUp in
      match time.ParseDuration uptimeDurationStr with
      | (_, Some _) =>
          Returns (None, Some ("failed parsing duration string "
                                 ++ uptimeDurationStr))
      | (uptime, None) =>
          Returns
            (Some {| SensorSerialNumber := serialNumber;
                     COConcentrationPPB := int COInt;
                     TemperatureC := int temperatureCInt;
                     RelativeHumidity := int relativeHumidityInt;
                     Uptime := uptime;
                     MeasurementTime := measurementTime |},
             None)
      end
  end end end end end.

Section AnalyzeAirQuality.
Context {P : Type} `{ReadWriteCloser P}.

(** Lines 68 to 81: the loop that polls the port.  It leaves with the
    buffer ([break]) or with the error of [Read] ([return nil, err]). *)
Fixpoint readFrame (rounds : nat) (byteBuffer : list ascii)
    (totalBytesRead : Z) : M (list ascii + error) :=
  match rounds with
  | O => stillRunning
  | S rounds' =>
      do (data, err) <- portRead (List.length byteBuffer) ;;
      let byteBuffer := store data byteBuffer in
      let bytesRead := Z.of_nat (List.length data) in
      let totalBytesRead := int (totalBytesRead + bytesRead) in
      match err with
      | Some e => run Printf ("error is: " ++ e) ;; ret (inr e)
      | None =>
          if totalBytesRead =? 0 then
            run Sleep (50 * time.Millisecond) ;;
            readFrame rounds' byteBuffer totalBytesRead
          else
            do b <- lift (index byteBuffer (totalBytesRead - 1)) ;;
            if Ascii.eqb b LF then ret (inl byteBuffer)
            else
              run Sleep (50 * time.Millisecond) ;;
              readFrame rounds' byteBuffer totalBytesRead
      end
  end.

(** [(co *IOTCO1000) AnalyzeAirQuality()], its loop granted [rounds]
    calls of [Read]. *)
Definition AnalyzeAirQuality (rounds : nat) : M Result :=
  do (bytesWritten, err) <- portWrite CRLF ;;
  match err with
  | Some e => ret (None, Some e)
  | None =>
      if bytesWritten =? 0 then
        ret (None, Some "failed to write to IOTCO1000 serial device")
      else
        run Sleep (1000 * time.Millisecond) ;;
        let byteBuffer := repeat NUL 256 in
        do measurementTime <- Now ;;
        do frame <- readFrame rounds byteBuffer 0 ;;
        match frame with
        | inr e => ret (None, Some e)
        | inl byteBuffer => lift (parse byteBuffer measurementTime)
        end
  end.
End AnalyzeAirQuality.

End iotco1000.

(** ** Ports to run the code on *)

(** A sensor that answers every stimulus with the bytes [response]; the
    port keeps what has arrived in [queue] and a [Read] takes from its
    head as much as the slice holds. *)
Record Sensor := {
  response : list ascii;
  queue : list ascii
}.

#[export] Instance Sensor_port : ReadWriteCloser Sensor := {
  Write p data :=
    ({| response := response p; queue := (queue p ++ response p)%list |},
     (Z.of_nat (String.length data), None));
  Read p n :=
    ({| response := response p; queue := skipn n (queue p) |},
     (firstn n (queue p), None));
  Close p := (p, None)
}.

(** A port whose [Write] reports no error and no byte written. *)
Inductive Unplugged := unplugged.

#[export] Instance Unplugged_port : ReadWriteCloser Unplugged := {
  Write p data := (p, (0, None));
  Read p n := (p, ([], Some "EOF"));
  Close p := (p, None)
}.

Definition sensorOf (response : list ascii) : iotco1000.IOTCO1000 Sensor :=
  {| iotco1000.SerialPort := {| response := response; queue := [] |};
     iotco1000.clock := 0;
     iotco1000.trace := [] |}.

Definition sensor (line : string) : iotco1000.IOTCO1000 Sensor :=
  sensorOf (list_ascii_of_string line).

Definition line (text : string) : string :=
  text ++ String iotco1000.LF EmptyString.

(** ** The CloudWatch types the program fills in

    The SDK structures hold pointers to the values; the program never
    writes through them after it has built a batch, so the model stores
    the values. *)

Module cwtypes.

Inductive StandardUnit := StandardUnitNone | StandardUnitSeconds.

Module Dimension.
Record t := { Name : string; Value : string }.
End Dimension.

Module MetricDatum.
Record t := {
  MetricName : string;
  Value : float64;
  Dimensions : list Dimension.t;
  Unit : StandardUnit;
  StorageResolution : Z
}.
End MetricDatum.

End cwtypes.

Module cloudwatch.

Record PutMetricDataInput := {
  Namespace : string;
  MetricData : list cwtypes.MetricDatum.t
}.

(** The client, as far as the program uses it: one call that sends a
    batch and reports an error or none. *)
Class Client (C : Type) := {
  PutMetricData : C -> PutMetricDataInput -> C * option error
}.

End cloudwatch.

(** What the program writes to its logger. *)
Inductive LogLine :=
| SkippingNotWarmedUp (warmUpDuration : time.Duration)
| ActiveWillSubmit
| SubmitFailed (err : error)
| Println (err : error).

(** The lines that report the warm-up state, as opposed to a failure. *)
Definition isStateLine (l : LogLine) : bool :=
  match l with
  | SkippingNotWarmedUp _ | ActiveWillSubmit => true
  | SubmitFailed _ | Println _ => false
  end.

Inductive Classification := NotWarmedUp | WarmedUp.

(** [warmUpDuration := time.Hour * 2] and the test [aq.Uptime <
    warmUpDuration] of both variants of the submission loop. *)
Definition warmUpDuration : time.Duration := int64 (time.Hour * 2).

Definition classify (aq : iotco1000.AirQualityMeasurement) : Classification :=
  if iotco1000.Uptime aq <? warmUpDuration then NotWarmedUp else WarmedUp.

Definition ifp (i : Z) : float64 := Float64.of_Z i.
Definition ffp (i : float64) : float64 := i.

(** ** Package main, [main/main.go] *)

Module main.
Import iotco1000 cwtypes cloudwatch.

Definition CO_CONCENTRATION_PPB : string := "COConcentrationPPB".
Definition TEMPERATURE_C : string := "TemperatureC".
Definition RELATIVE_HUMIDITY : string := "RelativeHumidity".
Definition UPTIME : string := "Uptime".
Definition SENSOR_SERIAL_NUMBER : string := "SensorSerialNumber".

(** The goroutine [submitMetricsToCloudWatch]: its local variable, its
    client and what it has logged and sent so far. *)
Record Submitter (C : Type) := {
  cw : C;
  loggedAboutUptime : bool;
  logger : list LogLine;
  sent : list PutMetricDataInput
}.

Arguments cw {C} _.
Arguments loggedAboutUptime {C} _.
Arguments logger {C} _.
Arguments sent {C} _.

Section Submission.
Context {C : Type} `{Client C}.

(** Lines 76 to 119: the batch of a measurement that passed the gate. *)
Definition params (ns : string) (aq : AirQualityMeasurement)
  : PutMetricDataInput :=
  let dimensions :=
    [ {| Dimension.Name := SENSOR_SERIAL_NUMBER;
         Dimension.Value := SensorSerialNumber aq |} ] in
  let coPPB := Float64.of_Z (COConcentrationPPB aq) in
  let coPPB :=
    if Float64.ltb coPPB Float64.zero then Float64.zero else coPPB in
  let storageResolution := 1 in
  {| Namespace := ns;
     MetricData :=
       [ {| MetricDatum.MetricName := CO_CONCENTRATION_PPB;
            MetricDatum.Value := coPPB;
            MetricDatum.Dimensions := dimensions;
            MetricDatum.Unit := StandardUnitNone;
            MetricDatum.StorageResolution := storageResolution |};
         {| MetricDatum.MetricName := TEMPERATURE_C;
            MetricDatum.Value := ifp (TemperatureC aq);
            MetricDatum.Dimensions := dimensions;
            MetricDatum.Unit := StandardUnitNone;
            MetricDatum.StorageResolution := storageResolution |};
         {| MetricDatum.MetricName := RELATIVE_HUMIDITY;
            MetricDatum.Value := ifp (RelativeHumidity aq);
            MetricDatum.Dimensions := dimensions;
            MetricDatum.Unit := StandardUnitNone;
            MetricDatum.StorageResolution := storageResolution |};
         {| MetricDatum.MetricName := UPTIME;
            MetricDatum.Value := ffp (time.Seconds (Uptime aq));
            MetricDatum.Dimensions := dimensions;
            MetricDatum.Unit := StandardUnitSeconds;
            MetricDatum.StorageResolution := storageResolution |} ] |}.

(** One round of the loop of [submitMetricsToCloudWatch] on the
    measurement [aq] it received from the channel. *)
Definition iteration (ns : string) (s : Submitter C)
    (aq : AirQualityMeasurement) : Submitter C :=
  match classify aq with
  | NotWarmedUp =>
      if negb (loggedAboutUptime s) then
        {| cw := cw s; loggedAboutUptime := true;
           logger := (logger s ++ [SkippingNotWarmedUp warmUpDuration])%list;
           sent := sent s |}
      else s
  | WarmedUp =>
      let params := params ns aq in
      let '(cw', err) := PutMetricData (cw s) params in
      {| cw := cw'; loggedAboutUptime := loggedAboutUptime s;
         logger :=
           match err with
           | Some e => (logger s ++ [SubmitFailed e])%list
           | None => logger s
           end;
         sent := (sent s ++ [params])%list |}
  end.

Definition started (client : C) : Submitter C :=
  {| cw := client; loggedAboutUptime := false; logger := []; sent := [] |}.

(** The loop, on the measurements it receives in order. *)
Definition submitMetricsToCloudWatch (client : C) (ns : string)
    (received : list AirQualityMeasurement) : Submitter C :=
  fold_left (iteration ns) received (started client).
End Submission.

(** *** The two goroutines of [main] and their channel

    A channel of Go with its capacity and the values it buffers;
    [make(chan T)] has capacity 0. *)
Record Chan := {
  capacity : nat;
  buffered : list AirQualityMeasurement
}.

Definition make (capacity : nat) : Chan :=
  {| capacity := capacity; buffered := [] |}.

(** Where the loop of [main] stands: at the call of
    [AnalyzeAirQuality], at [ch <- aq], or in [time.Sleep]. *)
Inductive Acquisition :=
| Analyzing
| Sending (aq : AirQualityMeasurement)
| Sleeping.

(** Where [submitMetricsToCloudWatch] stands: at [aq := <-ch], or
    between that and the return of [PutMetricData]. *)
Inductive Submission :=
| Receiving
| Submitting (aq : AirQualityMeasurement).

Record Pipeline := {
  acquisition : Acquisition;
  submission : Submission;
  ch : Chan;
  errors : list LogLine
}.

(** [ch := make(chan *iotco1000.AirQualityMeasurement)] and
    [go submitMetricsToCloudWatch(...)]. *)
Definition start : Pipeline :=
  {| acquisition := Analyzing; submission := Receiving; ch := make 0;
     errors := [] |}.

(** [AnalyzeAirQuality] returned [r]: an error is logged, a measurement
    goes to the send.  (The call never returns neither.) *)
Definition analyzed (r : Result) (p : Pipeline) : option Pipeline :=
  match acquisition p with
  | Analyzing =>
      match r with
      | (_, Some err) =>
          Some {| acquisition := Sleeping; submission := submission p;
                  ch := ch p; errors := (errors p ++ [Println err])%list |}
      | (Some aq, None) =>
          Some {| acquisition := Sending aq; submission := submission p;
                  ch := ch p; errors := errors p |}
      | (None, None) => None
      end
  | _ => None
  end.

(** [ch <- aq]: handed to a receiver that waits, else buffered if the
    channel has room, else the sender is blocked ([None]). *)
Definition send (p : Pipeline) : option Pipeline :=
  match acquisition p with
  | Sending aq =>
      match submission p, buffered (ch p) with
      | Receiving, [] =>
          Some {| acquisition := Sleeping; submission := Submitting aq;
                  ch := ch p; errors := errors p |}
      | _, _ =>
          if (List.length (buffered (ch p)) <? capacity (ch p))%nat then
            Some {| acquisition := Sleeping; submission := submission p;
                    ch := {| capacity := capacity (ch p);
                             buffered := (buffered (ch p) ++ [aq])%list |};
                    errors := errors p |}
          else None
      end
  | _ => None
  end.

(** [time.Sleep] is over. *)
Definition woken (p : Pipeline) : option Pipeline :=
  match acquisition p with
  | Sleeping =>
      Some {| acquisition := Analyzing; submission := submission p;
              ch := ch p; errors := errors p |}
  | _ => None
  end.

(** [aq := <-ch] on a buffered value; with nothing buffered the
    receiver waits for [send]. *)
Definition receive (p : Pipeline) : option Pipeline :=
  match submission p, buffered (ch p) with
  | Receiving, aq :: rest =>
      Some {| acquisition := acquisition p; submission := Submitting aq;
              ch := {| capacity := capacity (ch p); buffered := rest |};
              errors := errors p |}
  | _, _ => None
  end.

(** The round of the submission loop is over. *)
Definition submitted (p : Pipeline) : option Pipeline :=
  match submission p with
  | Submitting _ =>
      Some {| acquisition := acquisition p; submission := Receiving;
              ch := ch p; errors := errors p |}
  | Receiving => None
  end.

Inductive step (p p' : Pipeline) : Prop :=
| step_analyzed (r : Result) : analyzed r p = Some p' -> step p p'
| step_send : send p = Some p' -> step p p'
| step_woken : woken p = Some p' -> step p p'
| step_receive : receive p = Some p' -> step p p'
| step_submitted : submitted p = Some p' -> step p p'.

Inductive reachable : Pipeline -> Prop :=
| reachable_start : reachable start
| reachable_step p p' : reachable p -> step p p' -> reachable p'.

End main.

(** ** Package main, the text that follows package iotco1000 in
    [iotco1000/iotco1000.go]

    The variant of the submission loop that sends a batch for every
    measurement, with the indicator [SensorWarmedUp] and the dimension
    [SensorID]. *)

Module main2.
Import iotco1000 cwtypes cloudwatch.

Definition CO_CONCENTRATION_PPB : string := "COConcentrationPPB".
Definition TEMPERATURE_C : string := "TemperatureC".
Definition RELATIVE_HUMIDITY : string := "RelativeHumidity".
Definition UPTIME : string := "Uptime".
Definition SENSOR_ID : string := "SensorID".
Definition SENSOR_WARMED_UP : string := "SensorWarmedUp".

Definition metricDataInput (sensorWarmedUp : bool) (ns : string)
    (aq : AirQualityMeasurement) : PutMetricDataInput :=
  let storageResolution := 1 in
  let dimensions :=
    [ {| Dimension.Name := SENSOR_ID;
         Dimension.Value := SensorSerialNumber aq |} ] in
  if sensorWarmedUp then
    let warmedUp := Float64.of_Z 1 in
    let coPPB := Float64.of_Z (COConcentrationPPB aq) in
    let coPPB :=
      if Float64.ltb coPPB Float64.zero then Float64.zero else coPPB in
    {| Namespace := ns;
       MetricData :=
         [ {| MetricDatum.MetricName := CO_CONCENTRATION_PPB;
              MetricDatum.Value := coPPB;
              MetricDatum.Dimensions := dimensions;
              MetricDatum.Unit := StandardUnitNone;
              MetricDatum.StorageResolution := storageResolution |};
           {| MetricDatum.MetricName := TEMPERATURE_C;
              MetricDatum.Value := ifp (TemperatureC aq);
              MetricDatum.Dimensions := dimensions;
              MetricDatum.Unit := StandardUnitNone;
              MetricDatum.StorageResolution := storageResolution |};
           {| MetricDatum.MetricName := RELATIVE_HUMIDITY;
              MetricDatum.Value := ifp (RelativeHumidity aq);
              MetricDatum.Dimensions := dimensions;
              MetricDatum.Unit := StandardUnitNone;
              MetricDatum.StorageResolution := storageResolution |};
           {| MetricDatum.MetricName := UPTIME;
              MetricDatum.Value := ffp (time.Seconds (Uptime aq));
              MetricDatum.Dimensions := dimensions;
              MetricDatum.Unit := StandardUnitSeconds;
              MetricDatum.StorageResolution := storageResolution |};
           {| MetricDatum.MetricName := SENSOR_WARMED_UP;
              MetricDatum.Value := warmedUp;
              MetricDatum.Dimensions := dimensions;
              MetricDatum.Unit := StandardUnitNone;
              MetricDatum.StorageResolution := storageResolution |} ] |}
  else
    let warmedUp := Float64.zero in
    {| Namespace := ns;
       MetricData :=
         [ {| MetricDatum.MetricName := UPTIME;
              MetricDatum.Value := ffp (time.Seconds (Uptime aq));
              MetricDatum.Dimensions := dimensions;
              MetricDatum.Unit := StandardUnitSeconds;
              MetricDatum.StorageResolution := storageResolution |};
           {| MetricDatum.MetricName := SENSOR_WARMED_UP;
              MetricDatum.Value := warmedUp;
              MetricDatum.Dimensions := dimensions;
              MetricDatum.Unit := StandardUnitNone;
              MetricDatum.StorageResolution := storageResolution |} ] |}.

Record Submitter (C : Type) := {
  cw : C;
  loggedSensorNotWarmedUp : bool;
  loggedSensorActive : bool;
  logger : list LogLine;
  sent : list PutMetricDataInput
}.

Arguments cw {C} _.
Arguments loggedSensorNotWarmedUp {C} _.
Arguments loggedSensorActive {C} _.
Arguments logger {C} _.
Arguments sent {C} _.

Section Submission.
Context {C : Type} `{Client C}.

Definition iteration (ns : string) (s : Submitter C)
    (aq : AirQualityMeasurement) : Submitter C :=
  let '(notWarmedUp, active, lines, params) :=
    match classify aq with
    | NotWarmedUp =>
        if negb (loggedSensorNotWarmedUp s) then
          (true, loggedSensorActive s, [SkippingNotWarmedUp warmUpDuration],
           metricDataInput false ns aq)
        else
          (loggedSensorNotWarmedUp s, loggedSensorActive s, [],
           metricDataInput false ns aq)
    | WarmedUp =>
        if negb (loggedSensorActive s) then
          (loggedSensorNotWarmedUp s, true, [ActiveWillSubmit],
           metricDataInput true ns aq)
        else
          (loggedSensorNotWarmedUp s, loggedSensorActive s, [],
           metricDataInput true ns aq)
    end in
  let '(cw', err) := PutMetricData (cw s) params in
  {| cw := cw';
     loggedSensorNotWarmedUp := notWarmedUp;
     loggedSensorActive := active;
     logger :=
       (logger s ++ lines
          ++ match err with Some e => [SubmitFailed e] | None => [] end)%list;
     sent := (sent s ++ [params])%list |}.

Definition started (client : C) : Submitter C :=
  {| cw := client; loggedSensorNotWarmedUp := false;
     loggedSensorActive := false; logger := []; sent := [] |}.

Definition submitMetricsToCloudWatch (client : C) (ns : string)
    (received : list AirQualityMeasurement) : Submitter C :=
  fold_left (iteration ns) received (started client).
End Submission.

End main2.

(** A client that accepts every batch, and one that refuses every batch. *)
Inductive Accepting := accepting.
Inductive Refusing := refusing.

#[export] Instance Accepting_client : cloudwatch.Client Accepting := {
  PutMetricData c _ := (c, None)
}.

#[export] Instance Refusing_client : cloudwatch.Client Refusing := {
  PutMetricData c _ := (c, Some "RequestError: send request failed")
}.

(** ** Inputs and predicates of the statements below *)

(** The two lines of the specification's examples. *)
Definition warmLine : string :=
  line "ABC123, -5, 21, 40, x, x, x, 1, 0, 30, 15".
Definition coldLine : string :=
  line "ABC123, -5, 21, 40, x, x, x, 0, 1, 30, 15".

Definition warmReading : iotco1000.AirQualityMeasurement :=
  {| iotco1000.SensorSerialNumber := "ABC123";
     iotco1000.COConcentrationPPB := -5;
     iotco1000.TemperatureC := 21;
     iotco1000.RelativeHumidity := 40;
     iotco1000.Uptime := 88215 * time.Second;
     iotco1000.MeasurementTime := 1000 * time.Millisecond |}.

Definition coldReading : iotco1000.AirQualityMeasurement :=
  {| iotco1000.SensorSerialNumber := "ABC123";
     iotco1000.COConcentrationPPB := -5;
     iotco1000.TemperatureC := 21;
     iotco1000.RelativeHumidity := 40;
     iotco1000.Uptime := 5415 * time.Second;
     iotco1000.MeasurementTime := 1000 * time.Millisecond |}.

(** The buffer after one [Read] has stored [text] in it. *)
Definition frame (text : string) : list ascii :=
  iotco1000.store (list_ascii_of_string text) (repeat iotco1000.NUL 256).

(** [aq] holds, field by field, the conversions of the fields of the
    buffer and the time that was taken before the read. *)
Definition populated (byteBuffer : list ascii) (measurementTime : time.Time)
    (aq : iotco1000.AirQualityMeasurement) : Prop :=
  let d := strings.Split (string_of_list_ascii byteBuffer) ", " in
  exists COConcentrationPPB temperatureC relativeHumidity daysUp hoursUp
         minutesUp secondsUp daysUpInt hoursUpInt,
    nth_error d 0 = Some (iotco1000.SensorSerialNumber aq)
    /\ nth_error d 1 = Some COConcentrationPPB
    /\ nth_error d 2 = Some temperatureC
    /\ nth_error d 3 = Some relativeHumidity
    /\ nth_error d 7 = Some daysUp
    /\ nth_error d 8 = Some hoursUp
    /\ nth_error d 9 = Some minutesUp
    /\ nth_error d 10 = Some secondsUp
    /\ strconv.ParseInt COConcentrationPPB 10 32
         = (iotco1000.COConcentrationPPB aq, None)
    /\ strconv.ParseInt temperatureC 10 8 = (iotco1000.TemperatureC aq, None)
    /\ strconv.ParseInt relativeHumidity 10 8
         = (iotco1000.RelativeHumidity aq, None)
    /\ strconv.ParseInt daysUp 10 16 = (daysUpInt, None)
    /\ strconv.ParseInt hoursUp 10 8 = (hoursUpInt, None)
    /\ time.ParseDuration
         (iotco1000.uptimeDurationStr daysUpInt hoursUpInt minutesUp secondsUp)
         = (iotco1000.Uptime aq, None)
    /\ iotco1000.MeasurementTime aq = measurementTime.

(** The state in which the read loop of a call begins: the stimulus is
    written and the settle delay of one second is over. *)
Definition afterStimulus {P : Type} `{ReadWriteCloser P}
    (co : iotco1000.IOTCO1000 P) : iotco1000.IOTCO1000 P :=
  snd (iotco1000.Sleep (1000 * time.Millisecond)
         (snd (iotco1000.portWrite iotco1000.CRLF co))).

(** Some number of rounds brings the call to a return, of a measurement
    without an error or of an error without a measurement. *)
Definition returnsMeasurementOrError {P : Type} `{ReadWriteCloser P}
    (co : iotco1000.IOTCO1000 P) : Prop :=
  exists rounds r co',
    iotco1000.AnalyzeAirQuality rounds co = (Returns r, co')
    /\ ((exists aq, r = (Some aq, None)) \/ (exists e, r = (None, Some e))).

(** A line that ends after its third field. *)
Definition shortLine : string := line "ABC123, -5, 21".

(** The names of the metrics of a batch, and the values it gives to the
    metric [name]. *)
Definition metricNames (batch : cloudwatch.PutMetricDataInput) : list string :=
  map cwtypes.MetricDatum.MetricName (cloudwatch.MetricData batch).

Definition valuesOf (name : string) (batch : cloudwatch.PutMetricDataInput)
  : list float64 :=
  map cwtypes.MetricDatum.Value
    (filter (fun datum => String.eqb (cwtypes.MetricDatum.MetricName datum) name)
       (cloudwatch.MetricData batch)).

(** Every metric of the batch has the one dimension [key], with the
    serial number of the sensor as its value. *)
Definition dimensionedBy (key : string) (aq : iotco1000.AirQualityMeasurement)
    (batch : cloudwatch.PutMetricDataInput) : Prop :=
  Forall
    (fun datum =>
       cwtypes.MetricDatum.Dimensions datum =
       [ {| cwtypes.Dimension.Name := key;
            cwtypes.Dimension.Value := iotco1000.SensorSerialNumber aq |} ])
    (cloudwatch.MetricData batch).

(** One batch was sent, and the uptime is its only metric. *)
Definition sentOnlyUptime (sent : list cloudwatch.PutMetricDataInput) : Prop :=
  exists batch, sent = [batch] /\ metricNames batch = ["Uptime"].

(** Texts made of bytes of the cutset only, and texts that neither begin
    nor end with a byte of the cutset. *)
Fixpoint allIn (cutset s : string) : bool :=
  match s with
  | EmptyString => true
  | String c rest => containsByte cutset c && allIn cutset rest
  end.

Definition firstByte (s : string) : option ascii :=
  match s with
  | EmptyString => None
  | String c _ => Some c
  end.

Fixpoint lastByte (s : string) : option ascii :=
  match s with
  | EmptyString => None
  | String c EmptyString => Some c
  | String _ rest => lastByte rest
  end.

Definition outside (cutset : string) (b : option ascii) : Prop :=
  forall c, b = Some c -> containsByte cutset c = false.

Definition trimmed (cutset s : string) : Prop :=
  outside cutset (firstByte s) /\ outside cutset (lastByte s).

(** A sender that has reached [ch <- aq] can always go on. *)
Definition sendNeverBlocks : Prop :=
  forall p aq,
    main.reachable p -> main.acquisition p = main.Sending aq ->
    main.send p <> None.

(** The reading of the next poll, five seconds after [warmReading]. *)
Definition nextReading : iotco1000.AirQualityMeasurement :=
  {| iotco1000.SensorSerialNumber := "ABC123";
     iotco1000.COConcentrationPPB := -5;
     iotco1000.TemperatureC := 21;
     iotco1000.RelativeHumidity := 40;
     iotco1000.Uptime := 88220 * time.Second;
     iotco1000.MeasurementTime := 6000 * time.Millisecond |}.

(** The second measurement is ready while the first is being submitted. *)
Definition secondReadingReady : main.Pipeline :=
  {| main.acquisition := main.Sending nextReading;
     main.submission := main.Submitting warmReading;
     main.ch := main.make 0;
     main.errors := [] |}.

(** A line of 311 bytes: its fifth field alone has 270. *)
Definition longLine : string :=
  line ("ABC123, -5, 21, 40, " ++ string_of_list_ascii (repeat "x"%char 270)
          ++ ", x, x, 1, 0, 30, 15").

(** ** Decimal texts *)

(** The number a text of digits denotes, continuing from [acc]. *)
Fixpoint decimalValue (acc : Z) (s : string) : Z :=
  match s with
  | EmptyString => acc
  | String c rest => decimalValue (acc * 10 + digitVal c) rest
  end.

Fixpoint allDigits (s : string) : bool :=
  match s with
  | EmptyString => true
  | String c rest => isDigit c && allDigits rest
  end.

(** One digit or more, and nothing else. *)
Definition isNumeral (s : string) : bool := negb (isEmpty s) && allDigits s.

(** What follows a numeral: the end of the text, or a byte that is not a
    digit. *)
Definition endsNumeral (rest : string) : bool :=
  match rest with
  | EmptyString => true
  | String c _ => negb (isDigit c)
  end.

(** ** A port that follows a script

    [Write] gives the one answer [writeResult]; each [Read] takes the next
    entry of [reads]: the bytes that have arrived by then, and the error.
    Bytes that do not fit the slice wait for the next [Read]; when the
    script is over nothing arrives any more. *)
Record Script := {
  writeResult : Z * option error;
  reads : list (list ascii * option error)
}.

#[export] Instance Script_port : ReadWriteCloser Script := {
  Write p data := (p, writeResult p);
  Read p n :=
    match reads p with
    | [] => (p, ([], None))
    | (data, err) :: rest =>
        if (n <? List.length data)%nat then
          ({| writeResult := writeResult p;
              reads := (skipn n data, err) :: rest |},
           (firstn n data, None))
        else
          ({| writeResult := writeResult p; reads := rest |}, (data, err))
    end;
  Close p := (p, None)
}.

Definition scripted (writeResult : Z * option error)
    (reads : list (list ascii * option error)) : iotco1000.IOTCO1000 Script :=
  {| iotco1000.SerialPort :=
       {| writeResult := writeResult; reads := reads |};
     iotco1000.clock := 0;
     iotco1000.trace := [] |}.

(** The buffer after one [Read] has stored [data] in it. *)
Definition frameOf (data : list ascii) : list ascii :=
  iotco1000.store data (repeat iotco1000.NUL 256).

Definition ioError : error := "input/output error".


(** [strconv.ParseInt(s, 10, bitSize)] returned no error. *)
Definition converts (s : string) (bitSize : Z) : bool :=
  match strconv.ParseInt s 10 bitSize with
  | (_, None) => true
  | (_, Some _) => false
  end.

(** The error of [fmt.Errorf("failed converting <field> (%s) to int", s)]. *)
Definition failedConverting (field s : string) : iotco1000.Result :=
  (None, Some ("failed converting " ++ field ++ " (" ++ s ++ ") to int")).

(** ** The submission loops on any sequence of measurements *)

Definition warmedUp (aq : iotco1000.AirQualityMeasurement) : bool :=
  match classify aq with
  | WarmedUp => true
  | NotWarmedUp => false
  end.

(** What the client answers to a sequence of batches, in order. *)
Fixpoint answers {C : Type} `{cloudwatch.Client C} (client : C)
    (batches : list cloudwatch.PutMetricDataInput) : list (option error) :=
  match batches with
  | [] => []
  | batch :: rest =>
      let '(client', err) := cloudwatch.PutMetricData client batch in
      err :: answers client' rest
  end.

(** The log lines of the errors among the answers. *)
Definition failureLines (errs : list (option error)) : list LogLine :=
  flat_map (fun err => match err with
                       | Some e => [SubmitFailed e]
                       | None => []
                       end) errs.

Definition isFailureLine (l : LogLine) : bool := negb (isStateLine l).


(** The state lines that a run of the variant with two flags is to log:
    the line of the first measurement's state, and after it the line of
    the other state if a measurement in that state follows. *)
Definition stateLines (received : list iotco1000.AirQualityMeasurement)
  : list LogLine :=
  match received with
  | [] => []
  | aq :: rest =>
      if warmedUp aq then
        ActiveWillSubmit
          :: (if forallb warmedUp rest then []
              else [SkippingNotWarmedUp warmUpDuration])
      else
        SkippingNotWarmedUp warmUpDuration
          :: (if existsb warmedUp rest then [ActiveWillSubmit] else [])
  end.

(** The state lines still to come when the flags stand at
    [loggedSensorNotWarmedUp] and [loggedSensorActive]. *)
Definition linesToCome (loggedSensorNotWarmedUp loggedSensorActive : bool)
    (received : list iotco1000.AirQualityMeasurement) : list LogLine :=
  match loggedSensorNotWarmedUp, loggedSensorActive with
  | true, true => []
  | true, false => if existsb warmedUp received then [ActiveWillSubmit] else []
  | false, true =>
      if forallb warmedUp received then []
      else [SkippingNotWarmedUp warmUpDuration]
  | false, false => stateLines received
  end.

(** ** What passes through the channel of [main]

    A run of the two loops with what it has seen: the results that
    [AnalyzeAirQuality] returned, in order, and the measurements that the
    submission loop took from the channel, in order. *)

(** The measurement that the loop of [main] goes on to send: none when
    the call returned an error. *)
Definition forwarded (r : iotco1000.Result)
  : list iotco1000.AirQualityMeasurement :=
  match r with
  | (Some aq, None) => [aq]
  | _ => []
  end.

(** The line that the loop of [main] prints for the result. *)
Definition printed (r : iotco1000.Result) : list LogLine :=
  match r with
  | (_, Some err) => [Println err]
  | _ => []
  end.

(** The measurement that a step gave to the submission loop. *)
Definition taken (p p' : main.Pipeline)
  : list iotco1000.AirQualityMeasurement :=
  match main.submission p, main.submission p' with
  | main.Receiving, main.Submitting aq => [aq]
  | _, _ => []
  end.

(** The measurement that waits at [ch <- aq]. *)
Definition pending (p : main.Pipeline)
  : list iotco1000.AirQualityMeasurement :=
  match main.acquisition p with
  | main.Sending aq => [aq]
  | _ => []
  end.

Inductive history
  : main.Pipeline -> list iotco1000.Result
    -> list iotco1000.AirQualityMeasurement -> Prop :=
| history_start : history main.start [] []
| history_analyzed p p' r results received :
    history p results received ->
    main.analyzed r p = Some p' ->
    history p' (results ++ [r]) received
| history_moved p p' results received :
    history p results received ->
    main.send p = Some p' \/ main.woken p = Some p'
    \/ main.receive p = Some p' \/ main.submitted p = Some p' ->
    history p' results (received ++ taken p p').

(** ** The arguments of the program

    [parseArguments] is the same text in both packages main.  The model
    begins after [flag.Parse]: [Flags] holds the values that the three
    flags then point to, [defaults] what they hold when the command line
    sets none of them. *)
Record Flags := {
  pollInterval : Z;
  serialDevicePath : string;
  metricNamespace : string
}.

Definition defaults : Flags :=
  {| pollInterval := 5000; serialDevicePath := ""; metricNamespace := "" |}.

Record ApplicationArguments := {
  PollInterval : Z;
  MetricNamespace : string;
  SerialDevicePath : string
}.

Definition parseArguments (flags : Flags)
  : option ApplicationArguments * option error :=
  let missingArguments := [] in
  let missingArguments :=
    if String.eqb (serialDevicePath flags) "" then
      (missingArguments ++ ["serial-device-path"])%list
    else missingArguments in
  let missingArguments :=
    if String.eqb (metricNamespace flags) "" then
      (missingArguments ++ ["metric-namespace"])%list
    else missingArguments in
  if (0 <? List.length missingArguments)%nat then
    (None,
     Some ("missing required argument(s): "
             ++ strings.Join missingArguments ", "))
  else
    (Some {| PollInterval := pollInterval flags;
             SerialDevicePath := serialDevicePath flags;
             MetricNamespace := metricNamespace flags |},
     None).

(** * Properties *)

(** ** Integers *)

Lemma wrap_small (bits x : Z) :
  0 < bits -> - 2 ^ (bits - 1) <= x < 2 ^ (bits - 1) -> wrap bits x = x.
Proof.
  intros Hb Hx. unfold wrap.
  assert (H2 : 2 ^ bits = 2 * 2 ^ (bits - 1)).
  { replace bits with (Z.succ (bits - 1)) at 1 by lia.
    apply Z.pow_succ_r. lia. }
  rewrite Z.mod_small; lia.
Qed.

Lemma wrap_widen (small bits x : Z) :
  0 < small <= bits ->
  - 2 ^ (small - 1) <= x < 2 ^ (small - 1) -> wrap bits x = x.
Proof.
  intros Hb Hx. apply wrap_small; [lia|].
  assert (2 ^ (small - 1) <= 2 ^ (bits - 1)) by (apply Z.pow_le_mono_r; lia).
  lia.
Qed.

Lemma parseDigits_bound (base : Z) (s : string) :
  forall maxVal n v,
    0 <= n <= maxVal ->
    strconv.parseDigits base maxVal n s = (v, None) -> 0 <= v <= maxVal.
Proof.
  induction s as [|c rest IH]; intros maxVal n v Hn Hp; simpl in Hp.
  - inversion Hp; subst; assumption.
  - destruct (strconv.digitOf c) as [d|]; [|discriminate].
    destruct (base <=? d); [discriminate|].
    destruct (_ <=? n); [discriminate|].
    destruct (_ || _) eqn:Hcmp; [discriminate|].
    apply orb_false_iff in Hcmp. destruct Hcmp as [_ Hmax].
    apply Z.ltb_ge in Hmax.
    eapply IH; [|exact Hp].
    split; [|assumption].
    unfold uint64. apply Z.mod_pos_bound. lia.
Qed.

Lemma parseDigits_range (base : Z) (s : string) :
  forall maxVal n v,
    strconv.parseDigits base maxVal n s = (v, Some strconv.ErrRange) ->
    v = maxVal.
Proof.
  induction s as [|c rest IH]; intros maxVal n v Hp; simpl in Hp.
  - discriminate.
  - destruct (strconv.digitOf c) as [d|]; [|discriminate].
    destruct (base <=? d); [discriminate|].
    destruct (_ <=? n); [inversion Hp; reflexivity|].
    destruct (_ || _); [inversion Hp; reflexivity|].
    eapply IH; exact Hp.
Qed.

Lemma ParseUint_bound (s : string) (base bitSize v : Z) :
  0 < bitSize ->
  strconv.ParseUint s base bitSize = (v, None) -> 0 <= v <= 2 ^ bitSize - 1.
Proof.
  intros Hb Hp. unfold strconv.ParseUint in Hp.
  destruct (isEmpty s); [discriminate|].
  eapply parseDigits_bound; [|exact Hp].
  assert (0 < 2 ^ bitSize) by (apply Z.pow_pos_nonneg; lia). lia.
Qed.

(** A converted text lies in the range of the size asked for. *)
Lemma ParseInt_range (s : string) (base bitSize v : Z) :
  1 < bitSize < 64 ->
  strconv.ParseInt s base bitSize = (v, None) ->
  - 2 ^ (bitSize - 1) <= v < 2 ^ (bitSize - 1).
Proof.
  intros Hb Hp. unfold strconv.ParseInt in Hp.
  destruct s as [|c rest]; [discriminate|].
  set (neg := Ascii.eqb c "-") in *.
  set (digits := if (Ascii.eqb c "+" || neg)%bool then rest else String c rest) in *.
  destruct (strconv.ParseUint digits base bitSize) as [un [[]|]] eqn:Hu;
    try discriminate.
  - assert (un = 2 ^ bitSize - 1) as ->.
    { unfold strconv.ParseUint in Hu. destruct (isEmpty digits); [discriminate|].
      eapply parseDigits_range; exact Hu. }
    assert (H2 : 2 ^ bitSize = 2 * 2 ^ (bitSize - 1)).
    { replace bitSize with (Z.succ (bitSize - 1)) at 1 by lia.
      apply Z.pow_succ_r. lia. }
    assert (2 ^ 1 <= 2 ^ (bitSize - 1)) by (apply Z.pow_le_mono_r; lia).
    destruct neg; simpl in Hp.
    + destruct (Z.ltb_spec (2 ^ (bitSize - 1)) (2 ^ bitSize - 1)); [discriminate|lia].
    + destruct (Z.leb_spec (2 ^ (bitSize - 1)) (2 ^ bitSize - 1)); [discriminate|lia].
  - apply ParseUint_bound in Hu; [|lia].
    assert (Hpow : 2 ^ (bitSize - 1) <= 2 ^ 62) by (apply Z.pow_le_mono_r; lia).
    assert (0 < 2 ^ (bitSize - 1)) by (apply Z.pow_pos_nonneg; lia).
    destruct (negb neg && (2 ^ (bitSize - 1) <=? un))%bool eqn:H1; [discriminate|].
    destruct (neg && (2 ^ (bitSize - 1) <? un))%bool eqn:H2; [discriminate|].
    destruct neg; simpl in H1, H2.
    + apply Z.ltb_ge in H2. inversion Hp; subst v.
      unfold int64. rewrite (wrap_small 64 un) by lia.
      rewrite wrap_small by lia. lia.
    + apply Z.leb_gt in H1. inversion Hp; subst v.
      unfold int64. rewrite wrap_small by lia. lia.
Qed.

(** ** Conversion of small integers to [float64] *)

Lemma digits2_pos_iter_xO (p d : positive) :
  digits2_pos (Pos.iter xO p d) = (digits2_pos p + d)%positive.
Proof.
  induction d as [|d IH] using Pos.peano_ind.
  - simpl. lia.
  - rewrite Pos.iter_succ. simpl. rewrite IH. lia.
Qed.

Lemma digits2_pos_lower (p : positive) :
  2 ^ (Zpos (digits2_pos p) - 1) <= Zpos p.
Proof.
  induction p as [p IH|p IH|]; simpl digits2_pos.
  - rewrite Pos2Z.inj_succ.
    replace (Z.succ (Zpos (digits2_pos p)) - 1) with (Z.succ (Zpos (digits2_pos p) - 1)) by lia.
    rewrite Z.pow_succ_r by lia. lia.
  - rewrite Pos2Z.inj_succ.
    replace (Z.succ (Zpos (digits2_pos p)) - 1) with (Z.succ (Zpos (digits2_pos p) - 1)) by lia.
    rewrite Z.pow_succ_r by lia. lia.
  - simpl. lia.
Qed.

Lemma digits2_pos_bound (p : positive) (n : Z) :
  0 <= n -> Zpos p < 2 ^ n -> Zpos (digits2_pos p) <= n.
Proof.
  intros Hn Hp.
  destruct (Z_le_gt_dec (Zpos (digits2_pos p)) n) as [|Hgt]; [assumption|].
  pose proof (digits2_pos_lower p) as Hl.
  assert (2 ^ n <= 2 ^ (Zpos (digits2_pos p) - 1)) by (apply Z.pow_le_mono_r; lia).
  lia.
Qed.

(** A mantissa that already sits at its exponent is kept as it is. *)
Lemma binary_round_aux_exact (s : bool) (m : positive) (e : Z) :
  fexp Float64.prec Float64.emax (Zpos (digits2_pos m) + e) = e ->
  e <= Float64.emax - Float64.prec ->
  binary_round_aux Float64.prec Float64.emax s (Zpos m) e loc_Exact
  = S754_finite s m e.
Proof.
  intros Hf He.
  unfold binary_round_aux, shr_fexp.
  cbn [Zdigits2 shr_record_of_loc].
  rewrite Hf, Z.sub_diag.
  cbn [shr shr_m loc_of_shr_record round_nearest_even Zdigits2
       shr_record_of_loc].
  rewrite Hf, Z.sub_diag. cbn [shr shr_m].
  apply Z.leb_le in He. rewrite He. reflexivity.
Qed.

Lemma binary_round_small (s : bool) (p : positive) :
  Zpos p < 2 ^ 53 ->
  exists m e, binary_round Float64.prec Float64.emax s p 0 = S754_finite s m e.
Proof.
  intros Hp.
  pose proof (digits2_pos_bound p 53 ltac:(lia) Hp) as Hd.
  unfold binary_round.
  assert (Hfexp : fexp Float64.prec Float64.emax (Zpos (digits2_pos p) + 0)
                  = Zpos (digits2_pos p) - 53).
  { unfold fexp, emin, Float64.prec, Float64.emax. lia. }
  rewrite Hfexp. unfold shl_align.
  destruct (Zpos (digits2_pos p) - 53 - 0) as [|q|q] eqn:Hq; try lia.
  - exists p, 0. apply binary_round_aux_exact.
    + unfold fexp, emin, Float64.prec, Float64.emax. lia.
    + unfold Float64.prec, Float64.emax. lia.
  - eexists _, _. apply binary_round_aux_exact.
    + rewrite digits2_pos_iter_xO.
      unfold fexp, emin, Float64.prec, Float64.emax. lia.
    + unfold Float64.prec, Float64.emax. lia.
Qed.

Lemma of_Z_negative (z : Z) :
  - 2 ^ 53 < z < 0 -> Float64.ltb (Float64.of_Z z) Float64.zero = true.
Proof.
  intros Hz. destruct z as [|p|p]; try lia.
  unfold Float64.of_Z, binary_normalize.
  destruct (binary_round_small true p) as (m & e & ->); [lia|].
  reflexivity.
Qed.

(** ** Run-time index checks *)

Lemma index_nth_error {A} (l : list A) (i : Z) :
  0 <= i ->
  index l i =
  match nth_error l (Z.to_nat i) with
  | Some a => Returns a
  | None => Panics (IndexOutOfRange i (Z.of_nat (List.length l)))
  end.
Proof.
  intros Hi. unfold index.
  destruct (Z.leb_spec 0 i); [|lia].
  destruct (Z.ltb_spec i (Z.of_nat (List.length l))) as [Hlt|Hge]; simpl.
  - reflexivity.
  - assert (Hn : nth_error l (Z.to_nat i) = None) by (apply nth_error_None; lia).
    rewrite Hn. reflexivity.
Qed.

(** ** The parser *)

Section Parser.
Import iotco1000.

(** C1.  The specification asks that a line with fewer than 11 fields
    gives a parse error that names a field.  The code indexes the fields
    without looking at their number: on every buffer that splits into
    fewer than 11 fields [parse] stops on the fault "index out of range",
    at the first of the indices 1, 2, 3, 7, 8, 9, 10 that the line does
    not have. *)
Theorem parse_short_line_panics (byteBuffer : list ascii) (t : time.Time) :
  let d := strings.Split (string_of_list_ascii byteBuffer) ", " in
  (List.length d < 11)%nat ->
  exists i,
    Z.of_nat (List.length d) <= i <= 10 /\
    parse byteBuffer t = Panics (IndexOutOfRange i (Z.of_nat (List.length d))).
Proof.
  intros d Hd. unfold parse. fold d. clearbody d.
  rewrite !index_nth_error by lia.
  do 11 (destruct d as [|? d];
         [ cbn; eexists; split; [|reflexivity]; lia | ]).
  cbn in Hd. lia.
Qed.

Lemma parse_short_line_panics_witness :
  exists i,
    3 <= i <= 10 /\ parse (frame shortLine) 0 = Panics (IndexOutOfRange i 3).
Proof.
  apply (parse_short_line_panics (frame shortLine) 0).
  vm_compute. lia.
Defined.

(** The same line, from the port to the fault. *)
Example short_line_end_to_end :
  fst (AnalyzeAirQuality 1 (sensor shortLine)) = Panics (IndexOutOfRange 3 3).
Proof. vm_compute. reflexivity. Qed.

Lemma int_ParseInt (s : string) (base bitSize v : Z) :
  1 < bitSize <= 32 ->
  strconv.ParseInt s base bitSize = (v, None) -> int v = v.
Proof.
  intros Hb Hp. apply ParseInt_range in Hp; [|lia].
  unfold int, intSize. apply (wrap_widen bitSize); lia.
Qed.

Ltac field d n x H :=
  destruct (nth_error d n) as [x|] eqn:H; [cbn [bindO]|discriminate].

Ltac convert s bits v H :=
  destruct (strconv.ParseInt s 10 bits) as [v [?|]] eqn:H;
  [ intros Hr; inversion Hr; right; eexists; reflexivity | ].

(** What [parse] returns is a whole measurement without an error, or an
    error without a measurement. *)
Lemma parse_Returns (byteBuffer : list ascii) (t : time.Time) (r : Result) :
  parse byteBuffer t = Returns r ->
  (exists aq, r = (Some aq, None) /\ populated byteBuffer t aq)
  \/ (exists e, r = (None, Some e)).
Proof.
  unfold parse, populated.
  set (d := strings.Split (string_of_list_ascii byteBuffer) ", ").
  clearbody d. rewrite !index_nth_error by lia.
  change (Z.to_nat 0) with 0%nat. change (Z.to_nat 1) with 1%nat.
  change (Z.to_nat 2) with 2%nat. change (Z.to_nat 3) with 3%nat.
  change (Z.to_nat 7) with 7%nat. change (Z.to_nat 8) with 8%nat.
  change (Z.to_nat 9) with 9%nat. change (Z.to_nat 10) with 10%nat.
  field d 0%nat serialNumber H0. field d 1%nat co H1.
  field d 2%nat temp H2. field d 3%nat hum H3.
  field d 7%nat days H7. field d 8%nat hours H8.
  field d 9%nat minutes H9. field d 10%nat seconds H10.
  convert co 32 COInt Hco. convert temp 8 tInt Ht. convert hum 8 hInt Hh.
  convert days 16 dInt Hd. convert hours 8 hrInt Hhr.
  destruct (time.ParseDuration _) as [uptime [?|]] eqn:Hup;
    [ intros Hr; inversion Hr; right; eexists; reflexivity | ].
  intros Hr. inversion Hr; subst r. left. eexists. split; [reflexivity|].
  cbn [SensorSerialNumber COConcentrationPPB TemperatureC RelativeHumidity
       Uptime MeasurementTime].
  rewrite (int_ParseInt co 10 32 COInt ltac:(lia) Hco),
          (int_ParseInt temp 10 8 tInt ltac:(lia) Ht),
          (int_ParseInt hum 10 8 hInt ltac:(lia) Hh).
  exists co, temp, hum, days, hours, minutes, seconds, dInt, hrInt.
  repeat split; assumption.
Qed.
Lemma parse_not_Running (byteBuffer : list ascii) (t : time.Time) :
  parse byteBuffer t <> Running.
Proof.
  unfold parse.
  set (d := strings.Split (string_of_list_ascii byteBuffer) ", "). clearbody d.
  rewrite !index_nth_error by lia.
  do 8 (match goal with
        | |- context [nth_error d ?i] =>
            destruct (nth_error d i); cbn [bindO]; try discriminate
        end).
  do 5 (match goal with
        | |- context [strconv.ParseInt ?x 10 ?b] =>
            destruct (strconv.ParseInt x 10 b) as [? [?|]]; try discriminate
        end).
  destruct (time.ParseDuration _) as [? [?|]]; discriminate.
Qed.

End Parser.

(** ** AnalyzeAirQuality *)

Section Rounds.
Import iotco1000.
Context {P : Type} `{ReadWriteCloser P}.

(** C10.  When [Write] reports no error and no byte written, the call
    returns the error "failed to write to IOTCO1000 serial device" and
    no measurement; the write is all it did to the port: it did not
    sleep and it did not read. *)
Theorem zero_bytes_written_is_an_error
    (co : IOTCO1000 P) (rounds : nat) (p' : P) :
  Write (SerialPort co) CRLF = (p', (0, None)) ->
  exists co',
    AnalyzeAirQuality rounds co =
      (Returns (None, Some "failed to write to IOTCO1000 serial device"), co')
    /\ SerialPort co' = p'
    /\ clock co' = clock co
    /\ trace co' = (trace co ++ [EvWrite CRLF 0 None])%list.
Proof.
  intros Hw. eexists. unfold AnalyzeAirQuality, bind, portWrite.
  rewrite Hw. cbn. repeat split.
Qed.

(** More rounds do not change a call that has come to its end. *)
Lemma readFrame_rounds (k j : nat) :
  forall byteBuffer totalBytesRead (co co' : IOTCO1000 P) o,
    readFrame k byteBuffer totalBytesRead co = (o, co') ->
    o <> Running ->
    readFrame (j + k) byteBuffer totalBytesRead co = (o, co').
Proof.
  induction k as [|k IH]; intros buf total co co' o Hr Ho.
  - cbn in Hr. inversion Hr; subst. contradiction.
  - replace (j + S k)%nat with (S (j + k)) by lia.
    cbn [readFrame] in *. unfold bind in *.
    destruct (portRead (List.length buf) co) as [[[data err]| |] co1];
      try exact Hr.
    destruct err as [e|]; [exact Hr|].
    destruct (_ =? 0).
    + destruct (Sleep _ co1) as [[[]| |] co2]; try exact Hr.
      apply IH; assumption.
    + destruct (lift _ co1) as [[b| |] co2]; try exact Hr.
      destruct (Ascii.eqb b LF); [exact Hr|].
      destruct (Sleep _ co2) as [[[]| |] co3]; try exact Hr.
      apply IH; assumption.
Qed.

Lemma AnalyzeAirQuality_rounds (k j : nat) (co co' : IOTCO1000 P) o :
  AnalyzeAirQuality k co = (o, co') ->
  o <> Running ->
  AnalyzeAirQuality (j + k) co = (o, co').
Proof.
  unfold AnalyzeAirQuality, bind. intros Hr Ho.
  destruct (portWrite CRLF co) as [[[n err]| |] co1]; try exact Hr.
  destruct err as [e|]; [exact Hr|].
  destruct (n =? 0); [exact Hr|].
  destruct (Sleep _ co1) as [[[]| |] co2]; try exact Hr.
  destruct (Now co2) as [[t| |] co3]; try exact Hr.
  destruct (readFrame k _ _ co3) as [o1 co4] eqn:Hk.
  destruct o1 as [fr| |].
  - rewrite (readFrame_rounds k j _ _ _ _ _ Hk) by discriminate. exact Hr.
  - rewrite (readFrame_rounds k j _ _ _ _ _ Hk) by discriminate. exact Hr.
  - inversion Hr; subst. contradiction.
Qed.

(** C7, as amended.  A call that returns, returns a measurement without
    an error or an error without a measurement.  The measurement is
    populated from the one frame with which the read loop of this call
    left: it is what [parse] makes of that frame, its serial number is
    field 0 of the frame, its readings and its uptime are the conversions
    of the fields 1, 2, 3 and 7 to 10 of the frame, and its time is the
    time taken after the settle delay of one second.  No field is left
    as it was or filled from anything else.  (A call need not return:
    see [silent_or_short_never_returns].) *)
Theorem AnalyzeAirQuality_all_or_nothing
    (co co' : IOTCO1000 P) (rounds : nat) (r : Result) :
  AnalyzeAirQuality rounds co = (Returns r, co') ->
  (exists aq byteBuffer,
      r = (Some aq, None)
      /\ readFrame rounds (repeat NUL 256) 0 (afterStimulus co)
         = (Returns (inl byteBuffer), co')
      /\ parse byteBuffer (clock co + 1000 * time.Millisecond)
         = Returns (Some aq, None)
      /\ populated byteBuffer (clock co + 1000 * time.Millisecond) aq)
  \/ (exists e, r = (None, Some e)).
Proof.
  unfold AnalyzeAirQuality, afterStimulus, bind, portWrite.
  destruct (Write (SerialPort co) CRLF) as [p [n err]].
  cbn [record snd].
  destruct err as [e|].
  { intros Hr. inversion Hr. right. eexists. reflexivity. }
  destruct (n =? 0).
  { intros Hr. inversion Hr. right. eexists. reflexivity. }
  cbn [Sleep Now record clock SerialPort trace snd].
  match goal with
  | |- context [readFrame rounds ?b ?t ?c] =>
      destruct (readFrame rounds b t c) as [[[buf|e]| |] co1]
  end; try discriminate.
  - unfold lift. intros Hr. inversion Hr as [[Hp Hco]]. subst co1.
    destruct (parse_Returns _ _ _ Hp) as [(aq & Heq & Hpop)|(e & ->)].
    + left. exists aq, buf. subst r.
      split; [reflexivity|]. split; [reflexivity|].
      split; [exact Hp|exact Hpop].
    + right. eexists. reflexivity.
  - intros Hr. inversion Hr. right. eexists. reflexivity.
Qed.
End Rounds.

Section Calls.
Import iotco1000.

Lemma Sensor_reads_within_slice : ReadWithinSlice (P := Sensor).
Proof. intros p n. cbn. rewrite length_firstn. lia. Qed.

Lemma Unplugged_reads_within_slice : ReadWithinSlice (P := Unplugged).
Proof. intros p n. cbn. lia. Qed.


Lemma zero_bytes_written_is_an_error_witness :
  exists co',
    AnalyzeAirQuality 3
      {| SerialPort := unplugged; clock := 0; trace := [] |} =
      (Returns (None, Some "failed to write to IOTCO1000 serial device"), co')
    /\ SerialPort co' = unplugged
    /\ clock co' = 0
    /\ trace co' = [EvWrite CRLF 0 None].
Proof.
  apply (zero_bytes_written_is_an_error
           {| SerialPort := unplugged; clock := 0; trace := [] |} 3 unplugged).
  reflexivity.
Defined.

Lemma readFrame_silent (rounds : nat) :
  forall byteBuffer (co : IOTCO1000 Sensor),
    queue (SerialPort co) = [] ->
    fst (readFrame rounds byteBuffer 0 co) = Running.
Proof.
  induction rounds as [|rounds IH]; intros buf co Hq.
  - reflexivity.
  - cbn [readFrame]. unfold bind, portRead. cbn [Read Sensor_port].
    rewrite Hq, firstn_nil, skipn_nil.
    cbn. apply IH. reflexivity.
Qed.

(** C7, as stated, fails.  A sensor that stays silent keeps the call in
    its loop whatever the number of rounds, and a line of three fields
    ends the call on a fault: neither call returns a measurement or an
    error. *)
Lemma silent_or_short_never_returns :
  ~ returnsMeasurementOrError (sensor "")
  /\ ~ returnsMeasurementOrError (sensor shortLine).
Proof.
  split; intros (rounds & r & co' & Hr & _).
  - assert (Hs : fst (AnalyzeAirQuality rounds (sensor "")) = Running).
    { unfold AnalyzeAirQuality, bind. cbn.
      match goal with
      | |- context [readFrame rounds ?b 0 ?c] =>
          pose proof (readFrame_silent rounds b c eq_refl) as Hs;
          destruct (readFrame rounds b 0 c) as [o c']
      end.
      cbn in Hs. subst o. reflexivity. }
    rewrite Hr in Hs. discriminate.
  - destruct rounds as [|rounds].
    + vm_compute in Hr. discriminate.
    + destruct (AnalyzeAirQuality 1 (sensor shortLine)) as [o co1] eqn:H1.
      assert (Ho : o = Panics (IndexOutOfRange 3 3)).
      { apply (f_equal fst) in H1. vm_compute in H1. symmetry. exact H1. }
      subst o.
      pose proof (AnalyzeAirQuality_rounds 1 rounds _ _ _ H1
                    ltac:(discriminate)) as H2.
      replace (rounds + 1)%nat with (S rounds) in H2 by lia.
      rewrite Hr in H2. discriminate.
Qed.

Lemma AnalyzeAirQuality_all_or_nothing_witness :
  (exists aq byteBuffer,
      (Some warmReading, @None error) = (Some aq, None)
      /\ readFrame 1 (repeat NUL 256) 0 (afterStimulus (sensor warmLine))
         = (Returns (inl byteBuffer),
            snd (AnalyzeAirQuality 1 (sensor warmLine)))
      /\ parse byteBuffer (0 + 1000 * time.Millisecond)
         = Returns (Some aq, None)
      /\ populated byteBuffer (0 + 1000 * time.Millisecond) aq)
  \/ (exists e, (Some warmReading, @None error) = (None, Some e)).
Proof.
  apply (AnalyzeAirQuality_all_or_nothing (sensor warmLine)
           (snd (AnalyzeAirQuality 1 (sensor warmLine))) 1
           (Some warmReading, None)).
  vm_compute. reflexivity.
Defined.
End Calls.

(** ** Trimming and the uptime *)

Section Trim.
Variable cutset : string.

Lemma isEmpty_true (s : string) : isEmpty s = true -> s = EmptyString.
Proof. destruct s; [reflexivity|discriminate]. Qed.

Lemma TrimRight_spec (s : string) :
  exists post,
    s = strings.TrimRight s cutset ++ post
    /\ allIn cutset post = true
    /\ outside cutset (lastByte (strings.TrimRight s cutset)).
Proof.
  induction s as [|c rest (post & Hrest & Hpost & Hlast)].
  - exists EmptyString. repeat split. intros c Hc. discriminate.
  - cbn [strings.TrimRight].
    destruct (isEmpty (strings.TrimRight rest cutset)) eqn:He;
      [destruct (containsByte cutset c) eqn:Hc|]; cbn [andb].
    + apply isEmpty_true in He. rewrite He in Hrest. cbn in Hrest.
      exists (String c rest). repeat split.
      * cbn. rewrite Hc, Hrest. exact Hpost.
      * intros b Hb. discriminate.
    + apply isEmpty_true in He. rewrite He in *.
      exists post. repeat split.
      * cbn. cbn in Hrest. congruence.
      * exact Hpost.
      * intros b Hb. cbn in Hb. congruence.
    + exists post. repeat split.
      * cbn. congruence.
      * exact Hpost.
      * intros b Hb. apply Hlast.
        destruct (strings.TrimRight rest cutset); [discriminate|exact Hb].
Qed.

Lemma lastByte_TrimLeft (s : string) :
  strings.TrimLeft s cutset = EmptyString
  \/ lastByte (strings.TrimLeft s cutset) = lastByte s.
Proof.
  induction s as [|c rest IH]; [left; reflexivity|].
  cbn [strings.TrimLeft].
  destruct (containsByte cutset c); [|right; reflexivity].
  destruct IH as [IH|IH]; [left; exact IH|].
  destruct rest as [|c' rest']; [left; reflexivity|].
  right. rewrite IH. reflexivity.
Qed.

Lemma TrimLeft_spec (s : string) :
  exists pre,
    s = pre ++ strings.TrimLeft s cutset
    /\ allIn cutset pre = true
    /\ outside cutset (firstByte (strings.TrimLeft s cutset)).
Proof.
  induction s as [|c rest (pre & Hrest & Hpre & Hfirst)].
  - exists EmptyString. repeat split. intros c Hc. discriminate.
  - cbn [strings.TrimLeft]. destruct (containsByte cutset c) eqn:Hc.
    + exists (String c pre). repeat split.
      * cbn. congruence.
      * cbn. rewrite Hc. exact Hpre.
      * exact Hfirst.
    + exists EmptyString. repeat split.
      intros b Hb. cbn in Hb. congruence.
Qed.

(** [Trim] takes away a run of cutset bytes at each end, and what it
    leaves neither begins nor ends with one. *)
Lemma Trim_spec (s : string) :
  exists pre post,
    s = pre ++ strings.Trim s cutset ++ post
    /\ allIn cutset pre = true
    /\ allIn cutset post = true
    /\ trimmed cutset (strings.Trim s cutset).
Proof.
  unfold strings.Trim.
  destruct (TrimRight_spec s) as (post & Hs & Hpost & Hlast).
  destruct (TrimLeft_spec (strings.TrimRight s cutset))
    as (pre & Hr & Hpre & Hfirst).
  exists pre, post. repeat split; try assumption.
  - rewrite Hs at 1. rewrite Hr at 1.
    clear. induction pre as [|c pre IH]; [reflexivity|].
    cbn. rewrite IH. reflexivity.
  - destruct (lastByte_TrimLeft (strings.TrimRight s cutset)) as [He|He].
    + rewrite He. intros c Hc. discriminate.
    + rewrite He. exact Hlast.
Qed.
End Trim.

Section Uptime.
Import iotco1000 cloudwatch.

(** C6.  The uptime of a measurement that [parse] returns is the
    duration written "{days*24+hours}h{minutes}m{seconds}s": the hours
    are the sum of the converted fields 7 and 8, the minutes are field 9
    as it stands, and the seconds are field 10 without the run of
    space, CR, LF and NUL bytes at its ends.  The line of the example
    with days 1, hours 0, minutes 30 and seconds 15 gives the string
    "24h30m15s" and the uptime 24h30m15s; the measurement is warmed up,
    and its batch has CO 0, temperature 21, humidity 40 and uptime
    88215 seconds, each with the dimension of the serial number
    "ABC123". *)
Theorem uptime_composed_from_fields :
  (forall (byteBuffer : list ascii) (t : time.Time) (aq : AirQualityMeasurement),
      parse byteBuffer t = Returns (Some aq, None) ->
      let d := strings.Split (string_of_list_ascii byteBuffer) ", " in
      exists daysUp hoursUp minutesUp secondsUp daysUpInt hoursUpInt
             pre seconds post,
        nth_error d 7 = Some daysUp
        /\ nth_error d 8 = Some hoursUp
        /\ nth_error d 9 = Some minutesUp
        /\ nth_error d 10 = Some secondsUp
        /\ strconv.ParseInt daysUp 10 16 = (daysUpInt, None)
        /\ strconv.ParseInt hoursUp 10 8 = (hoursUpInt, None)
        /\ secondsUp = pre ++ seconds ++ post
        /\ allIn cutset pre = true
        /\ allIn cutset post = true
        /\ trimmed cutset seconds
        /\ time.ParseDuration
             (strconv.FormatInt (daysUpInt * 24 + hoursUpInt) ++ "h"
                ++ minutesUp ++ "m" ++ seconds ++ "s")
           = (Uptime aq, None))
  /\ (exists co',
        AnalyzeAirQuality 1 (sensor warmLine)
        = (Returns (Some warmReading, None), co'))
  /\ uptimeDurationStr 1 0 "30"
       (String "1" (String "5" (String LF (String NUL EmptyString))))
     = "24h30m15s"
  /\ Uptime warmReading = 24 * time.Hour + 30 * time.Minute + 15 * time.Second
  /\ classify warmReading = WarmedUp
  /\ (exists batch,
        main.sent (main.iteration "aqgo" (main.started accepting) warmReading)
        = [batch]
        /\ metricNames batch
           = ["COConcentrationPPB"; "TemperatureC"; "RelativeHumidity"; "Uptime"]
        /\ valuesOf "COConcentrationPPB" batch = [Float64.zero]
        /\ valuesOf "TemperatureC" batch = [Float64.of_Z 21]
        /\ valuesOf "RelativeHumidity" batch = [Float64.of_Z 40]
        /\ valuesOf "Uptime" batch = [Float64.of_Z 88215]
        /\ dimensionedBy "SensorSerialNumber" warmReading batch
        /\ SensorSerialNumber warmReading = "ABC123").
Proof.
  split; [|split; [|split; [|split; [|split]]]].
  - intros buf t aq Hp d.
    destruct (parse_Returns _ _ _ Hp) as [(aq' & Heq & Hpop)|(e & He)];
      [|discriminate].
    inversion Heq; subst aq'. clear Heq.
    destruct Hpop as (co & temp & hum & days & hours & minutes & seconds
                      & dInt & hrInt & _ & _ & _ & _ & H7 & H8 & H9 & H10
                      & _ & _ & _ & Hd & Hh & Hup & _).
    destruct (Trim_spec cutset seconds) as (pre & post & Hs & Hpre & Hpost & Ht).
    exists days, hours, minutes, seconds, dInt, hrInt, pre,
      (strings.Trim seconds cutset), post.
    repeat split; try assumption; try apply Ht.
    unfold uptimeDurationStr in Hup.
    pose proof (ParseInt_range days 10 16 _ ltac:(lia) Hd) as Hdr.
    pose proof (ParseInt_range hours 10 8 _ ltac:(lia) Hh) as Hhr.
    unfold int64 in Hup. rewrite (wrap_widen 21 64) in Hup by lia.
    exact Hup.
  - eexists. vm_compute. reflexivity.
  - vm_compute. reflexivity.
  - reflexivity.
  - reflexivity.
  - eexists. split; [reflexivity|].
    repeat split; try (vm_compute; reflexivity).
    repeat constructor.
Qed.
End Uptime.

(** The other line of the example, with days 0 and hours 1: the uptime is
    1h30m15s and the measurement is not warmed up. *)
Example cold_line_end_to_end :
  fst (iotco1000.AnalyzeAirQuality 1 (sensor coldLine))
  = Returns (Some coldReading, None)
  /\ iotco1000.Uptime coldReading
     = 1 * time.Hour + 30 * time.Minute + 15 * time.Second
  /\ classify coldReading = NotWarmedUp.
Proof. repeat split; vm_compute; reflexivity. Qed.

(** The batch of the variant with the indicator for the warmed-up line:
    the same four values, the indicator 1, and the dimension [SensorID]. *)
Example warm_batch_with_indicator :
  let batch := main2.metricDataInput true "aqgo" warmReading in
  metricNames batch
  = ["COConcentrationPPB"; "TemperatureC"; "RelativeHumidity"; "Uptime";
     "SensorWarmedUp"]
  /\ valuesOf "COConcentrationPPB" batch = [Float64.zero]
  /\ valuesOf "TemperatureC" batch = [Float64.of_Z 21]
  /\ valuesOf "RelativeHumidity" batch = [Float64.of_Z 40]
  /\ valuesOf "Uptime" batch = [Float64.of_Z 88215]
  /\ valuesOf "SensorWarmedUp" batch = [Float64.of_Z 1]
  /\ dimensionedBy "SensorID" warmReading batch.
Proof.
  repeat split; try (vm_compute; reflexivity). repeat constructor.
Qed.

Lemma uptime_composed_from_fields_witness :
  let d := strings.Split (string_of_list_ascii (frame warmLine)) ", " in
  exists daysUp hoursUp minutesUp secondsUp daysUpInt hoursUpInt
         pre seconds post,
    nth_error d 7 = Some daysUp
    /\ nth_error d 8 = Some hoursUp
    /\ nth_error d 9 = Some minutesUp
    /\ nth_error d 10 = Some secondsUp
    /\ strconv.ParseInt daysUp 10 16 = (daysUpInt, None)
    /\ strconv.ParseInt hoursUp 10 8 = (hoursUpInt, None)
    /\ secondsUp = pre ++ seconds ++ post
    /\ allIn iotco1000.cutset pre = true
    /\ allIn iotco1000.cutset post = true
    /\ trimmed iotco1000.cutset seconds
    /\ time.ParseDuration
         (strconv.FormatInt (daysUpInt * 24 + hoursUpInt) ++ "h"
            ++ minutesUp ++ "m" ++ seconds ++ "s")
       = (iotco1000.Uptime warmReading, None).
Proof.
  apply (proj1 uptime_composed_from_fields (frame warmLine)
           (1000 * time.Millisecond) warmReading).
  vm_compute. reflexivity.
Defined.

(** ** A response longer than the buffer *)

Section Overrun.
Import iotco1000.

Lemma store_length (data byteBuffer : list ascii) :
  (List.length data <= List.length byteBuffer)%nat ->
  List.length (store data byteBuffer) = List.length byteBuffer.
Proof.
  intros Hl. unfold store. rewrite length_app, length_skipn. lia.
Qed.

Lemma index_out_of_range {A} (l : list A) (i : Z) :
  Z.of_nat (List.length l) <= i ->
  index l i = Panics (IndexOutOfRange i (Z.of_nat (List.length l))).
Proof.
  intros Hi. unfold index.
  destruct (Z.ltb_spec i (Z.of_nat (List.length l))); [lia|].
  rewrite andb_false_r. reflexivity.
Qed.

Lemma int_small (x : Z) : 0 <= x <= 512 -> int x = x.
Proof. intros Hx. unfold int, intSize. apply wrap_small; lia. Qed.

(** The loop on a port that holds more than the buffer: the second
    [Read] carries the count past the end of the buffer. *)
Lemma readFrame_overrun (co : IOTCO1000 Sensor) (byteBuffer : list ascii) :
  let q := queue (SerialPort co) in
  List.length byteBuffer = 256%nat ->
  (256 < List.length q)%nat ->
  nth_error q 255 <> Some LF ->
  fst (readFrame 2 byteBuffer 0 co)
  = Panics (IndexOutOfRange
              (Z.of_nat (Nat.min (List.length q) 512) - 1) 256).
Proof.
  intros q Hbuf Hq Hlf.
  cbn [readFrame]. unfold bind at 1. unfold portRead at 1.
  cbn [Read Sensor_port]. fold q. rewrite Hbuf.
  set (data1 := firstn 256 q).
  assert (Hd1 : List.length data1 = 256%nat)
    by (unfold data1; rewrite length_firstn; lia).
  set (buf1 := store data1 byteBuffer).
  assert (Hb1 : List.length buf1 = 256%nat)
    by (unfold buf1; rewrite store_length; lia).
  rewrite Hd1. change (int (0 + Z.of_nat 256)) with 256.
  cbn [Z.eqb]. unfold bind at 1. unfold lift at 1.
  rewrite index_nth_error by lia. change (Z.to_nat (256 - 1)) with 255%nat.
  assert (Hn : nth_error buf1 255 = nth_error q 255).
  { unfold buf1, store. rewrite nth_error_app1 by lia.
    unfold data1. rewrite nth_error_firstn. reflexivity. }
  rewrite Hn.
  destruct (nth_error q 255) as [b|] eqn:Hb;
    [|apply nth_error_None in Hb; lia].
  cbn [bindO].
  assert (Hne : Ascii.eqb b LF = false).
  { apply Ascii.eqb_neq. intros ->. apply Hlf. reflexivity. }
  rewrite Hne.
  unfold bind at 1. unfold Sleep at 1.
  cbn [readFrame]. unfold bind at 1. unfold portRead at 1.
  cbn [Read Sensor_port SerialPort record queue response]. rewrite Hb1.
  set (data2 := firstn 256 (skipn 256 q)).
  assert (Hd2 : List.length data2 = Nat.min 256 (List.length q - 256))
    by (unfold data2; rewrite length_firstn, length_skipn; reflexivity).
  set (buf2 := store data2 buf1).
  assert (Hb2 : List.length buf2 = 256%nat)
    by (unfold buf2; rewrite store_length; lia).
  rewrite int_small by lia.
  destruct (Z.eqb_spec (256 + Z.of_nat (List.length data2)) 0); [lia|].
  unfold bind at 1. unfold lift at 1.
  rewrite index_out_of_range by lia.
  cbn [fst]. rewrite Hb2. f_equal. f_equal. lia.
Qed.

(** C8.  The specification says that a response longer than the buffer
    of 256 bytes is cut without a fault.  The loop stores every [Read]
    at the head of the buffer and tests the byte at the running count
    minus one: when the sensor has sent more than 256 bytes and the
    256th is not a line feed, the second [Read] takes the count past
    256 and the test stops the call on the fault "index out of range". *)
Theorem long_response_overruns_buffer (bytes : list ascii) (rounds : nat) :
  (256 < List.length bytes)%nat ->
  nth_error bytes 255 <> Some LF ->
  fst (AnalyzeAirQuality (S (S rounds)) (sensorOf bytes))
  = Panics (IndexOutOfRange
              (Z.of_nat (Nat.min (List.length bytes) 512) - 1) 256).
Proof.
  intros Hlen Hlf.
  destruct (AnalyzeAirQuality 2 (sensorOf bytes)) as [o co'] eqn:H2.
  assert (Ho : o = Panics (IndexOutOfRange
                             (Z.of_nat (Nat.min (List.length bytes) 512) - 1)
                             256)).
  { apply (f_equal fst) in H2. cbn [fst] in H2. rewrite <- H2. clear H2.
    unfold AnalyzeAirQuality, bind, portWrite.
    cbn [Write Sensor_port sensorOf SerialPort queue response app].
    change (Z.of_nat (String.length CRLF) =? 0) with false. cbv iota.
    cbn [Sleep Now record clock SerialPort trace].
    match goal with
    | |- context [readFrame 2 ?b 0 ?c] =>
        pose proof (readFrame_overrun c b eq_refl Hlen Hlf) as Hr;
        destruct (readFrame 2 b 0 c) as [o1 c1]
    end.
    cbn [fst] in Hr. subst o1. reflexivity. }
  subst o.
  pose proof (AnalyzeAirQuality_rounds 2 rounds _ _ _ H2 ltac:(discriminate))
    as Hmore.
  replace (rounds + 2)%nat with (S (S rounds)) in Hmore by lia.
  rewrite Hmore. reflexivity.
Qed.

Lemma long_response_overruns_buffer_witness :
  fst (AnalyzeAirQuality 2 (sensor longLine))
  = Panics (IndexOutOfRange 310 256).
Proof.
  apply (long_response_overruns_buffer (list_ascii_of_string longLine) 0).
  - vm_compute. lia.
  - vm_compute. discriminate.
Defined.
(** When the 256th byte is a line feed the loop leaves at the first
    [Read]: the frame is the first 256 bytes, and the rest of the response
    stays in the port for the next call. *)
Lemma readFrame_cut (co : IOTCO1000 Sensor) (byteBuffer : list ascii) :
  let q := queue (SerialPort co) in
  List.length byteBuffer = 256%nat ->
  (256 < List.length q)%nat ->
  nth_error q 255 = Some LF ->
  exists co',
    readFrame 1 byteBuffer 0 co = (Returns (inl (firstn 256 q)), co')
    /\ queue (SerialPort co') = skipn 256 q.
Proof.
  intros q Hbuf Hq Hlf.
  cbn [readFrame]. unfold bind at 1. unfold portRead at 1.
  cbn [Read Sensor_port]. fold q. rewrite Hbuf.
  set (data1 := firstn 256 q).
  assert (Hd1 : List.length data1 = 256%nat)
    by (unfold data1; rewrite length_firstn; lia).
  assert (Hs : store data1 byteBuffer = data1).
  { unfold store. rewrite Hd1, skipn_all2 by lia. apply app_nil_r. }
  rewrite Hs, Hd1. change (int (0 + Z.of_nat 256)) with 256.
  cbn [Z.eqb]. unfold bind at 1. unfold lift at 1.
  rewrite index_nth_error by lia. change (Z.to_nat (256 - 1)) with 255%nat.
  assert (Hn : nth_error data1 255 = Some LF).
  { unfold data1. rewrite nth_error_firstn. exact Hlf. }
  rewrite Hn. cbn [bindO]. change (Ascii.eqb LF LF) with true. cbv iota.
  eexists. split; reflexivity.
Qed.

Lemma long_response_cut_at_line_feed (bytes : list ascii) (rounds : nat) :
  (256 < List.length bytes)%nat ->
  nth_error bytes 255 = Some LF ->
  exists co',
    AnalyzeAirQuality (S rounds) (sensorOf bytes)
    = (parse (firstn 256 bytes) (1000 * time.Millisecond), co')
    /\ queue (SerialPort co') = skipn 256 bytes.
Proof.
  intros Hlen Hlf.
  assert (H1 : exists co',
             AnalyzeAirQuality 1 (sensorOf bytes)
             = (parse (firstn 256 bytes) (1000 * time.Millisecond), co')
             /\ queue (SerialPort co') = skipn 256 bytes).
  { unfold AnalyzeAirQuality, bind, portWrite.
    cbn [Write Sensor_port sensorOf SerialPort queue response app].
    change (Z.of_nat (String.length CRLF) =? 0) with false. cbv iota.
    cbn [Sleep Now record clock SerialPort trace].
    match goal with
    | |- context [readFrame 1 ?b 0 ?c] =>
        destruct (readFrame_cut c b eq_refl Hlen Hlf) as (co1 & Hr & Hq1);
        rewrite Hr
    end.
    unfold lift. eexists. split; [reflexivity|exact Hq1]. }
  destruct H1 as (co' & H1 & Hq).
  exists co'. split; [|exact Hq].
  destruct (parse (firstn 256 bytes) (1000 * time.Millisecond)) as [r|f|] eqn:Hp.
  - replace (S rounds) with (rounds + 1)%nat by lia.
    apply AnalyzeAirQuality_rounds; [exact H1|discriminate].
  - replace (S rounds) with (rounds + 1)%nat by lia.
    apply AnalyzeAirQuality_rounds; [exact H1|discriminate].
  - exfalso. exact (parse_not_Running _ _ Hp).
Qed.

End Overrun.

(** ** The warm-up gate *)

Section Classify.
Import iotco1000.

(** C4.  The class of a measurement depends on its uptime alone, and
    on the threshold of two hours: below it the measurement is not
    warmed up, at it or above it the measurement is warmed up. *)
Theorem classify_by_uptime (aq : AirQualityMeasurement) :
  warmUpDuration = 2 * time.Hour /\
  (Uptime aq < 2 * time.Hour -> classify aq = NotWarmedUp) /\
  (2 * time.Hour <= Uptime aq -> classify aq = WarmedUp) /\
  (forall aq', Uptime aq' = Uptime aq -> classify aq' = classify aq).
Proof.
  assert (Hw : warmUpDuration = 2 * time.Hour) by reflexivity.
  unfold classify. rewrite Hw. repeat split.
  - intros Hlt. apply Z.ltb_lt in Hlt. rewrite Hlt. reflexivity.
  - intros Hge. apply Z.ltb_ge in Hge. rewrite Hge. reflexivity.
  - intros aq' ->. reflexivity.
Qed.

Lemma classify_by_uptime_witness :
  (classify coldReading = NotWarmedUp /\ classify warmReading = WarmedUp)
  /\ classify
       {| SensorSerialNumber := ""; COConcentrationPPB := 0; TemperatureC := 0;
          RelativeHumidity := 0; Uptime := 2 * time.Hour;
          MeasurementTime := 0 |} = WarmedUp.
Proof.
  split; [split|].
  - apply (proj1 (proj2 (classify_by_uptime coldReading))). reflexivity.
  - apply (proj1 (proj2 (proj2 (classify_by_uptime warmReading)))).
    vm_compute. discriminate.
  - apply (proj1 (proj2 (proj2 (classify_by_uptime _)))). simpl. lia.
Defined.
End Classify.

Section Gate.
Import iotco1000 cloudwatch.
Context {C : Type} `{Client C}.

Lemma clamp_negative (z : Z) :
  - 2 ^ 31 <= z < 0 ->
  (if Float64.ltb (Float64.of_Z z) Float64.zero
   then Float64.zero else Float64.of_Z z) = Float64.zero.
Proof. intros Hz. rewrite of_Z_negative by lia. reflexivity. Qed.

(** C5.  A measurement that [parse] returned with a negative CO
    concentration and that is warmed up: the field of the struct is the
    conversion of the text of field 1, negative as it came, and the batch
    that either variant of the loop sends has one CO metric, of value 0. *)
Theorem negative_CO_is_clamped (ns : string) (s : main.Submitter C)
    (s2 : main2.Submitter C) (byteBuffer : list ascii) (t : time.Time)
    (aq : AirQualityMeasurement) :
  parse byteBuffer t = Returns (Some aq, None) ->
  COConcentrationPPB aq < 0 ->
  classify aq = WarmedUp ->
  (exists text,
      nth_error (strings.Split (string_of_list_ascii byteBuffer) ", ") 1
        = Some text
      /\ strconv.ParseInt text 10 32 = (COConcentrationPPB aq, None))
  /\ (exists batch,
        main.sent (main.iteration ns s aq) = (main.sent s ++ [batch])%list
        /\ valuesOf "COConcentrationPPB" batch = [Float64.zero])
  /\ (exists batch,
        main2.sent (main2.iteration ns s2 aq) = (main2.sent s2 ++ [batch])%list
        /\ valuesOf "COConcentrationPPB" batch = [Float64.zero]).
Proof.
  intros Hp Hneg Hwarm.
  destruct (parse_Returns _ _ _ Hp) as [(aq' & Heq & Hpop)|(e & He)];
    [|discriminate].
  inversion Heq; subst aq'. clear Heq.
  destruct Hpop as (co & temp & hum & days & hours & minutes & seconds
                    & dInt & hrInt & _ & H1 & _ & _ & _ & _ & _ & _ & Hco & _).
  pose proof (ParseInt_range co 10 32 _ ltac:(lia) Hco) as Hrange.
  split; [exists co; split; assumption|].
  split.
  - unfold main.iteration. rewrite Hwarm.
    destruct (PutMetricData (main.cw s) (main.params ns aq)) as [cw' err].
    eexists. split; [reflexivity|].
    unfold valuesOf, main.params. cbn [MetricData filter map String.eqb
      cwtypes.MetricDatum.MetricName cwtypes.MetricDatum.Value].
    cbn. rewrite clamp_negative by lia. reflexivity.
  - unfold main2.iteration. rewrite Hwarm.
    destruct (negb (main2.loggedSensorActive s2));
      destruct (PutMetricData (main2.cw s2) _) as [cw' err];
      (eexists; split; [reflexivity|]);
      unfold valuesOf, main2.metricDataInput;
      cbn; rewrite clamp_negative by lia; reflexivity.
Qed.
End Gate.

Lemma negative_CO_is_clamped_witness :
  (exists text,
      nth_error
        (strings.Split (string_of_list_ascii (frame warmLine)) ", ") 1
      = Some text
      /\ strconv.ParseInt text 10 32 = (-5, None))
  /\ (exists batch,
        main.sent (main.iteration "aqgo" (main.started accepting) warmReading)
        = ([] ++ [batch])%list
        /\ valuesOf "COConcentrationPPB" batch = [Float64.zero])
  /\ (exists batch,
        main2.sent (main2.iteration "aqgo" (main2.started accepting) warmReading)
        = ([] ++ [batch])%list
        /\ valuesOf "COConcentrationPPB" batch = [Float64.zero]).
Proof.
  apply (negative_CO_is_clamped "aqgo" (main.started accepting)
           (main2.started accepting) (frame warmLine)
           (1000 * time.Millisecond) warmReading).
  - vm_compute. reflexivity.
  - reflexivity.
  - reflexivity.
Defined.

Section GateCold.
Import iotco1000 cloudwatch.
Context {C : Type} `{Client C}.

(** C2, as amended.  For a measurement that is not warmed up, the loop
    of [main/main.go] sends no batch and does not call the client; the
    variant with the indicator sends one batch of two metrics, the
    uptime in seconds and [SensorWarmedUp] with value 0, each with the
    dimension [SensorID] set to the serial number.  Neither sends a CO,
    temperature or humidity metric. *)
Theorem not_warmed_up_sends_no_gas_reading (ns : string)
    (s : main.Submitter C) (s2 : main2.Submitter C)
    (aq : AirQualityMeasurement) :
  classify aq = NotWarmedUp ->
  (main.sent (main.iteration ns s aq) = main.sent s
   /\ main.cw (main.iteration ns s aq) = main.cw s)
  /\ (exists batch,
        main2.sent (main2.iteration ns s2 aq) = (main2.sent s2 ++ [batch])%list
        /\ Namespace batch = ns
        /\ metricNames batch = ["Uptime"; "SensorWarmedUp"]
        /\ valuesOf "Uptime" batch = [time.Seconds (Uptime aq)]
        /\ valuesOf "SensorWarmedUp" batch = [Float64.zero]
        /\ dimensionedBy "SensorID" aq batch).
Proof.
  intros Hcold. split.
  - unfold main.iteration. rewrite Hcold.
    destruct (main.loggedAboutUptime s); split; reflexivity.
  - unfold main2.iteration. rewrite Hcold.
    destruct (negb (main2.loggedSensorNotWarmedUp s2));
      destruct (PutMetricData (main2.cw s2) _) as [cw' err];
      (eexists; split; [reflexivity|]);
      repeat split; repeat constructor.
Qed.
End GateCold.

Lemma not_warmed_up_sends_no_gas_reading_witness :
  (main.sent (main.iteration "aqgo" (main.started accepting) coldReading) = []
   /\ main.cw (main.iteration "aqgo" (main.started accepting) coldReading)
      = accepting)
  /\ (exists batch,
        main2.sent (main2.iteration "aqgo" (main2.started accepting) coldReading)
        = ([] ++ [batch])%list
        /\ cloudwatch.Namespace batch = "aqgo"
        /\ metricNames batch = ["Uptime"; "SensorWarmedUp"]
        /\ valuesOf "Uptime" batch = [time.Seconds (iotco1000.Uptime coldReading)]
        /\ valuesOf "SensorWarmedUp" batch = [Float64.zero]
        /\ dimensionedBy "SensorID" coldReading batch).
Proof.
  apply (not_warmed_up_sends_no_gas_reading "aqgo" (main.started accepting)
           (main2.started accepting) coldReading).
  reflexivity.
Defined.

(** C2, as stated, fails: for the reading with uptime 1h30m15s no variant
    sends a batch whose only metric is the uptime. *)
Lemma cold_reading_batches :
  classify coldReading = NotWarmedUp
  /\ ~ sentOnlyUptime
         (main.sent (main.iteration "aqgo" (main.started accepting) coldReading))
  /\ ~ sentOnlyUptime
         (main2.sent
            (main2.iteration "aqgo" (main2.started accepting) coldReading)).
Proof.
  split; [reflexivity|]. split.
  - intros (batch & Hs & _). discriminate Hs.
  - intros (batch & Hs & Hn). vm_compute in Hs. inversion Hs; subst batch.
    vm_compute in Hn. discriminate Hn.
Qed.

(** ** The warm-up lines of the log *)

Section LogOnce.
Import iotco1000 cloudwatch.
Context {C : Type} `{Client C}.
Variable ns : string.

Lemma filter_snoc {A} (f : A -> bool) (l : list A) (x : A) :
  filter f (l ++ [x]) = (filter f l ++ if f x then [x] else [])%list.
Proof. rewrite filter_app. reflexivity. Qed.

(** [main]: once the line is logged, cold readings change nothing. *)
Lemma main_cold_logged (l : list AirQualityMeasurement) :
  forall s,
    Forall (fun aq => classify aq = NotWarmedUp) l ->
    main.loggedAboutUptime s = true ->
            fold_left (main.iteration ns) l s = s.
Proof.
  induction l as [|aq l IH]; intros s Hl Hs; [reflexivity|].
  inversion Hl as [|? ? Haq Hl']; subst. cbv beta in Haq. cbn [fold_left].
  assert (Hi : main.iteration ns s aq = s).
  { unfold main.iteration. rewrite Haq, Hs. reflexivity. }
  rewrite Hi. apply IH; assumption.
Qed.

Lemma main_warm_lines (l : list AirQualityMeasurement) :
  forall s, Forall (fun aq => classify aq = WarmedUp) l ->
    filter isStateLine (main.logger (fold_left (main.iteration ns) l s))
    = filter isStateLine (main.logger s).
Proof.
  induction l as [|aq l IH]; intros s Hl; [reflexivity|].
  inversion Hl as [|? ? Haq Hl']; subst. cbv beta in Haq. cbn [fold_left].
  rewrite IH by assumption.
  unfold main.iteration. rewrite Haq.
  destruct (PutMetricData _ _) as [cw' [e|]]; cbn [main.logger].
  - rewrite filter_snoc. cbn. apply app_nil_r.
  - reflexivity.
Qed.

Lemma main2_cold_logged (l : list AirQualityMeasurement) :
  forall s,
    Forall (fun aq => classify aq = NotWarmedUp) l ->
    main2.loggedSensorNotWarmedUp s = true ->
    let s' := fold_left (main2.iteration ns) l s in
    filter isStateLine (main2.logger s') = filter isStateLine (main2.logger s)
    /\ main2.loggedSensorActive s' = main2.loggedSensorActive s.
Proof.
  induction l as [|aq l IH]; intros s Hl Hs; [split; reflexivity|].
  inversion Hl as [|? ? Haq Hl']; subst. cbv beta in Haq. cbn [fold_left].
  destruct (IH (main2.iteration ns s aq) Hl') as [IH1 IH2].
  { unfold main2.iteration. rewrite Haq, Hs. cbn [negb].
    destruct (PutMetricData _ _) as [cw' err]. reflexivity. }
  cbv zeta. rewrite IH1, IH2.
  unfold main2.iteration. rewrite Haq, Hs. cbn [negb].
  destruct (PutMetricData _ _) as [cw' [e|]];
    cbn [main2.logger main2.loggedSensorActive negb];
    rewrite ?filter_app; cbn [filter isStateLine app];
    rewrite ?app_nil_r; split; reflexivity.
Qed.

Lemma main2_warm_logged (l : list AirQualityMeasurement) :
  forall s,
    Forall (fun aq => classify aq = WarmedUp) l ->
    main2.loggedSensorActive s = true ->
    filter isStateLine
      (main2.logger (fold_left (main2.iteration ns) l s))
    = filter isStateLine (main2.logger s).
Proof.
  induction l as [|aq l IH]; intros s Hl Hs; [reflexivity|].
  inversion Hl as [|? ? Haq Hl']; subst. cbv beta in Haq. cbn [fold_left].
  rewrite IH; [|assumption|].
  - unfold main2.iteration. rewrite Haq, Hs. cbn [negb].
    destruct (PutMetricData _ _) as [cw' [e|]];
      cbn [main2.logger negb];
      rewrite ?filter_app; cbn [filter isStateLine app];
      rewrite ?app_nil_r; reflexivity.
  - unfold main2.iteration. rewrite Haq, Hs. cbn [negb].
    destruct (PutMetricData _ _) as [cw' err]. reflexivity.
Qed.

(** C9.  In a run that receives one or more measurements that are not
    warmed up and then one or more that are, the loop of [main/main.go]
    logs one line about the warm-up state in all, the line
    "skipping metric submission ..." at the first measurement, whatever
    the client answers.  The variant with the indicator logs that line
    once and the line "sensor has been active for warm up duration; will
    submit metrics" once, at the first warmed-up measurement.  No later
    measurement in the same state logs again. *)
Theorem state_lines_logged_once (client : C)
    (colds warms : list AirQualityMeasurement) :
  colds <> [] -> warms <> [] ->
  Forall (fun aq => classify aq = NotWarmedUp) colds ->
  Forall (fun aq => classify aq = WarmedUp) warms ->
  filter isStateLine
    (main.logger (main.submitMetricsToCloudWatch client ns (colds ++ warms)))
  = [SkippingNotWarmedUp warmUpDuration]
  /\ filter isStateLine
       (main2.logger
          (main2.submitMetricsToCloudWatch client ns (colds ++ warms)))
     = [SkippingNotWarmedUp warmUpDuration; ActiveWillSubmit].
Proof.
  intros Hc Hw Hcolds Hwarms.
  destruct colds as [|aq colds]; [contradiction|].
  destruct warms as [|aw warms]; [contradiction|].
  inversion Hcolds as [|? ? Haq Hcolds']; subst. cbv beta in Haq.
  inversion Hwarms as [|? ? Haw Hwarms']; subst. cbv beta in Haw.
  split.
  - unfold main.submitMetricsToCloudWatch.
    rewrite fold_left_app. rewrite main_warm_lines by assumption.
    cbn [fold_left].
    rewrite main_cold_logged; [| assumption |];
      unfold main.iteration; rewrite Haq; reflexivity.
  - unfold main2.submitMetricsToCloudWatch.
    rewrite fold_left_app. cbn [fold_left app].
    set (s1 := main2.iteration ns (main2.started client) aq).
    assert (Hs1 : main2.loggedSensorNotWarmedUp s1 = true
                  /\ main2.loggedSensorActive s1 = false
                  /\ filter isStateLine (main2.logger s1)
                     = [SkippingNotWarmedUp warmUpDuration]).
    { unfold s1, main2.iteration. rewrite Haq.
      cbn [main2.started main2.loggedSensorNotWarmedUp negb].
      destruct (PutMetricData _ _) as [cw' [e|]]; repeat split. }
    destruct Hs1 as (Hn1 & Ha1 & Hl1).
    destruct (main2_cold_logged colds s1 Hcolds' Hn1) as [Hl2 Ha2].
    set (s2 := fold_left (main2.iteration ns) colds s1) in *.
    rewrite main2_warm_logged; [| assumption |].
    + unfold main2.iteration. rewrite Haw, Ha2, Ha1. cbn [negb].
      destruct (PutMetricData _ _) as [cw' [e|]]; cbn [main2.logger negb];
        rewrite !filter_app, Hl2, Hl1; reflexivity.
    + unfold main2.iteration. rewrite Haw, Ha2, Ha1. cbn [negb].
      destruct (PutMetricData _ _) as [cw' err]. reflexivity.
Qed.
End LogOnce.

Lemma state_lines_logged_once_witness :
  filter isStateLine
    (main.logger
       (main.submitMetricsToCloudWatch refusing "aqgo"
          ([coldReading; coldReading] ++ [warmReading; warmReading; warmReading])))
  = [SkippingNotWarmedUp warmUpDuration]
  /\ filter isStateLine
       (main2.logger
          (main2.submitMetricsToCloudWatch refusing "aqgo"
             ([coldReading; coldReading]
                ++ [warmReading; warmReading; warmReading])))
     = [SkippingNotWarmedUp warmUpDuration; ActiveWillSubmit].
Proof.
  apply (state_lines_logged_once "aqgo" refusing
           [coldReading; coldReading] [warmReading; warmReading; warmReading]).
  - discriminate.
  - discriminate.
  - repeat constructor.
  - repeat constructor.
Defined.

(** ** The channel between the two loops *)

Section Handoff.
Import iotco1000 main.

(** The channel of [main] never holds a value: it has no room. *)
Lemma reachable_unbuffered (p : Pipeline) :
  reachable p -> capacity (ch p) = 0%nat /\ buffered (ch p) = [].
Proof.
  induction 1 as [|p p' Hreach [Hcap Hbuf] Hstep]; [split; reflexivity|].
  destruct Hstep as [r Hs|Hs|Hs|Hs|Hs].
  - unfold analyzed in Hs.
    destruct (acquisition p); try discriminate.
    destruct r as [[aq|] [e|]]; inversion Hs; subst; split; assumption.
  - unfold send in Hs. rewrite Hbuf, Hcap in Hs.
    destruct (acquisition p); try discriminate.
    destruct (submission p); cbn in Hs; inversion Hs; subst; split; assumption.
  - unfold woken in Hs.
    destruct (acquisition p); inversion Hs; subst; split; assumption.
  - unfold receive in Hs. rewrite Hbuf in Hs.
    destruct (submission p); discriminate.
  - unfold submitted in Hs.
    destruct (submission p); inversion Hs; subst; split; assumption.
Qed.

(** C3, as amended.  The channel of [main] is made without a capacity.
    When the acquisition loop stands at [ch <- aq], the send can be
    done exactly when the submission loop stands at its receive.
    While the submission loop is busy with an earlier measurement the
    sender is blocked, and it goes on once that round is over: the
    measurement is then handed over directly. *)
Theorem send_waits_for_receiver (p : Pipeline) (aq : AirQualityMeasurement) :
  reachable p ->
  acquisition p = Sending aq ->
  (send p <> None <-> submission p = Receiving)
  /\ (forall busy,
         submission p = Submitting busy ->
         send p = None
         /\ exists p1 p2,
             submitted p = Some p1 /\ send p1 = Some p2
             /\ acquisition p2 = Sleeping /\ submission p2 = Submitting aq).
Proof.
  intros Hreach Hacq.
  destruct (reachable_unbuffered p Hreach) as [Hcap Hbuf].
  unfold send, submitted. rewrite Hacq, Hbuf, Hcap. split.
  - destruct (submission p); cbn; split; congruence.
  - intros busy Hsub. rewrite Hsub. cbn. split; [reflexivity|].
    exists {| acquisition := acquisition p; submission := Receiving;
              ch := ch p; errors := errors p |},
           {| acquisition := Sleeping; submission := Submitting aq;
              ch := ch p; errors := errors p |}.
    cbn. rewrite Hacq, Hbuf. repeat split.
Qed.

Lemma secondReadingReady_reachable : reachable secondReadingReady.
Proof.
  eapply reachable_step; [eapply reachable_step; [eapply reachable_step;
    [eapply reachable_step; [apply reachable_start|]|]|]|].
  - apply (step_analyzed _ _ (Some warmReading, None)). reflexivity.
  - apply step_send. reflexivity.
  - apply step_woken. reflexivity.
  - apply (step_analyzed _ _ (Some nextReading, None)). reflexivity.
Qed.

Lemma send_waits_for_receiver_witness :
  (send secondReadingReady <> None <-> submission secondReadingReady = Receiving)
  /\ (forall busy,
         submission secondReadingReady = Submitting busy ->
         send secondReadingReady = None
         /\ exists p1 p2,
             submitted secondReadingReady = Some p1 /\ send p1 = Some p2
             /\ acquisition p2 = Sleeping
             /\ submission p2 = Submitting nextReading).
Proof.
  apply (send_waits_for_receiver secondReadingReady nextReading).
  - exact secondReadingReady_reachable.
  - reflexivity.
Defined.

(** C3, as stated, fails: after the first measurement has been handed
    over, the second is ready to be sent while the first is still being
    submitted, and the send cannot be done. *)
Lemma busy_submitter_blocks_send :
  reachable secondReadingReady
  /\ acquisition secondReadingReady = Sending nextReading
  /\ send secondReadingReady = None
  /\ ~ sendNeverBlocks.
Proof.
  split; [exact secondReadingReady_reachable|].
  split; [reflexivity|]. split; [reflexivity|].
  intros Hnever.
  apply (Hnever secondReadingReady nextReading secondReadingReady_reachable);
    reflexivity.
Qed.
End Handoff.

(** * Further properties of the code *)

Section Numerals.

Lemma digitVal_bounds (c : ascii) : isDigit c = true -> 0 <= digitVal c <= 9.
Proof.
  unfold isDigit, digitVal. intros H. apply andb_true_iff in H.
  destruct H as [H1 H2]. apply Nat.leb_le in H1, H2. lia.
Qed.

Lemma decimalValue_ge (s : string) :
  forall acc, 0 <= acc -> allDigits s = true ->
              acc <= decimalValue acc s.
Proof.
  induction s as [|c rest IH]; intros acc Hacc Hd; cbn in *; [lia|].
  apply andb_true_iff in Hd. destruct Hd as [Hc Hrest].
  pose proof (digitVal_bounds c Hc).
  specialize (IH (acc * 10 + digitVal c) ltac:(lia) Hrest). lia.
Qed.

Lemma decimalValue_uint_acc (d : Decimal.uint) :
  forall acc : positive,
    decimalValue (Zpos acc) (NilEmpty.string_of_uint d)
    = Zpos (Pos.of_uint_acc d acc).
Proof.
  induction d; intros acc; cbn [NilEmpty.string_of_uint decimalValue Pos.of_uint_acc];
    try reflexivity;
    rewrite <- IHd; f_equal;
    match goal with
    | |- context [digitVal ?c] =>
        let v := eval vm_compute in (digitVal c) in
        change (digitVal c) with v
    end; lia.
Qed.

Lemma decimalValue_uint (d : Decimal.uint) :
  decimalValue 0 (NilEmpty.string_of_uint d) = Z.of_N (Pos.of_uint d).
Proof.
  induction d; cbn [NilEmpty.string_of_uint decimalValue Pos.of_uint];
    try reflexivity;
    try (change (0 * 10 + digitVal _) with 0; exact IHd);
    match goal with
    | |- decimalValue ?a _ = _ =>
        let v := eval vm_compute in a in
        change a with v
    end; rewrite decimalValue_uint_acc; reflexivity.
Qed.

Lemma allDigits_uint (d : Decimal.uint) :
  allDigits (NilEmpty.string_of_uint d) = true.
Proof. induction d; cbn; try reflexivity; exact IHd. Qed.

(** [%d] of a number that is not negative: a numeral, of that value. *)
Lemma FormatInt_nonneg (z : Z) :
  0 <= z ->
  isNumeral (strconv.FormatInt z) = true
  /\ decimalValue 0 (strconv.FormatInt z) = z.
Proof.
  intros Hz. unfold strconv.FormatInt.
  destruct z as [|p|p]; [split; reflexivity| |lia].
  cbn [Z.to_int NilZero.string_of_int].
  pose proof (Unsigned.to_uint_nonnil p) as Hnn.
  assert (He : NilZero.string_of_uint (Pos.to_uint p)
               = NilEmpty.string_of_uint (Pos.to_uint p)).
  { unfold NilZero.string_of_uint. destruct (Pos.to_uint p); congruence. }
  rewrite He. split.
  - unfold isNumeral. rewrite allDigits_uint, andb_true_r.
    destruct (Pos.to_uint p); try reflexivity. congruence.
  - rewrite decimalValue_uint, DecimalPos.Unsigned.of_to. reflexivity.
Qed.

Lemma FormatInt_neg (z : Z) :
  z < 0 ->
  exists digits,
    strconv.FormatInt z = String "-" digits
    /\ isNumeral digits = true /\ decimalValue 0 digits = - z.
Proof.
  intros Hz. destruct z as [|p|p]; try lia.
  destruct (FormatInt_nonneg (Zpos p) ltac:(lia)) as [Hn Hv].
  exists (strconv.FormatInt (Zpos p)). repeat split; assumption.
Qed.
End Numerals.

Section Durations.

Lemma leadingInt_numeral (s : string) :
  forall x rest,
    allDigits s = true -> endsNumeral rest = true ->
    0 <= x -> decimalValue x s <= 2 ^ 63 ->
    time.leadingInt x (s ++ rest) = Some (decimalValue x s, rest).
Proof.
  induction s as [|c s IH]; intros x rest Hd Hrest Hx Hv.
  - cbn [append decimalValue]. destruct rest as [|c r]; [reflexivity|].
    cbn in Hrest. cbn [time.leadingInt].
    destruct (isDigit c); [discriminate|reflexivity].
  - cbn in Hd. apply andb_true_iff in Hd. destruct Hd as [Hc Hs].
    pose proof (digitVal_bounds c Hc) as Hb.
    cbn [append time.leadingInt decimalValue] in *. rewrite Hc.
    pose proof (decimalValue_ge s (x * 10 + digitVal c) ltac:(lia) Hs) as Hge.
    assert (Hx10 : x <= 2 ^ 63 / 10) by (apply Z.div_le_lower_bound; lia).
    destruct (Z.ltb_spec (2 ^ 63 / 10) x); [lia|].
    assert (Hu : uint64 (x * 10 + digitVal c) = x * 10 + digitVal c).
    { unfold uint64. apply Z.mod_small. lia. }
    rewrite Hu.
    destruct (Z.ltb_spec (2 ^ 63) (x * 10 + digitVal c)); [lia|].
    apply IH; try assumption. lia.
Qed.

Lemma length_append (a b : string) :
  String.length (a ++ b) = (String.length a + String.length b)%nat.
Proof. induction a as [|c a IH]; cbn; [reflexivity|]. rewrite IH. reflexivity. Qed.

Lemma substring_whole (s : string) : substring 0 (String.length s) s = s.
Proof. induction s as [|c s IH]; cbn; [reflexivity|]. rewrite IH. reflexivity. Qed.

Lemma substring_none (s : string) : substring 0 0 s = EmptyString.
Proof. destruct s; reflexivity. Qed.

(** One term of a duration: a numeral and one of the units [h], [m], [s]. *)
Lemma parseTerm_numeral (orig : string) (d : Z) (digits : string) (u : ascii)
    (unit : Z) (rest : string) :
  In (u, unit) [("h"%char, time.Hour); ("m"%char, time.Minute);
                ("s"%char, time.Second)] ->
  isNumeral digits = true ->
  time.unitLength rest = 0%nat ->
  0 <= d ->
  d + decimalValue 0 digits * unit <= 2 ^ 63 ->
  time.parseTerm orig d (digits ++ String u rest)
  = inl (d + decimalValue 0 digits * unit, rest).
Proof.
  intros Hu Hnum Hlen Hd Hsum.
  unfold isNumeral in Hnum. apply andb_true_iff in Hnum.
  destruct Hnum as [Hne Hdig].
  destruct digits as [|c digits']; [discriminate|]. clear Hne.
  set (digits := String c digits') in *.
  assert (Hv0 : 0 <= decimalValue 0 digits)
    by (apply (decimalValue_ge digits 0); [lia|assumption]).
  assert (Hunit : 1 <= unit).
  { destruct Hu as [E|[E|[E|[]]]]; inversion E; subst; vm_compute; discriminate. }
  assert (Hv : decimalValue 0 digits <= 2 ^ 63) by nia.
  assert (Hdiv : decimalValue 0 digits <= 2 ^ 63 / unit)
    by (apply Z.div_le_lower_bound; nia).
  assert (Hc : isDigit c = true)
    by (cbn in Hdig; apply andb_true_iff in Hdig; tauto).
  assert (Hli : time.leadingInt 0 (digits ++ String u rest)
                = Some (decimalValue 0 digits, String u rest)).
  { apply leadingInt_numeral; try assumption; [|lia].
    destruct Hu as [E|[E|[E|[]]]]; inversion E; subst; reflexivity. }
  unfold time.parseTerm.
  change (digits ++ String u rest) with (String c (digits' ++ String u rest)) at 1.
  cbv iota. rewrite Hc, orb_true_r. cbn [negb].
  change (String c (digits' ++ String u rest)) with (digits ++ String u rest).
  rewrite Hli.
  assert (Hpre : Nat.eqb (String.length (digits ++ String u rest))
                         (String.length (String u rest)) = false).
  { apply Nat.eqb_neq. rewrite length_append. unfold digits. cbn. lia. }
  rewrite Hpre.
  assert (Hdrop : dropBytes 1 (String u rest) = rest).
  { unfold dropBytes. cbn. rewrite Nat.sub_0_r. apply substring_whole. }
  assert (Hm1 : uint64 (decimalValue 0 digits * unit)
                = decimalValue 0 digits * unit)
    by (unfold uint64; apply Z.mod_small; nia).
  assert (Hm2 : uint64 (d + decimalValue 0 digits * unit)
                = d + decimalValue 0 digits * unit)
    by (unfold uint64; apply Z.mod_small; nia).
  assert (Hl1 : (2 ^ 63 / unit <? decimalValue 0 digits) = false)
    by (apply Z.ltb_ge; exact Hdiv).
  assert (Hl2 : (2 ^ 63 <? d + decimalValue 0 digits * unit) = false)
    by (apply Z.ltb_ge; exact Hsum).
  destruct Hu as [E|[E|[E|[]]]]; inversion E; subst u unit; clear E;
    cbn [negb andb time.unitLength Ascii.eqb Bool.eqb orb];
    repeat match goal with
    | |- context [isDigit ?c] =>
        let v := eval vm_compute in (isDigit c) in
        change (isDigit c) with v
    end;
    cbn [time.unitLength orb]; rewrite Hlen; cbn [Nat.eqb substring];
    rewrite substring_none, Hdrop;
    first [ progress change (time.unitMap "h") with (Some time.Hour)
          | progress change (time.unitMap "m") with (Some time.Minute)
          | progress change (time.unitMap "s") with (Some time.Second) ];
    cbv iota;
    change (0 <? 0) with false; cbn [andb];
    rewrite Hl1, Hm1, Hm2, Hl2; reflexivity.
Qed.

Lemma unitLength_numeral (digits rest : string) :
  isNumeral digits = true -> time.unitLength (digits ++ rest) = 0%nat.
Proof.
  unfold isNumeral. destruct digits as [|c digits]; [discriminate|].
  cbn. intros H. apply andb_true_iff in H. destruct H as [-> _].
  rewrite orb_true_r. reflexivity.
Qed.

Lemma parseTerms_step (rounds : nat) (orig : string) (d : Z) (s : string) :
  s <> EmptyString ->
  time.parseTerms (S rounds) orig d s
  = match time.parseTerm orig d s with
    | inr e => inr e
    | inl (d', s') => time.parseTerms rounds orig d' s'
    end.
Proof. destruct s; [contradiction|reflexivity]. Qed.

Lemma numeral_append_nonempty (digits rest : string) :
  isNumeral digits = true -> digits ++ rest <> EmptyString.
Proof. destruct digits; [discriminate|]. cbn. discriminate. Qed.

(** The terms [h], [m] and [s] of a duration, from the total [d]. *)
Lemma parseTerms_hms (rounds : nat) (orig : string) (d : Z) (hh mm ss : string) :
  isNumeral hh = true -> isNumeral mm = true -> isNumeral ss = true ->
  0 <= d ->
  d + decimalValue 0 hh * time.Hour + decimalValue 0 mm * time.Minute
    + decimalValue 0 ss * time.Second <= 2 ^ 63 ->
  time.parseTerms (3 + rounds) orig d (hh ++ "h" ++ mm ++ "m" ++ ss ++ "s")
  = inl (d + decimalValue 0 hh * time.Hour + decimalValue 0 mm * time.Minute
           + decimalValue 0 ss * time.Second).
Proof.
  intros HH HM HS Hd Hsum.
  assert (Hh : 0 <= decimalValue 0 hh)
    by (apply (decimalValue_ge hh 0); [lia|];
        unfold isNumeral in HH; apply andb_true_iff in HH; tauto).
  assert (Hm : 0 <= decimalValue 0 mm)
    by (apply (decimalValue_ge mm 0); [lia|];
        unfold isNumeral in HM; apply andb_true_iff in HM; tauto).
  assert (Hs : 0 <= decimalValue 0 ss)
    by (apply (decimalValue_ge ss 0); [lia|];
        unfold isNumeral in HS; apply andb_true_iff in HS; tauto).
  assert (HHour : time.Hour = 3600000000000) by reflexivity.
  assert (HMin : time.Minute = 60000000000) by reflexivity.
  assert (HSec : time.Second = 1000000000) by reflexivity.
  change (3 + rounds)%nat with (S (S (S rounds))).
  change (hh ++ "h" ++ mm ++ "m" ++ ss ++ "s")
    with (hh ++ String "h" (mm ++ String "m" (ss ++ String "s" EmptyString))).
  rewrite parseTerms_step by (apply numeral_append_nonempty; assumption).
  rewrite (parseTerm_numeral orig d hh "h" time.Hour);
    [ | left; reflexivity | assumption
      | apply unitLength_numeral; assumption | assumption | nia ].
  rewrite parseTerms_step by (apply numeral_append_nonempty; assumption).
  rewrite (parseTerm_numeral orig _ mm "m" time.Minute);
    [ | right; left; reflexivity | assumption
      | apply unitLength_numeral; assumption | nia | nia ].
  rewrite parseTerms_step by (apply numeral_append_nonempty; assumption).
  rewrite (parseTerm_numeral orig _ ss "s" time.Second);
    [ | right; right; left; reflexivity | assumption
      | reflexivity | nia | nia ].
  destruct rounds; reflexivity.
Qed.
End Durations.

Section DurationTexts.

Lemma ParseDuration_digit (c : ascii) (s : string) :
  isDigit c = true ->
  time.ParseDuration (String c s)
  = if String.eqb (String c s) "0" then (0, None)
    else
      match time.parseTerms (S (String.length s)) (String c s) 0 (String c s) with
      | inr e => (0, Some e)
      | inl d =>
          if 2 ^ 63 - 1 <? d
          then (0, Some (time.InvalidDuration (String c s)))
          else (int64 d, None)
      end.
Proof.
  intros Hc.
  destruct c as [[] [] [] [] [] [] [] []];
    try (vm_compute in Hc; discriminate Hc); reflexivity.
Qed.

Lemma ParseDuration_minus (s : string) :
  time.ParseDuration (String "-" s)
  = if String.eqb s "0" then (0, None)
    else if isEmpty s then (0, Some (time.InvalidDuration (String "-" s)))
    else
      match time.parseTerms (String.length s) (String "-" s) 0 s with
      | inr e => (0, Some e)
      | inl d => (int64 (- int64 d), None)
      end.
Proof. reflexivity. Qed.

Lemma hms_not_zero (hh rest : string) :
  isNumeral hh = true -> String.eqb (hh ++ String "h" rest) "0" = false.
Proof.
  destruct hh as [|c [|c' hh]]; [discriminate| |]; intros _; cbn.
  - destruct (Ascii.eqb c "0"); reflexivity.
  - destruct (Ascii.eqb c "0"); reflexivity.
Qed.

Lemma hms_length (hh mm ss : string) :
  isNumeral hh = true ->
  exists k, String.length (hh ++ "h" ++ mm ++ "m" ++ ss ++ "s") = (3 + k)%nat.
Proof.
  intros _. exists (String.length hh + String.length mm + String.length ss)%nat.
  change (hh ++ "h" ++ mm ++ "m" ++ ss ++ "s")
    with (hh ++ String "h" (mm ++ String "m" (ss ++ String "s" EmptyString))).
  rewrite length_append. cbn [String.length]. rewrite length_append.
  cbn [String.length]. rewrite length_append. cbn [String.length]. lia.
Qed.

(** A duration written as hours, minutes and seconds, each a numeral. *)
Lemma ParseDuration_hms (hh mm ss : string) :
  isNumeral hh = true -> isNumeral mm = true -> isNumeral ss = true ->
  let total := decimalValue 0 hh * time.Hour + decimalValue 0 mm * time.Minute
               + decimalValue 0 ss * time.Second in
  total < 2 ^ 63 ->
  time.ParseDuration (hh ++ "h" ++ mm ++ "m" ++ ss ++ "s") = (total, None)
  /\ time.ParseDuration ("-" ++ hh ++ "h" ++ mm ++ "m" ++ ss ++ "s")
     = (- total, None).
Proof.
  intros Hh Hm Hs total Ht.
  assert (H0 : 0 <= total).
  { unfold isNumeral in *.
    apply andb_true_iff in Hh, Hm, Hs.
    pose proof (decimalValue_ge hh 0 ltac:(lia) (proj2 Hh)).
    pose proof (decimalValue_ge mm 0 ltac:(lia) (proj2 Hm)).
    pose proof (decimalValue_ge ss 0 ltac:(lia) (proj2 Hs)).
    assert (time.Hour = 3600000000000) by reflexivity.
    assert (time.Minute = 60000000000) by reflexivity.
    assert (time.Second = 1000000000) by reflexivity.
    unfold total. nia. }
  destruct (hms_length hh mm ss Hh) as [k Hk].
  pose proof (parseTerms_hms k) as Hterms.
  split.
  - set (orig := hh ++ "h" ++ mm ++ "m" ++ ss ++ "s") in *.
    assert (Hshape : exists c s, orig = String c s /\ isDigit c = true).
    { unfold orig. destruct hh as [|c hh']; [discriminate|].
      exists c, (hh' ++ "h" ++ mm ++ "m" ++ ss ++ "s"). split; [reflexivity|].
      unfold isNumeral in Hh. cbn in Hh. apply andb_true_iff in Hh. tauto. }
    destruct Hshape as (c & s & Horig & Hc).
    rewrite Horig, (ParseDuration_digit c s Hc), <- Horig.
    assert (Hnz : String.eqb orig "0" = false)
      by (apply (hms_not_zero hh (mm ++ "m" ++ ss ++ "s")); assumption).
    rewrite Hnz.
    replace (S (String.length s)) with (String.length orig)
      by (rewrite Horig; reflexivity).
    rewrite Hk.
    pose proof (Hterms orig 0 hh mm ss Hh Hm Hs ltac:(lia)
                  ltac:(fold total; lia)) as Hp.
    fold orig in Hp. rewrite Hp, Z.add_0_l. fold total.
    destruct (Z.ltb_spec (2 ^ 63 - 1) total); [lia|].
    unfold int64. rewrite wrap_small by lia. reflexivity.
  - change ("-" ++ hh ++ "h" ++ mm ++ "m" ++ ss ++ "s")
      with (String "-" (hh ++ "h" ++ mm ++ "m" ++ ss ++ "s")).
    rewrite ParseDuration_minus.
    pose proof (hms_not_zero hh (mm ++ "m" ++ ss ++ "s") Hh) as Hnz.
    change (hh ++ String "h" (mm ++ "m" ++ ss ++ "s"))
      with (hh ++ "h" ++ mm ++ "m" ++ ss ++ "s") in Hnz.
    rewrite Hnz.
    assert (He : isEmpty (hh ++ "h" ++ mm ++ "m" ++ ss ++ "s") = false)
      by (destruct hh; [discriminate|reflexivity]).
    rewrite He, Hk.
    rewrite (Hterms _ 0 hh mm ss Hh Hm Hs ltac:(lia) ltac:(fold total; lia)).
    rewrite Z.add_0_l. fold total.
    unfold int64. rewrite (wrap_small 64 total) by lia.
    rewrite wrap_small by lia. reflexivity.
Qed.
End DurationTexts.

Section WellFormedLine.
Import iotco1000.

Lemma digit_outside_cutset (c : ascii) :
  isDigit c = true -> containsByte cutset c = false.
Proof.
  intros Hc.
  destruct c as [[] [] [] [] [] [] [] []];
    try (vm_compute in Hc; discriminate Hc); reflexivity.
Qed.

Lemma TrimRight_junk (junk : string) :
  allIn cutset junk = true -> strings.TrimRight junk cutset = EmptyString.
Proof.
  induction junk as [|c junk IH]; [reflexivity|].
  cbn [allIn strings.TrimRight]. intros H. apply andb_true_iff in H.
  destruct H as [Hc Hj]. rewrite (IH Hj), Hc. reflexivity.
Qed.

Lemma TrimRight_digits (digits junk : string) :
  allDigits digits = true -> allIn cutset junk = true ->
  strings.TrimRight (digits ++ junk) cutset = digits.
Proof.
  intros Hd Hj. induction digits as [|c digits IH].
  - apply TrimRight_junk. exact Hj.
  - cbn in Hd. apply andb_true_iff in Hd. destruct Hd as [Hc Hd].
    cbn [append strings.TrimRight]. rewrite (IH Hd).
    rewrite (digit_outside_cutset c Hc), andb_false_r. reflexivity.
Qed.

(** The seconds of a line: the numeral is what [Trim] leaves of it. *)
Lemma Trim_numeral (digits junk : string) :
  isNumeral digits = true -> allIn cutset junk = true ->
  strings.Trim (digits ++ junk) cutset = digits.
Proof.
  unfold isNumeral. intros Hn Hj. apply andb_true_iff in Hn.
  destruct Hn as [Hne Hd].
  unfold strings.Trim. rewrite TrimRight_digits by assumption.
  destruct digits as [|c digits]; [discriminate|].
  cbn in Hd. apply andb_true_iff in Hd. destruct Hd as [Hc _].
  cbn [strings.TrimLeft]. rewrite (digit_outside_cutset c Hc). reflexivity.
Qed.

(** The uptime text of a line whose minutes and seconds are numerals:
    [time.ParseDuration] gives the hours, minutes and seconds in
    nanoseconds, with the sign of the hours. *)
Lemma uptime_of_numerals (days hours : Z)
    (minutesText secondsText junk : string) :
  let h := days * 24 + hours in
  let magnitude :=
    Z.abs h * time.Hour + decimalValue 0 minutesText * time.Minute
    + decimalValue 0 secondsText * time.Second in
  - 2 ^ 15 <= days < 2 ^ 15 ->
  - 2 ^ 7 <= hours < 2 ^ 7 ->
  isNumeral minutesText = true ->
  isNumeral secondsText = true ->
  allIn cutset junk = true ->
  magnitude < 2 ^ 63 ->
  time.ParseDuration
    (uptimeDurationStr days hours minutesText (secondsText ++ junk))
  = (if h <? 0 then - magnitude else magnitude, None).
Proof.
  intros h magnitude Hdr Hhrr Hmin Hsec Hjunk Hmag.
  unfold uptimeDurationStr.
  unfold int64. rewrite (wrap_widen 21 64) by lia. fold h.
  rewrite Trim_numeral by assumption.
  destruct (Z.ltb_spec h 0) as [Hneg|Hpos].
  - destruct (FormatInt_neg h Hneg) as (digits & -> & Hn & Hv).
    assert (Hm : magnitude
                 = decimalValue 0 digits * time.Hour
                   + decimalValue 0 minutesText * time.Minute
                   + decimalValue 0 secondsText * time.Second)
      by (unfold magnitude; rewrite Hv; f_equal; f_equal; f_equal; lia).
    destruct (ParseDuration_hms digits minutesText secondsText Hn Hmin Hsec)
      as [_ Hp]; [rewrite <- Hm; exact Hmag|].
    change (String "-" digits ++ "h" ++ minutesText ++ "m" ++ secondsText ++ "s")
      with ("-" ++ digits ++ "h" ++ minutesText ++ "m" ++ secondsText ++ "s").
    rewrite Hp, <- Hm. reflexivity.
  - destruct (FormatInt_nonneg h Hpos) as [Hn Hv].
    assert (Hm : magnitude
                 = decimalValue 0 (strconv.FormatInt h) * time.Hour
                   + decimalValue 0 minutesText * time.Minute
                   + decimalValue 0 secondsText * time.Second)
      by (unfold magnitude; rewrite Hv; f_equal; f_equal; f_equal; lia).
    destruct (ParseDuration_hms _ minutesText secondsText Hn Hmin Hsec)
      as [Hp _]; [rewrite <- Hm; exact Hmag|].
    rewrite Hp, <- Hm. reflexivity.
Qed.

(** X1.  A well-formed line is read back field by field.  When the
    fields 1, 2, 3, 7 and 8 convert, the minutes are a decimal numeral,
    the seconds are a decimal numeral followed only by bytes of the cutset
    (blank, CR, LF, NUL: the end of the line and the rest of the buffer),
    and the uptime that these give, |days * 24 + hours| hours and the
    minutes and the seconds, is below 2^63 nanoseconds, [parse] returns
    the measurement of these values; its uptime is that number of
    nanoseconds, with the sign of days * 24 + hours.  (The bound is
    needed: see [uptime_bound_is_needed].) *)
Theorem parse_recovers_reading (byteBuffer : list ascii) (t : time.Time)
    (serialNumber coText tempText humText daysText hoursText minutesText
       secondsText junk : string)
    (co temp hum days hours : Z) :
  let d := strings.Split (string_of_list_ascii byteBuffer) ", " in
  let h := days * 24 + hours in
  let magnitude :=
    Z.abs h * time.Hour + decimalValue 0 minutesText * time.Minute
    + decimalValue 0 secondsText * time.Second in
  nth_error d 0 = Some serialNumber ->
  nth_error d 1 = Some coText ->
  nth_error d 2 = Some tempText ->
  nth_error d 3 = Some humText ->
  nth_error d 7 = Some daysText ->
  nth_error d 8 = Some hoursText ->
  nth_error d 9 = Some minutesText ->
  nth_error d 10 = Some (secondsText ++ junk) ->
  strconv.ParseInt coText 10 32 = (co, None) ->
  strconv.ParseInt tempText 10 8 = (temp, None) ->
  strconv.ParseInt humText 10 8 = (hum, None) ->
  strconv.ParseInt daysText 10 16 = (days, None) ->
  strconv.ParseInt hoursText 10 8 = (hours, None) ->
  isNumeral minutesText = true ->
  isNumeral secondsText = true ->
  allIn cutset junk = true ->
  magnitude < 2 ^ 63 ->
  parse byteBuffer t
  = Returns
      (Some {| SensorSerialNumber := serialNumber;
               COConcentrationPPB := co;
               TemperatureC := temp;
               RelativeHumidity := hum;
               Uptime := if h <? 0 then - magnitude else magnitude;
               MeasurementTime := t |},
       None).
Proof.
  intros d h magnitude H0 H1 H2 H3 H7 H8 H9 H10 Hco Ht Hh Hd Hhr Hmin Hsec
    Hjunk Hmag.
  unfold parse. fold d. clearbody d.
  rewrite !index_nth_error by lia.
  change (Z.to_nat 0) with 0%nat. change (Z.to_nat 1) with 1%nat.
  change (Z.to_nat 2) with 2%nat. change (Z.to_nat 3) with 3%nat.
  change (Z.to_nat 7) with 7%nat. change (Z.to_nat 8) with 8%nat.
  change (Z.to_nat 9) with 9%nat. change (Z.to_nat 10) with 10%nat.
  rewrite H0, H1, H2, H3, H7, H8, H9, H10. cbn [bindO].
  rewrite Hco, Ht, Hh, Hd, Hhr.
  rewrite (int_ParseInt coText 10 32 co ltac:(lia) Hco),
          (int_ParseInt tempText 10 8 temp ltac:(lia) Ht),
          (int_ParseInt humText 10 8 hum ltac:(lia) Hh).
  pose proof (ParseInt_range daysText 10 16 _ ltac:(lia) Hd) as Hdr.
  pose proof (ParseInt_range hoursText 10 8 _ ltac:(lia) Hhr) as Hhrr.
  cbv zeta.
  rewrite (uptime_of_numerals days hours minutesText secondsText junk)
    by (first [assumption | lia]).
  reflexivity.
Qed.

(** X2.  The warm-up gate in terms of the line.  For a measurement that
    [parse] returned from a line whose minutes and seconds are numerals
    below 60, the measurement counts as warmed up exactly when days * 24 +
    hours is 2 or more. *)
Theorem warm_up_gate_opens_at_two_hours (byteBuffer : list ascii)
    (t : time.Time) (aq : AirQualityMeasurement)
    (daysText hoursText minutesText secondsText junk : string)
    (days hours : Z) :
  let d := strings.Split (string_of_list_ascii byteBuffer) ", " in
  parse byteBuffer t = Returns (Some aq, None) ->
  nth_error d 7 = Some daysText ->
  nth_error d 8 = Some hoursText ->
  nth_error d 9 = Some minutesText ->
  nth_error d 10 = Some (secondsText ++ junk) ->
  strconv.ParseInt daysText 10 16 = (days, None) ->
  strconv.ParseInt hoursText 10 8 = (hours, None) ->
  isNumeral minutesText = true ->
  isNumeral secondsText = true ->
  allIn cutset junk = true ->
  decimalValue 0 minutesText < 60 ->
  decimalValue 0 secondsText < 60 ->
  warmedUp aq = (2 <=? days * 24 + hours).
Proof.
  intros d Hp H7 H8 H9 H10 Hd Hhr Hmin Hsec Hjunk Hm60 Hs60.
  destruct (parse_Returns _ _ _ Hp) as [(aq' & Heq & Hpop)|(e & He)];
    [|discriminate].
  inversion Heq; subst aq'. clear Heq.
  destruct Hpop as (co' & temp' & hum' & days' & hours' & minutes' & seconds'
                    & dInt & hrInt & _ & _ & _ & _ & H7' & H8' & H9' & H10'
                    & _ & _ & _ & Hd' & Hhr' & Hup & _).
  fold d in H7', H8', H9', H10'.
  assert (E7 : days' = daysText) by congruence.
  assert (E8 : hours' = hoursText) by congruence.
  assert (E9 : minutes' = minutesText) by congruence.
  assert (E10 : seconds' = (secondsText ++ junk)%string) by congruence.
  subst days' hours' minutes' seconds'.
  assert (Ed : dInt = days) by congruence.
  assert (Eh : hrInt = hours) by congruence.
  subst dInt hrInt.
  pose proof (ParseInt_range daysText 10 16 _ ltac:(lia) Hd) as Hdr.
  pose proof (ParseInt_range hoursText 10 8 _ ltac:(lia) Hhr) as Hhrr.
  assert (Hm0 : 0 <= decimalValue 0 minutesText).
  { apply decimalValue_ge; [lia|].
    unfold isNumeral in Hmin. apply andb_true_iff in Hmin. apply Hmin. }
  assert (Hs0 : 0 <= decimalValue 0 secondsText).
  { apply decimalValue_ge; [lia|].
    unfold isNumeral in Hsec. apply andb_true_iff in Hsec. apply Hsec. }
  assert (HH : time.Hour = 3600000000000) by reflexivity.
  assert (HM : time.Minute = 60000000000) by reflexivity.
  assert (HS : time.Second = 1000000000) by reflexivity.
  rewrite (uptime_of_numerals days hours minutesText secondsText junk)
    in Hup by (first [assumption | rewrite HH, HM, HS; lia]).
  inversion Hup as [Hu]. clear Hup.
  unfold warmedUp, classify. rewrite <- Hu.
  change warmUpDuration with 7200000000000.
  rewrite HH, HM, HS.
  destruct (Z.ltb_spec (days * 24 + hours) 0) as [Hneg|Hpos].
  - destruct (Z.ltb_spec
                (- (Z.abs (days * 24 + hours) * 3600000000000
                    + decimalValue 0 minutesText * 60000000000
                    + decimalValue 0 secondsText * 1000000000))
                7200000000000); [|lia].
    destruct (Z.leb_spec 2 (days * 24 + hours)); [lia|reflexivity].
  - destruct (Z.ltb_spec
                (Z.abs (days * 24 + hours) * 3600000000000
                 + decimalValue 0 minutesText * 60000000000
                 + decimalValue 0 secondsText * 1000000000)
                7200000000000);
      destruct (Z.leb_spec 2 (days * 24 + hours)); first [reflexivity|lia].
Qed.
End WellFormedLine.
Section ParserMore.
Import iotco1000.

Lemma warm_up_gate_opens_at_two_hours_witness :
  warmedUp warmReading = (2 <=? 1 * 24 + 0).
Proof.
  apply (warm_up_gate_opens_at_two_hours (frame warmLine)
           (1000 * time.Millisecond) warmReading "1" "0" "30" "15"
           (String LF (string_of_list_ascii (repeat NUL 214))) 1 0);
    vm_compute; reflexivity.
Defined.


Lemma parse_recovers_reading_witness :
  parse (frame warmLine) 7
  = Returns
      (Some {| SensorSerialNumber := "ABC123";
               COConcentrationPPB := -5;
               TemperatureC := 21;
               RelativeHumidity := 40;
               Uptime :=
                 if 1 * 24 + 0 <? 0
                 then - (Z.abs (1 * 24 + 0) * time.Hour
                         + decimalValue 0 "30" * time.Minute
                         + decimalValue 0 "15" * time.Second)
                 else Z.abs (1 * 24 + 0) * time.Hour
                      + decimalValue 0 "30" * time.Minute
                      + decimalValue 0 "15" * time.Second;
               MeasurementTime := 7 |},
       None).
Proof.
  apply (parse_recovers_reading (frame warmLine) 7
           "ABC123" "-5" "21" "40" "1" "0" "30" "15"
           (String LF (string_of_list_ascii (repeat NUL 214)))
           (-5) 21 40 1 0);
    vm_compute; reflexivity.
Defined.

(** A line whose minutes alone pass 2^63 nanoseconds: every field
    converts, and [time.ParseDuration] refuses the uptime text. *)
Lemma uptime_bound_is_needed :
  parse (frame (line "ABC123, -5, 21, 40, x, x, x, 0, 0, 153722867, 17")) 7
  = Returns (None, Some "failed parsing duration string 0h153722867m17s").
Proof. vm_compute. reflexivity. Qed.

(** X3.  The fields 4, 5 and 6 of a line, and any field after the
    eleventh, are not looked at: two buffers that agree on the fields 0 to
    3 and 7 to 10 have the same result, measurement or error. *)
Theorem parse_ignores_reserved_fields (byteBuffer other : list ascii)
    (t : time.Time) :
  let d := strings.Split (string_of_list_ascii byteBuffer) ", " in
  let d' := strings.Split (string_of_list_ascii other) ", " in
  (forall i, In i [0; 1; 2; 3; 7; 8; 9; 10]%nat ->
             nth_error d i = nth_error d' i) ->
  nth_error d 10 <> None ->
  parse byteBuffer t = parse other t.
Proof.
  intros d d' Hsame H10. unfold parse. fold d d'. clearbody d d'.
  rewrite !index_nth_error by lia.
  change (Z.to_nat 0) with 0%nat. change (Z.to_nat 1) with 1%nat.
  change (Z.to_nat 2) with 2%nat. change (Z.to_nat 3) with 3%nat.
  change (Z.to_nat 7) with 7%nat. change (Z.to_nat 8) with 8%nat.
  change (Z.to_nat 9) with 9%nat. change (Z.to_nat 10) with 10%nat.
  assert (Hlen : (10 < List.length d)%nat) by (apply nth_error_Some; exact H10).
  assert (Hall : forall i, In i [0; 1; 2; 3; 7; 8; 9; 10]%nat ->
                           exists x, nth_error d i = Some x
                                     /\ nth_error d' i = Some x).
  { intros i Hi. destruct (nth_error d i) as [x|] eqn:Hx.
    - exists x. split; [reflexivity|]. rewrite <- (Hsame i Hi). exact Hx.
    - apply nth_error_None in Hx. cbn in Hi. lia. }
  destruct (Hall 0%nat) as (x0 & -> & ->); [cbn; tauto|].
  destruct (Hall 1%nat) as (x1 & -> & ->); [cbn; tauto|].
  destruct (Hall 2%nat) as (x2 & -> & ->); [cbn; tauto|].
  destruct (Hall 3%nat) as (x3 & -> & ->); [cbn; tauto|].
  destruct (Hall 7%nat) as (x7 & -> & ->); [cbn; tauto|].
  destruct (Hall 8%nat) as (x8 & -> & ->); [cbn; tauto|].
  destruct (Hall 9%nat) as (x9 & -> & ->); [cbn; tauto|].
  destruct (Hall 10%nat) as (x10 & -> & ->); [cbn; tauto|].
  reflexivity.
Qed.

Lemma parse_ignores_reserved_fields_witness :
  parse (frame warmLine) 0
  = parse (frame (line "ABC123, -5, 21, 40, ., -, ?, 1, 0, 30, 15")) 0.
Proof.
  apply (parse_ignores_reserved_fields
           (frame warmLine)
           (frame (line "ABC123, -5, 21, 40, ., -, ?, 1, 0, 30, 15")) 0).
  - intros i Hi.
    destruct Hi as [<-|[<-|[<-|[<-|[<-|[<-|[<-|[<-|[]]]]]]]]];
      vm_compute; reflexivity.
  - vm_compute. discriminate.
Defined.
End ParserMore.

Section FieldErrors.
Import iotco1000.

(** X4.  On a line of eleven fields or more the conversions are tried in
    the order CO concentration, temperature, relative humidity, days up,
    hours up, and then the uptime text is parsed.  The first step that
    fails ends the call with an error that names the field and quotes its
    text as it stood in the line (the uptime text for the last step); the
    fields after it are not looked at, and no measurement is returned. *)
Theorem parse_names_the_first_bad_field (byteBuffer : list ascii)
    (t : time.Time)
    (serialNumber coText tempText humText daysText hoursText minutesText
       secondsText : string) :
  let d := strings.Split (string_of_list_ascii byteBuffer) ", " in
  nth_error d 0 = Some serialNumber ->
  nth_error d 1 = Some coText ->
  nth_error d 2 = Some tempText ->
  nth_error d 3 = Some humText ->
  nth_error d 7 = Some daysText ->
  nth_error d 8 = Some hoursText ->
  nth_error d 9 = Some minutesText ->
  nth_error d 10 = Some secondsText ->
  (converts coText 32 = false ->
   parse byteBuffer t = Returns (failedConverting "CO concentration" coText))
  /\ (converts coText 32 = true -> converts tempText 8 = false ->
      parse byteBuffer t = Returns (failedConverting "temperature" tempText))
  /\ (converts coText 32 = true -> converts tempText 8 = true ->
      converts humText 8 = false ->
      parse byteBuffer t
      = Returns (failedConverting "relative humidity" humText))
  /\ (converts coText 32 = true -> converts tempText 8 = true ->
      converts humText 8 = true -> converts daysText 16 = false ->
      parse byteBuffer t = Returns (failedConverting "days up" daysText))
  /\ (converts coText 32 = true -> converts tempText 8 = true ->
      converts humText 8 = true -> converts daysText 16 = true ->
      converts hoursText 8 = false ->
      parse byteBuffer t = Returns (failedConverting "hours up" hoursText))
  /\ (let text :=
        uptimeDurationStr (fst (strconv.ParseInt daysText 10 16))
          (fst (strconv.ParseInt hoursText 10 8)) minutesText secondsText in
      converts coText 32 = true -> converts tempText 8 = true ->
      converts humText 8 = true -> converts daysText 16 = true ->
      converts hoursText 8 = true ->
      snd (time.ParseDuration text) <> None ->
      parse byteBuffer t
      = Returns (None, Some ("failed parsing duration string " ++ text))).
Proof.
  intros d H0 H1 H2 H3 H7 H8 H9 H10.
  unfold parse. fold d. clearbody d.
  rewrite !index_nth_error by lia.
  change (Z.to_nat 0) with 0%nat. change (Z.to_nat 1) with 1%nat.
  change (Z.to_nat 2) with 2%nat. change (Z.to_nat 3) with 3%nat.
  change (Z.to_nat 7) with 7%nat. change (Z.to_nat 8) with 8%nat.
  change (Z.to_nat 9) with 9%nat. change (Z.to_nat 10) with 10%nat.
  rewrite H0, H1, H2, H3, H7, H8, H9, H10. cbn [bindO].
  unfold converts, failedConverting.
  destruct (strconv.ParseInt coText 10 32) as [co [e|]];
    [repeat split; intros; first [reflexivity|discriminate]|].
  destruct (strconv.ParseInt tempText 10 8) as [temp [e|]];
    [repeat split; intros; first [reflexivity|discriminate]|].
  destruct (strconv.ParseInt humText 10 8) as [hum [e|]];
    [repeat split; intros; first [reflexivity|discriminate]|].
  destruct (strconv.ParseInt daysText 10 16) as [days [e|]];
    [repeat split; intros; first [reflexivity|discriminate]|].
  destruct (strconv.ParseInt hoursText 10 8) as [hours [e|]];
    [repeat split; intros; first [reflexivity|discriminate]|].
  cbn [fst].
  destruct (time.ParseDuration _) as [uptime [e|]];
    repeat split; intros; cbn [snd] in *;
    first [reflexivity|discriminate|contradiction].
Qed.
End FieldErrors.

(** A temperature of 128 degrees does not fit the eight bits asked for. *)
Lemma parse_names_the_first_bad_field_witness :
  iotco1000.parse
    (frame (line "ABC123, -5, 128, 40, x, x, x, 1, 0, 30, 15")) 7
  = Returns (failedConverting "temperature" "128").
Proof.
  refine (proj1 (proj2
    (parse_names_the_first_bad_field
       (frame (line "ABC123, -5, 128, 40, x, x, x, 1, 0, 30, 15")) 7
       "ABC123" "-5" "128" "40" "1" "0" "30"
       ("15" ++ String iotco1000.LF
               (string_of_list_ascii (repeat iotco1000.NUL 213)))
       _ _ _ _ _ _ _ _)) _ _); vm_compute; reflexivity.
Defined.

Section Conversions.

Lemma digit_facts (c : ascii) :
  isDigit c = true ->
  strconv.digitOf c = Some (digitVal c)
  /\ Ascii.eqb c "-" = false /\ Ascii.eqb c "+" = false.
Proof.
  intros Hc.
  destruct c as [[] [] [] [] [] [] [] []];
    try (vm_compute in Hc; discriminate Hc); repeat split.
Qed.

Lemma parseDigits_decimal (s : string) :
  forall n maxVal,
    allDigits s = true -> 0 <= n <= maxVal -> maxVal < 2 ^ 64 ->
    strconv.parseDigits 10 maxVal n s
    = if decimalValue n s <=? maxVal then (decimalValue n s, None)
      else (maxVal, Some strconv.ErrRange).
Proof.
  induction s as [|c s IH]; intros n maxVal Hd Hn Hmax.
  - cbn. destruct (Z.leb_spec n maxVal); [reflexivity|lia].
  - cbn in Hd. apply andb_true_iff in Hd. destruct Hd as [Hc Hd].
    destruct (digit_facts c Hc) as (Hof & _ & _).
    pose proof (digitVal_bounds c Hc) as Hb.
    cbn [strconv.parseDigits decimalValue]. rewrite Hof.
    destruct (Z.leb_spec 10 (digitVal c)); [lia|].
    pose proof (decimalValue_ge s (n * 10 + digitVal c) ltac:(lia) Hd) as Hge.
    change (strconv.maxUint64 / 10 + 1) with 1844674407370955162.
    change (2 ^ 64) with 18446744073709551616 in *.
    destruct (Z.leb_spec 1844674407370955162 n).
    { destruct (Z.leb_spec (decimalValue (n * 10 + digitVal c) s) maxVal);
        [lia|reflexivity]. }
    assert (H10 : uint64 (n * 10) = n * 10)
      by (unfold uint64; apply Z.mod_small;
          change (2 ^ 64) with 18446744073709551616; lia).
    rewrite H10.
    destruct (Z_lt_ge_dec (n * 10 + digitVal c) 18446744073709551616)
      as [Hfit|Hwrap].
    + assert (H1 : uint64 (n * 10 + digitVal c) = n * 10 + digitVal c)
        by (unfold uint64; apply Z.mod_small;
            change (2 ^ 64) with 18446744073709551616; lia).
      rewrite H1.
      destruct (Z.ltb_spec (n * 10 + digitVal c) (n * 10)); [lia|].
      destruct (Z.ltb_spec maxVal (n * 10 + digitVal c)); cbn [orb].
      * destruct (Z.leb_spec (decimalValue (n * 10 + digitVal c) s) maxVal);
          [lia|reflexivity].
      * apply IH; try assumption. lia.
    + assert (H1 : uint64 (n * 10 + digitVal c)
                   = n * 10 + digitVal c - 18446744073709551616).
      { unfold uint64. change (2 ^ 64) with 18446744073709551616.
        symmetry. apply (Z.mod_unique_pos _ _ 1); lia. }
      rewrite H1.
      destruct (Z.ltb_spec (n * 10 + digitVal c - 18446744073709551616) (n * 10));
        [|lia]. cbn [orb].
      destruct (Z.leb_spec (decimalValue (n * 10 + digitVal c) s) maxVal);
        [lia|reflexivity].
Qed.

(** [ParseInt] on the text [%d] writes of a number: the number when it
    fits the size asked for, else a range error. *)
Lemma ParseInt_FormatInt (z bitSize : Z) :
  1 < bitSize < 64 ->
  strconv.ParseInt (strconv.FormatInt z) 10 bitSize
  = if (- 2 ^ (bitSize - 1) <=? z) && (z <? 2 ^ (bitSize - 1))
    then (z, None)
    else (if z <? 0 then - 2 ^ (bitSize - 1) else 2 ^ (bitSize - 1) - 1,
          Some strconv.ErrRange).
Proof.
  intros Hb.
  assert (Hp : 2 ^ bitSize = 2 * 2 ^ (bitSize - 1)).
  { replace bitSize with (Z.succ (bitSize - 1)) at 1 by lia.
    apply Z.pow_succ_r. lia. }
  assert (Hp1 : 2 ^ 1 <= 2 ^ (bitSize - 1)) by (apply Z.pow_le_mono_r; lia).
  assert (Hp62 : 2 ^ (bitSize - 1) <= 2 ^ 62) by (apply Z.pow_le_mono_r; lia).
  change (2 ^ 1) with 2 in Hp1. change (2 ^ 62) with 4611686018427387904 in Hp62.
  set (half := 2 ^ (bitSize - 1)) in *.
  destruct (Z.ltb_spec z 0) as [Hneg|Hpos].
  - destruct (FormatInt_neg z Hneg) as (digits & -> & Hn & Hv).
    unfold isNumeral in Hn. apply andb_true_iff in Hn. destruct Hn as [Hne Hd].
    unfold strconv.ParseInt. cbn [Ascii.eqb Bool.eqb orb negb andb].
    change (Ascii.eqb "-" "-") with true. change (Ascii.eqb "-" "+") with false.
    cbn [orb negb andb]. unfold strconv.ParseUint.
    destruct digits as [|c digits']; [discriminate|]. cbn [isEmpty].
    rewrite parseDigits_decimal;
      [ | assumption | lia
        | change (2 ^ 64) with 18446744073709551616;
          assert (2 ^ bitSize <= 2 ^ 63) by (apply Z.pow_le_mono_r; lia);
          change (2 ^ 63) with 9223372036854775808 in *; lia ].
    rewrite Hv. rewrite Hp. fold half.
    destruct (Z.leb_spec (- z) (2 * half - 1)).
    + destruct (Z.ltb_spec half (- z)); destruct (Z.leb_spec (- half) z);
        try lia; cbn [andb].
      * reflexivity.
      * destruct (Z.ltb_spec z half); [|lia].
        unfold int64. rewrite (wrap_small 64 (- z)) by lia.
        rewrite wrap_small by lia. f_equal. lia.
    + destruct (Z.ltb_spec half (2 * half - 1)); [|lia].
      destruct (Z.leb_spec (- half) z); [lia|]. reflexivity.
  - destruct (FormatInt_nonneg z Hpos) as [Hn Hv].
    unfold isNumeral in Hn. apply andb_true_iff in Hn. destruct Hn as [Hne Hd].
    destruct (strconv.FormatInt z) as [|c digits'] eqn:Hf; [discriminate|].
    assert (Hc : isDigit c = true)
      by (cbn in Hd; apply andb_true_iff in Hd; tauto).
    destruct (digit_facts c Hc) as (_ & Hm & Hpl).
    unfold strconv.ParseInt. rewrite Hm, Hpl. cbn [orb negb andb].
    unfold strconv.ParseUint. cbn [isEmpty].
    rewrite parseDigits_decimal;
      [ | assumption | lia
        | change (2 ^ 64) with 18446744073709551616;
          assert (2 ^ bitSize <= 2 ^ 63) by (apply Z.pow_le_mono_r; lia);
          change (2 ^ 63) with 9223372036854775808 in *; lia ].
    rewrite Hv. rewrite Hp. fold half.
    destruct (Z.leb_spec (- half) z); [|lia]. cbn [andb].
    destruct (Z.leb_spec z (2 * half - 1)).
    + destruct (Z.leb_spec half z); destruct (Z.ltb_spec z half); try lia.
      * reflexivity.
      * unfold int64. rewrite wrap_small by lia. reflexivity.
    + destruct (Z.leb_spec half (2 * half - 1)); [|lia].
      destruct (Z.ltb_spec z half); [lia|]. reflexivity.
Qed.
End Conversions.


Section Stimulus.
Import iotco1000.
Context {P : Type} `{ReadWriteCloser P}.

(** X5.  An error of [Write] is returned as it is, for every port, and
    nothing else is done: no sleep, no read. *)
Theorem write_error_is_returned (co : IOTCO1000 P) (rounds : nat) (p' : P)
    (n : Z) (e : error) :
  Write (SerialPort co) CRLF = (p', (n, Some e)) ->
  exists co',
    AnalyzeAirQuality rounds co = (Returns (None, Some e), co')
    /\ SerialPort co' = p'
    /\ clock co' = clock co
    /\ trace co' = (trace co ++ [EvWrite CRLF n (Some e)])%list.
Proof.
  intros Hw. eexists. unfold AnalyzeAirQuality, bind, portWrite.
  rewrite Hw. cbn. repeat split.
Qed.

(** X6.  An error of the first [Read] ends the call, for every port: the
    error is printed and returned, and the bytes that came with it are
    dropped. *)
Theorem read_error_is_returned (co : IOTCO1000 P) (rounds : nat) (p1 p2 : P)
    (n : Z) (data : list ascii) (e : error) :
  Write (SerialPort co) CRLF = (p1, (n, None)) ->
  n <> 0 ->
  Read p1 256 = (p2, (data, Some e)) ->
  exists co',
    AnalyzeAirQuality (S rounds) co = (Returns (None, Some e), co')
    /\ SerialPort co' = p2
    /\ clock co' = clock co + 1000 * time.Millisecond
    /\ trace co'
       = (trace co
            ++ [ EvWrite CRLF n None; EvSleep (1000 * time.Millisecond);
                 EvRead 256 data (Some e); EvPrintf ("error is: " ++ e) ])%list.
Proof.
  intros Hw Hn Hr. eexists. unfold AnalyzeAirQuality, bind, portWrite.
  rewrite Hw. cbn [record]. apply Z.eqb_neq in Hn. rewrite Hn.
  cbn [Sleep Now record clock SerialPort trace readFrame].
  unfold bind, portRead. rewrite repeat_length.
  cbn [record SerialPort clock trace]. rewrite Hr.
  unfold Printf, ret, record. cbn [SerialPort clock trace].
  rewrite <- !app_assoc. repeat split.
Qed.

Lemma last_nth_error (data : list ascii) :
  data <> [] ->
  nth_error data (List.length data - 1) = Some (last data NUL).
Proof.
  destruct data as [|c data]; [contradiction|]. intros _.
  revert c. induction data as [|c' data IH]; intros c; [reflexivity|].
  specialize (IH c'). cbn [List.length] in *.
  replace (S (S (List.length data)) - 1)%nat
    with (S (S (List.length data) - 1)) by lia.
  cbn [nth_error]. rewrite IH. reflexivity.
Qed.

(** The loop leaves at its first [Read] when that [Read] brings bytes
    that end in a line feed. *)
Lemma readFrame_whole (co : IOTCO1000 P) (rounds : nat) (p : P)
    (byteBuffer data : list ascii) :
  List.length byteBuffer = 256%nat ->
  Read (SerialPort co) 256 = (p, (data, None)) ->
  (List.length data <= 256)%nat ->
  data <> [] ->
  last data NUL = LF ->
  readFrame (S rounds) byteBuffer 0 co
  = (Returns (inl (store data byteBuffer)),
     record (EvRead 256 data None)
       {| SerialPort := p; clock := clock co; trace := trace co |}).
Proof.
  intros Hbuf Hr Hlen Hne Hlast.
  assert (Hpos : (0 < List.length data)%nat)
    by (destruct data; [contradiction|cbn; lia]).
  cbn [readFrame]. unfold bind at 1. unfold portRead. rewrite Hbuf, Hr.
  assert (Hint : int (0 + Z.of_nat (List.length data))
                 = Z.of_nat (List.length data))
    by (unfold int, intSize; apply wrap_small; lia).
  rewrite Hint.
  destruct (Z.eqb_spec (Z.of_nat (List.length data)) 0); [lia|].
  unfold bind at 1. unfold lift. rewrite index_nth_error by lia.
  replace (Z.to_nat (Z.of_nat (List.length data) - 1))
    with (List.length data - 1)%nat by lia.
  unfold store at 1. rewrite nth_error_app1 by lia.
  rewrite (last_nth_error data Hne), Hlast. cbn [bindO].
  change (Ascii.eqb LF LF) with true. cbv iota. reflexivity.
Qed.

(** X7.  A response that one [Read] delivers whole, line feed last, is
    parsed after that one [Read], for every port: the frame is the
    response followed by NUL bytes, the time of the measurement is the
    time after the settle delay of one second, and the loop does not
    sleep. *)
Theorem one_read_suffices (co : IOTCO1000 P) (rounds : nat) (p1 p2 : P)
    (n : Z) (data : list ascii) :
  Write (SerialPort co) CRLF = (p1, (n, None)) ->
  n <> 0 ->
  Read p1 256 = (p2, (data, None)) ->
  (List.length data <= 256)%nat ->
  data <> [] ->
  last data NUL = LF ->
  exists co',
    AnalyzeAirQuality (S rounds) co
    = (parse (frameOf data) (clock co + 1000 * time.Millisecond), co')
    /\ SerialPort co' = p2
    /\ clock co' = clock co + 1000 * time.Millisecond
    /\ trace co'
       = (trace co
            ++ [ EvWrite CRLF n None; EvSleep (1000 * time.Millisecond);
                 EvRead 256 data None ])%list.
Proof.
  intros Hw Hn Hr Hlen Hne Hlast. eexists.
  unfold AnalyzeAirQuality, bind, portWrite.
  rewrite Hw. cbn [record]. apply Z.eqb_neq in Hn. rewrite Hn.
  cbn [Sleep Now record clock SerialPort trace].
  match goal with
  | |- context [readFrame (S rounds) ?b 0 ?c] =>
      rewrite (readFrame_whole c rounds p2 b data (repeat_length _ _) Hr
                 Hlen Hne Hlast)
  end.
  unfold lift, record. cbn [SerialPort clock trace].
  rewrite <- !app_assoc. repeat split.
Qed.
End Stimulus.

Section Scripted.
Import iotco1000.

Lemma Script_read (p : Script) (data : list ascii) (err : option error)
    (rest : list (list ascii * option error)) :
  reads p = (data, err) :: rest ->
  (List.length data <= 256)%nat ->
  Read p 256
  = ({| writeResult := writeResult p; reads := rest |}, (data, err)).
Proof.
  intros Hr Hl. cbn [Read Script_port]. rewrite Hr.
  destruct (Nat.ltb_spec 256 (List.length data)); [lia|reflexivity].
Qed.

(** While nothing has arrived the loop sleeps 50 ms and reads again; the
    response is taken at the first [Read] that finds it. *)
Lemma readFrame_late (data : list ascii) (rounds : nat) :
  (List.length data <= 256)%nat ->
  data <> [] ->
  last data NUL = LF ->
  forall (k : nat) (byteBuffer : list ascii) (co : IOTCO1000 Script),
    List.length byteBuffer = 256%nat ->
    reads (SerialPort co) = (repeat ([], None) k ++ [(data, None)])%list ->
    exists co',
      readFrame (S k + rounds) byteBuffer 0 co
      = (Returns (inl (store data byteBuffer)), co')
      /\ clock co' = clock co + Z.of_nat k * (50 * time.Millisecond)
      /\ reads (SerialPort co') = [].
Proof.
  intros Hlen Hne Hlast.
  assert (Hpos : (0 < List.length data)%nat)
    by (destruct data; [contradiction|cbn; lia]).
  induction k as [|k IH]; intros buf co Hbuf Hreads.
  - cbn [repeat app] in Hreads. cbn [Nat.add readFrame].
    unfold bind at 1. unfold portRead. rewrite Hbuf.
    rewrite (Script_read _ _ _ _ Hreads Hlen).
    assert (Hint : int (0 + Z.of_nat (List.length data))
                   = Z.of_nat (List.length data)).
    { unfold int, intSize. apply wrap_small; lia. }
    rewrite Hint.
    destruct (Z.eqb_spec (Z.of_nat (List.length data)) 0); [lia|].
    unfold bind at 1. unfold lift. rewrite index_nth_error by lia.
    replace (Z.to_nat (Z.of_nat (List.length data) - 1))
      with (List.length data - 1)%nat by lia.
    unfold store at 1. rewrite nth_error_app1 by lia.
    rewrite (last_nth_error data Hne), Hlast. cbn [bindO].
    change (Ascii.eqb LF LF) with true. cbv iota.
    eexists. unfold ret, record. cbn [SerialPort clock trace reads].
    repeat split; cbn [SerialPort clock trace reads]; lia.
  - cbn [repeat app] in Hreads.
    replace (S (S k) + rounds)%nat with (S (S k + rounds)) by lia.
    cbn [readFrame]. unfold bind at 1. unfold portRead. rewrite Hbuf.
    rewrite (Script_read _ _ _ _ Hreads) by (cbn; lia).
    cbn [List.length]. change (int (0 + Z.of_nat 0)) with 0.
    cbn [Z.eqb]. unfold bind at 1. unfold Sleep at 1.
    assert (Hs : store [] buf = buf) by reflexivity. rewrite Hs.
    match goal with
    | |- context [readFrame (S k + rounds) buf 0 ?c] =>
        destruct (IH buf c Hbuf eq_refl) as (co' & Hrun & Hclock & Hq)
    end.
    exists co'. split; [exact Hrun|].
    unfold record in Hclock. cbn [SerialPort clock trace] in Hclock.
    repeat split; [lia|exact Hq].
Qed.

(** When the script is over and the byte before the running total is no
    line feed, the loop finds the same byte at every round. *)
Lemma readFrame_stalled (rounds : nat) :
  forall (byteBuffer : list ascii) (totalBytesRead : Z)
         (co : IOTCO1000 Script) (b : ascii),
    reads (SerialPort co) = [] ->
    0 < totalBytesRead <= 256 ->
    nth_error byteBuffer (Z.to_nat (totalBytesRead - 1)) = Some b ->
    b <> LF ->
    fst (readFrame rounds byteBuffer totalBytesRead co) = Running.
Proof.
  induction rounds as [|rounds IH]; intros buf total co b Hq Ht Hb Hne.
  - reflexivity.
  - cbn [readFrame]. unfold bind at 1. unfold portRead.
    cbn [Read Script_port]. rewrite Hq.
    cbn [List.length]. change (Z.of_nat 0) with 0. rewrite Z.add_0_r.
    assert (Hint : int total = total)
      by (unfold int, intSize; apply wrap_small; lia).
    rewrite Hint.
    destruct (Z.eqb_spec total 0); [lia|].
    assert (Hs : store [] buf = buf) by reflexivity. rewrite Hs.
    unfold bind at 1. unfold lift.
    rewrite index_nth_error by lia.
    rewrite Hb. cbn [bindO].
    destruct (Ascii.eqb_spec b LF) as [->|_]; [contradiction|].
    unfold bind at 1. unfold Sleep at 1.
    apply (IH buf total _ b); [exact Hq|exact Ht|exact Hb|exact Hne].
Qed.

(** X8.  The measurement time is taken once, after the settle delay and before
    the first [Read].  A response that arrives [k] polls later is parsed
    all the same; each empty poll costs 50 ms, which the time of the
    measurement does not show. *)
Theorem late_response_keeps_first_time (k rounds : nat) (n : Z)
    (data : list ascii) :
  n <> 0 ->
  (List.length data <= 256)%nat ->
  data <> [] ->
  last data NUL = LF ->
  exists co',
    AnalyzeAirQuality (S k + rounds)
      (scripted (n, None) (repeat ([], None) k ++ [(data, None)]))
    = (parse (frameOf data) (1000 * time.Millisecond), co')
    /\ clock co'
       = 1000 * time.Millisecond + Z.of_nat k * (50 * time.Millisecond).
Proof.
  intros Hn Hlen Hne Hlast.
  unfold AnalyzeAirQuality, bind, portWrite.
  cbn [Write Script_port scripted SerialPort writeResult].
  cbn [record]. apply Z.eqb_neq in Hn. rewrite Hn.
  cbn [Sleep Now record clock SerialPort trace].
  match goal with
  | |- context [readFrame (S k + rounds) ?b 0 ?c] =>
      destruct (readFrame_late data rounds Hlen Hne Hlast k b c
                  (repeat_length _ _) eq_refl) as (co' & Hrun & Hclock & _);
      rewrite Hrun
  end.
  exists co'. unfold lift. split; [reflexivity|].
  rewrite Hclock. unfold record. cbn [clock]. rewrite Z.add_0_l. reflexivity.
Qed.

(** X9.  A response that arrives in two parts is never recognised.  The second
    [Read] stores its bytes at the head of the buffer, over the first
    part, while the byte that is tested is the one before the running
    total: that byte is still NUL.  Whatever the second part ends in,
    the call polls on. *)
Theorem split_response_is_never_recognised (rounds : nat) (n : Z)
    (part1 part2 : list ascii) :
  n <> 0 ->
  part1 <> [] ->
  part2 <> [] ->
  (List.length part1 + List.length part2 <= 256)%nat ->
  last part1 NUL <> LF ->
  fst (AnalyzeAirQuality rounds
         (scripted (n, None) [(part1, None); (part2, None)])) = Running.
Proof.
  intros Hn H1 H2 Hlen Hlast.
  assert (Hp1 : (0 < List.length part1)%nat)
    by (destruct part1; [contradiction|cbn; lia]).
  assert (Hp2 : (0 < List.length part2)%nat)
    by (destruct part2; [contradiction|cbn; lia]).
  unfold AnalyzeAirQuality, bind, portWrite.
  cbn [Write Script_port scripted SerialPort writeResult].
  cbn [record]. apply Z.eqb_neq in Hn. rewrite Hn.
  cbn [Sleep Now record clock SerialPort trace].
  match goal with
  | |- context [readFrame rounds ?b 0 ?c] =>
      enough (Hrun : fst (readFrame rounds b 0 c) = Running)
        by (destruct (readFrame rounds b 0 c) as [o c']; cbn in Hrun;
            subst o; reflexivity)
  end.
  destruct rounds as [|rounds]; [reflexivity|].
  cbn [readFrame]. unfold bind at 1. unfold portRead. rewrite repeat_length.
  rewrite (Script_read _ part1 None [(part2, None)]); [|reflexivity|lia].
  assert (Hint1 : int (0 + Z.of_nat (List.length part1))
                  = Z.of_nat (List.length part1))
    by (unfold int, intSize; apply wrap_small; lia).
  rewrite Hint1.
  destruct (Z.eqb_spec (Z.of_nat (List.length part1)) 0); [lia|].
  unfold bind at 1. unfold lift. rewrite index_nth_error by lia.
  replace (Z.to_nat (Z.of_nat (List.length part1) - 1))
    with (List.length part1 - 1)%nat by lia.
  unfold store at 1. rewrite nth_error_app1 by lia.
  rewrite (last_nth_error part1 H1). cbn [bindO].
  destruct (Ascii.eqb_spec (last part1 NUL) LF) as [Heq|_];
    [contradiction|].
  unfold bind at 1. unfold Sleep at 1.
  destruct rounds as [|rounds]; [reflexivity|].
  cbn [readFrame]. unfold bind at 1. unfold portRead.
  rewrite store_length by (rewrite repeat_length; lia).
  rewrite repeat_length.
  unfold record at 1 2. cbn [SerialPort clock trace].
  rewrite (Script_read _ part2 None []); [|reflexivity|lia].
  assert (Hint2 : int (Z.of_nat (List.length part1)
                       + Z.of_nat (List.length part2))
                  = Z.of_nat (List.length part1 + List.length part2))
    by (unfold int, intSize; rewrite wrap_small; lia).
  rewrite Hint2.
  destruct (Z.eqb_spec (Z.of_nat (List.length part1 + List.length part2)) 0);
    [lia|].
  assert (Hnul : nth_error (store part2 (store part1 (repeat NUL 256)))
                   (Z.to_nat (Z.of_nat (List.length part1
                                        + List.length part2) - 1))
                 = Some NUL).
  { unfold store. rewrite nth_error_app2 by lia.
    rewrite nth_error_skipn, nth_error_app2 by lia.
    rewrite nth_error_skipn, nth_error_repeat by lia. reflexivity. }
  unfold bind at 1. unfold lift. rewrite index_nth_error by lia.
  rewrite Hnul. cbn [bindO]. change (Ascii.eqb NUL LF) with false. cbv iota.
  unfold bind at 1. unfold Sleep at 1.
  apply (readFrame_stalled rounds _ _ _ NUL);
    [reflexivity|lia|exact Hnul|discriminate].
Qed.
End Scripted.

Section Leftovers.
Import iotco1000.

(** X10.  The call does not empty the port before it writes the stimulus.
    Bytes that an earlier call left in the port are read first: the frame
    that is parsed begins with them. *)
Theorem stale_bytes_lead_the_next_frame (co : IOTCO1000 Sensor)
    (rounds : nat) :
  let arrived := (queue (SerialPort co) ++ response (SerialPort co))%list in
  (List.length arrived <= 256)%nat ->
  arrived <> [] ->
  last arrived NUL = LF ->
  exists co',
    AnalyzeAirQuality (S rounds) co
    = (parse (frameOf arrived) (clock co + 1000 * time.Millisecond), co')
    /\ queue (SerialPort co') = [].
Proof.
  intros arrived Hlen Hne Hlast. eexists.
  unfold AnalyzeAirQuality, bind, portWrite.
  cbn [Write Sensor_port]. fold arrived. cbn [record].
  change (Z.of_nat (String.length CRLF) =? 0) with false. cbv iota.
  cbn [Sleep Now record clock SerialPort trace].
  match goal with
  | |- context [readFrame (S rounds) ?b 0 ?c] =>
      rewrite (readFrame_whole c rounds
                 {| response := response (SerialPort co); queue := [] |}
                 b arrived (repeat_length _ _))
  end; try assumption.
  - unfold lift, record. cbn [SerialPort clock trace queue].
    split; reflexivity.
  - cbn [Read Sensor_port record SerialPort queue response].
    rewrite firstn_all2, skipn_all2 by lia. reflexivity.
Qed.
End Leftovers.

Section StimulusRuns.
Import iotco1000.

Lemma write_error_is_returned_witness :
  exists co',
    AnalyzeAirQuality 3 (scripted (0, Some ioError) [])
    = (Returns (None, Some ioError), co')
    /\ SerialPort co' = {| writeResult := (0, Some ioError); reads := [] |}
    /\ clock co' = 0
    /\ trace co' = [EvWrite CRLF 0 (Some ioError)].
Proof.
  apply (write_error_is_returned (scripted (0, Some ioError) []) 3
           {| writeResult := (0, Some ioError); reads := [] |} 0 ioError).
  reflexivity.
Defined.

Lemma read_error_is_returned_witness :
  exists co',
    AnalyzeAirQuality 1
      (scripted (2, None) [(list_ascii_of_string warmLine, Some ioError)])
    = (Returns (None, Some ioError), co')
    /\ SerialPort co' = {| writeResult := (2, None); reads := [] |}
    /\ clock co' = 0 + 1000 * time.Millisecond
    /\ trace co'
       = [ EvWrite CRLF 2 None; EvSleep (1000 * time.Millisecond);
           EvRead 256 (list_ascii_of_string warmLine) (Some ioError);
           EvPrintf ("error is: " ++ ioError) ].
Proof.
  apply (read_error_is_returned
           (scripted (2, None)
              [(list_ascii_of_string warmLine, Some ioError)]) 0
           {| writeResult := (2, None);
              reads := [(list_ascii_of_string warmLine, Some ioError)] |}
           {| writeResult := (2, None); reads := [] |}
           2 (list_ascii_of_string warmLine) ioError).
  - reflexivity.
  - discriminate.
  - reflexivity.
Defined.

Lemma one_read_suffices_witness :
  exists co',
    AnalyzeAirQuality 1 (sensor warmLine)
    = (parse (frameOf (list_ascii_of_string warmLine))
         (0 + 1000 * time.Millisecond), co')
    /\ SerialPort co'
       = {| response := list_ascii_of_string warmLine; queue := [] |}
    /\ clock co' = 0 + 1000 * time.Millisecond
    /\ trace co'
       = [ EvWrite CRLF 2 None; EvSleep (1000 * time.Millisecond);
           EvRead 256 (list_ascii_of_string warmLine) None ].
Proof.
  apply (one_read_suffices (sensor warmLine) 0
           {| response := list_ascii_of_string warmLine;
              queue := list_ascii_of_string warmLine |}
           {| response := list_ascii_of_string warmLine; queue := [] |}
           2 (list_ascii_of_string warmLine)).
  - reflexivity.
  - discriminate.
  - reflexivity.
  - vm_compute. lia.
  - discriminate.
  - reflexivity.
Defined.

Lemma late_response_keeps_first_time_witness :
  exists co',
    AnalyzeAirQuality (S 3 + 0)
      (scripted (2, None)
         (repeat ([], None) 3 ++ [(list_ascii_of_string warmLine, None)]))
    = (parse (frameOf (list_ascii_of_string warmLine))
         (1000 * time.Millisecond), co')
    /\ clock co'
       = 1000 * time.Millisecond + Z.of_nat 3 * (50 * time.Millisecond).
Proof.
  apply (late_response_keeps_first_time 3 0 2
           (list_ascii_of_string warmLine)).
  - discriminate.
  - vm_compute. lia.
  - discriminate.
  - reflexivity.
Defined.

Lemma split_response_is_never_recognised_witness :
  fst (AnalyzeAirQuality 40
         (scripted (2, None)
            [ (list_ascii_of_string "ABC123, -5, 21, 40, x, x, ", None);
              (list_ascii_of_string (line "x, 1, 0, 30, 15"), None) ]))
  = Running.
Proof.
  apply (split_response_is_never_recognised 40 2
           (list_ascii_of_string "ABC123, -5, 21, 40, x, x, ")
           (list_ascii_of_string (line "x, 1, 0, 30, 15"))).
  - discriminate.
  - discriminate.
  - discriminate.
  - vm_compute. lia.
  - vm_compute. discriminate.
Defined.

Lemma stale_bytes_lead_the_next_frame_witness :
  exists co',
    AnalyzeAirQuality 1
      {| SerialPort := {| response := list_ascii_of_string warmLine;
                          queue := list_ascii_of_string (line "30, 15") |};
         clock := 0; trace := [] |}
    = (parse (frameOf (list_ascii_of_string (line "30, 15" ++ warmLine)))
         (0 + 1000 * time.Millisecond), co')
    /\ queue (SerialPort co') = [].
Proof.
  apply (stale_bytes_lead_the_next_frame
           {| SerialPort := {| response := list_ascii_of_string warmLine;
                               queue := list_ascii_of_string (line "30, 15") |};
              clock := 0; trace := [] |} 0).
  - vm_compute. lia.
  - discriminate.
  - reflexivity.
Defined.
End StimulusRuns.


Section SubmissionRuns.
Import iotco1000 cloudwatch.
Context {C : Type} `{Client C}.

(** The loop of [main/main.go] from any state it can be in: what it
    sends, the client it ends with, and the failures it logs. *)
Lemma main_run (ns : string) (received : list AirQualityMeasurement) :
  forall s : main.Submitter C,
    let s' := fold_left (main.iteration ns) received s in
    let batches := map (main.params ns) (filter warmedUp received) in
    main.sent s' = (main.sent s ++ batches)%list
    /\ main.cw s'
       = fold_left (fun c b => fst (PutMetricData c b)) batches (main.cw s)
    /\ filter isFailureLine (main.logger s')
       = (filter isFailureLine (main.logger s)
            ++ failureLines (answers (main.cw s) batches))%list.
Proof.
  induction received as [|aq received IH]; intros s.
  - cbn. rewrite !app_nil_r. repeat split.
  - cbn [fold_left filter].
    specialize (IH (main.iteration ns s aq)). cbv zeta in IH.
    destruct IH as (IHs & IHc & IHl). cbv zeta.
    rewrite IHs, IHc, IHl. clear IHs IHc IHl.
    unfold main.iteration, warmedUp.
    destruct (classify aq).
    + destruct (negb (main.loggedAboutUptime s)); cbn [main.sent main.cw
        main.logger]; rewrite ?filter_app; cbn [filter isFailureLine
        isStateLine negb]; rewrite ?app_nil_r; repeat split.
    + cbn [map fold_left answers].
      destruct (PutMetricData (main.cw s) (main.params ns aq))
        as [client' err].
      cbn [main.sent main.cw main.logger fst].
      rewrite <- !app_assoc. cbn [app].
      repeat split.
      destruct err as [e|]; rewrite ?filter_app;
        cbn [filter isFailureLine isStateLine negb failureLines flat_map app];
        rewrite <- ?app_assoc; reflexivity.
Qed.

(** X11.  The loop of [main/main.go] sends one batch for each measurement
    that is warmed up, in the order of arrival, and nothing for the
    others, whatever the client answers: a refused batch is not sent
    again, and it does not keep the later ones from being sent. *)
Theorem main_sends_each_warm_reading_once (client : C) (ns : string)
    (received : list AirQualityMeasurement) :
  main.sent (main.submitMetricsToCloudWatch client ns received)
  = map (main.params ns) (filter warmedUp received).
Proof.
  unfold main.submitMetricsToCloudWatch.
  destruct (main_run ns received (main.started client)) as (Hs & _).
  rewrite Hs. reflexivity.
Qed.

(** X12.  Every error that the client returns is logged once, in the
    order of the batches, and the loop logs no other failure. *)
Theorem main_logs_each_refusal_once (client : C) (ns : string)
    (received : list AirQualityMeasurement) :
  let s := main.submitMetricsToCloudWatch client ns received in
  filter isFailureLine (main.logger s)
  = failureLines (answers client (main.sent s)).
Proof.
  cbv zeta. unfold main.submitMetricsToCloudWatch.
  destruct (main_run ns received (main.started client)) as (Hs & _ & Hl).
  rewrite Hl, Hs. reflexivity.
Qed.

(** The loop of the variant in [iotco1000/iotco1000.go], likewise. *)
Lemma main2_run (ns : string) (received : list AirQualityMeasurement) :
  forall s : main2.Submitter C,
    let s' := fold_left (main2.iteration ns) received s in
    let batches :=
      map (fun aq => main2.metricDataInput (warmedUp aq) ns aq) received in
    main2.sent s' = (main2.sent s ++ batches)%list
    /\ main2.cw s'
       = fold_left (fun c b => fst (PutMetricData c b)) batches (main2.cw s)
    /\ filter isFailureLine (main2.logger s')
       = (filter isFailureLine (main2.logger s)
            ++ failureLines (answers (main2.cw s) batches))%list.
Proof.
  induction received as [|aq received IH]; intros s.
  - cbn. rewrite !app_nil_r. repeat split.
  - cbn [fold_left map].
    specialize (IH (main2.iteration ns s aq)). cbv zeta in IH.
    destruct IH as (IHs & IHc & IHl). cbv zeta.
    rewrite IHs, IHc, IHl. clear IHs IHc IHl.
    unfold main2.iteration, warmedUp.
    cbn [fold_left answers].
    destruct (classify aq);
      [destruct (negb (main2.loggedSensorNotWarmedUp s))
      |destruct (negb (main2.loggedSensorActive s))];
      match goal with
      | |- context [PutMetricData ?c ?b] =>
          destruct (PutMetricData c b) as [client' err]
      end;
      cbn [main2.sent main2.cw main2.logger fst];
      rewrite <- ?app_assoc; cbn [app]; (repeat split);
      destruct err as [e|]; rewrite ?filter_app;
      cbn [filter isFailureLine isStateLine negb failureLines flat_map app];
      rewrite <- ?app_assoc; reflexivity.
Qed.

(** X13.  The variant in [iotco1000/iotco1000.go] sends one batch for
    every measurement, in the order of arrival: the five metrics with the
    indicator 1 when it is warmed up, the uptime and the indicator 0 when
    it is not; and it logs the client's errors, each once and in order. *)
Theorem main2_sends_every_reading (client : C) (ns : string)
    (received : list AirQualityMeasurement) :
  let s := main2.submitMetricsToCloudWatch client ns received in
  main2.sent s
  = map (fun aq => main2.metricDataInput (warmedUp aq) ns aq) received
  /\ filter isFailureLine (main2.logger s)
     = failureLines (answers client (main2.sent s)).
Proof.
  cbv zeta. unfold main2.submitMetricsToCloudWatch.
  destruct (main2_run ns received (main2.started client)) as (Hs & _ & Hl).
  rewrite Hl, Hs. split; reflexivity.
Qed.
End SubmissionRuns.

Section StateLines.
Import iotco1000 cloudwatch.
Context {C : Type} `{Client C}.

Lemma main_state_lines (ns : string) (received : list AirQualityMeasurement) :
  forall s : main.Submitter C,
    filter isStateLine (main.logger (fold_left (main.iteration ns) received s))
    = (filter isStateLine (main.logger s)
         ++ (if main.loggedAboutUptime s || forallb warmedUp received then []
             else [SkippingNotWarmedUp warmUpDuration]))%list.
Proof.
  induction received as [|aq received IH]; intros s.
  - cbn. rewrite orb_true_r, app_nil_r. reflexivity.
  - cbn [fold_left forallb]. rewrite IH. clear IH.
    unfold main.iteration, warmedUp.
    destruct (classify aq).
    + destruct (main.loggedAboutUptime s) eqn:Hf; cbn [negb];
        cbn [main.logger main.loggedAboutUptime andb orb];
        rewrite ?Hf; cbn [orb]; [reflexivity|].
      rewrite filter_app. cbn [filter isStateLine].
      rewrite <- app_assoc, app_nil_r. reflexivity.
    + destruct (PutMetricData (main.cw s) (main.params ns aq))
        as [client' err].
      cbn [main.logger main.loggedAboutUptime andb].
      destruct err as [e|]; rewrite ?filter_app;
        cbn [filter isStateLine]; rewrite ?app_nil_r; reflexivity.
Qed.

Lemma main2_state_lines (ns : string) (received : list AirQualityMeasurement) :
  forall s : main2.Submitter C,
    filter isStateLine
      (main2.logger (fold_left (main2.iteration ns) received s))
    = (filter isStateLine (main2.logger s)
         ++ linesToCome (main2.loggedSensorNotWarmedUp s)
              (main2.loggedSensorActive s) received)%list.
Proof.
  induction received as [|aq received IH]; intros s.
  - cbn [fold_left].
    destruct (main2.loggedSensorNotWarmedUp s), (main2.loggedSensorActive s);
      cbn; rewrite app_nil_r; reflexivity.
  - cbn [fold_left]. rewrite IH. clear IH.
    unfold main2.iteration.
    destruct (main2.loggedSensorNotWarmedUp s) eqn:Hn,
             (main2.loggedSensorActive s) eqn:Ha;
      unfold linesToCome, stateLines, warmedUp; cbn [existsb forallb];
      unfold warmedUp;
      destruct (classify aq); cbn [negb];
      match goal with
      | |- context [PutMetricData ?c ?b] =>
          destruct (PutMetricData c b) as [client' err]
      end;
      cbn [main2.logger main2.loggedSensorNotWarmedUp
           main2.loggedSensorActive];
      destruct err as [e|]; rewrite ?filter_app;
      cbn [filter isStateLine app orb andb]; rewrite ?app_nil_r;
      rewrite <- ?app_assoc; cbn [app];
      try reflexivity;
      fold warmedUp;
      try (destruct (existsb warmedUp received); reflexivity);
      try (destruct (forallb warmedUp received); reflexivity).
Qed.

(** X14.  On any sequence of measurements, and whatever the client
    answers, the state lines are logged at most once each.  The loop of
    [main/main.go] logs its line once if some measurement is not warmed
    up, and not at all otherwise.  The variant with two flags logs the
    line of the first measurement's state, then the line of the other
    state if a measurement in that state follows, and no state line after
    these. *)
Theorem state_lines_of_any_run (client : C) (ns : string)
    (received : list AirQualityMeasurement) :
  filter isStateLine
    (main.logger (main.submitMetricsToCloudWatch client ns received))
  = (if forallb warmedUp received then []
     else [SkippingNotWarmedUp warmUpDuration])
  /\ filter isStateLine
       (main2.logger (main2.submitMetricsToCloudWatch client ns received))
     = stateLines received.
Proof.
  split.
  - unfold main.submitMetricsToCloudWatch. rewrite main_state_lines.
    reflexivity.
  - unfold main2.submitMetricsToCloudWatch. rewrite main2_state_lines.
    reflexivity.
Qed.
End StateLines.

Section MetricValues.
Import iotco1000 cloudwatch.

Lemma of_Z_positive (p : positive) :
  Zpos p < 2 ^ 53 ->
  exists m e, Float64.of_Z (Zpos p) = S754_finite false m e.
Proof.
  intros Hp. unfold Float64.of_Z, binary_normalize.
  apply binary_round_small. exact Hp.
Qed.

Lemma clamp_max (z : Z) :
  - 2 ^ 53 < z < 2 ^ 53 ->
  (if Float64.ltb (Float64.of_Z z) Float64.zero
   then Float64.zero else Float64.of_Z z) = Float64.of_Z (Z.max 0 z).
Proof.
  intros Hz. destruct z as [|p|p].
  - reflexivity.
  - destruct (of_Z_positive p) as (m & e & Hf); [lia|].
    change (Z.max 0 (Zpos p)) with (Zpos p). rewrite Hf. reflexivity.
  - rewrite of_Z_negative by lia. reflexivity.
Qed.

(** X15.  The CO metric of a batch is the reading converted to float64
    when the reading is zero or more, and zero when it is negative: one
    data point, never a negative one.  Both variants of the loop. *)
Theorem CO_metric_is_reading_or_zero (ns : string)
    (aq : AirQualityMeasurement) :
  - 2 ^ 31 <= COConcentrationPPB aq < 2 ^ 31 ->
  valuesOf "COConcentrationPPB" (main.params ns aq)
  = [Float64.of_Z (Z.max 0 (COConcentrationPPB aq))]
  /\ valuesOf "COConcentrationPPB" (main2.metricDataInput true ns aq)
     = [Float64.of_Z (Z.max 0 (COConcentrationPPB aq))]
  /\ Float64.ltb (Float64.of_Z (Z.max 0 (COConcentrationPPB aq)))
       Float64.zero = false.
Proof.
  intros Hco.
  assert (Hmax : 0 <= Z.max 0 (COConcentrationPPB aq) < 2 ^ 53) by lia.
  repeat split.
  - unfold valuesOf, main.params.
    cbn [MetricData filter map String.eqb cwtypes.MetricDatum.MetricName
         cwtypes.MetricDatum.Value].
    cbn. rewrite clamp_max by lia. reflexivity.
  - unfold valuesOf, main2.metricDataInput.
    cbn. rewrite clamp_max by lia. reflexivity.
  - destruct (Z.max 0 (COConcentrationPPB aq)) as [|p|p]; try lia.
    + reflexivity.
    + destruct (of_Z_positive p) as (m & e & Hf); [lia|].
      rewrite Hf. reflexivity.
Qed.

Lemma Seconds_whole (k : Z) :
  - 2 ^ 53 < k < 2 ^ 53 ->
  time.Seconds (k * time.Second) = Float64.of_Z k.
Proof.
  intros Hk. unfold time.Seconds.
  assert (Hs : time.Second <> 0) by (vm_compute; discriminate).
  rewrite Z.quot_mul, Z.rem_mul by exact Hs.
  change (Float64.div (Float64.of_Z 0) (Float64.of_Z 1000000000))
    with (S754_zero false).
  destruct k as [|p|p].
  - reflexivity.
  - destruct (of_Z_positive p) as (m & e & Hf); [lia|].
    rewrite Hf. reflexivity.
  - unfold Float64.of_Z, binary_normalize.
    destruct (binary_round_small true p) as (m & e & ->); [lia|].
    reflexivity.
Qed.

(** X16.  An uptime of a whole number of seconds, as every line of the
    sensor gives it, is sent as that number: the uptime metric of every
    batch is the count of seconds converted to float64, with no fraction
    added by the division into seconds and nanoseconds. *)
Theorem uptime_metric_is_the_count_of_seconds (ns : string)
    (aq : AirQualityMeasurement) (k : Z) :
  Uptime aq = k * time.Second ->
  - 2 ^ 53 < k < 2 ^ 53 ->
  valuesOf "Uptime" (main.params ns aq) = [Float64.of_Z k]
  /\ valuesOf "Uptime" (main2.metricDataInput true ns aq) = [Float64.of_Z k]
  /\ valuesOf "Uptime" (main2.metricDataInput false ns aq) = [Float64.of_Z k].
Proof.
  intros Hu Hk.
  pose proof (Seconds_whole k Hk) as Hs. rewrite <- Hu in Hs.
  repeat split.
  - unfold valuesOf, main.params.
    cbn [MetricData filter map String.eqb cwtypes.MetricDatum.MetricName
         cwtypes.MetricDatum.Value].
    cbn. unfold ffp. rewrite Hs. reflexivity.
  - unfold valuesOf, main2.metricDataInput.
    cbn [MetricData filter map String.eqb cwtypes.MetricDatum.MetricName
         cwtypes.MetricDatum.Value].
    cbn. unfold ffp. rewrite Hs. reflexivity.
  - unfold valuesOf, main2.metricDataInput.
    cbn [MetricData filter map String.eqb cwtypes.MetricDatum.MetricName
         cwtypes.MetricDatum.Value].
    cbn. unfold ffp. rewrite Hs. reflexivity.
Qed.
End MetricValues.

Lemma CO_metric_is_reading_or_zero_witness :
  valuesOf "COConcentrationPPB" (main.params "aq" warmReading)
  = [Float64.of_Z (Z.max 0 (iotco1000.COConcentrationPPB warmReading))]
  /\ valuesOf "COConcentrationPPB" (main2.metricDataInput true "aq" warmReading)
     = [Float64.of_Z (Z.max 0 (iotco1000.COConcentrationPPB warmReading))]
  /\ Float64.ltb
       (Float64.of_Z (Z.max 0 (iotco1000.COConcentrationPPB warmReading)))
       Float64.zero = false.
Proof.
  apply (CO_metric_is_reading_or_zero "aq" warmReading).
  vm_compute. split; [discriminate|reflexivity].
Defined.

Lemma uptime_metric_is_the_count_of_seconds_witness :
  valuesOf "Uptime" (main.params "aq" warmReading) = [Float64.of_Z 88215]
  /\ valuesOf "Uptime" (main2.metricDataInput true "aq" warmReading)
     = [Float64.of_Z 88215]
  /\ valuesOf "Uptime" (main2.metricDataInput false "aq" warmReading)
     = [Float64.of_Z 88215].
Proof.
  apply (uptime_metric_is_the_count_of_seconds "aq" warmReading 88215).
  - reflexivity.
  - lia.
Defined.

Section Channel.
Import iotco1000 main.

Lemma history_reachable (p : Pipeline) (results : list Result)
    (received : list AirQualityMeasurement) :
  history p results received -> reachable p.
Proof.
  induction 1 as [|p p' r results received _ IH Hs
                  |p p' results received _ IH Hs].
  - apply reachable_start.
  - apply (reachable_step p p' IH). apply (step_analyzed _ _ r Hs).
  - apply (reachable_step p p' IH).
    destruct Hs as [Hs|[Hs|[Hs|Hs]]].
    + apply step_send; exact Hs.
    + apply step_woken; exact Hs.
    + apply step_receive; exact Hs.
    + apply step_submitted; exact Hs.
Qed.

(** X17.  Nothing is lost, doubled or reordered between the two loops.
    At every point of a run, the measurements that [AnalyzeAirQuality]
    returned without an error are, in the same order, the measurements
    that the submission loop has taken from the channel, followed by the
    one that waits at the send, if one does.  A result with an error is
    printed and never passed on. *)
Theorem channel_passes_every_reading_in_order (p : Pipeline)
    (results : list Result) (received : list AirQualityMeasurement) :
  history p results received ->
  flat_map forwarded results = (received ++ pending p)%list
  /\ errors p = flat_map printed results.
Proof.
  induction 1 as [|p p' r results received Hh [IHf IHe] Hs
                  |p p' results received Hh [IHf IHe] Hs].
  - split; reflexivity.
  - rewrite !flat_map_app. cbn [flat_map]. rewrite !app_nil_r.
    unfold analyzed in Hs. unfold pending in *.
    destruct (acquisition p); try discriminate.
    rewrite app_nil_r in IHf.
    destruct r as [[aq|] [e|]]; inversion Hs; subst p'; clear Hs;
      cbn [acquisition errors forwarded printed];
      rewrite IHf, IHe, ?app_nil_r; split; reflexivity.
  - destruct (reachable_unbuffered p (history_reachable _ _ _ Hh))
      as [Hcap Hbuf].
    unfold taken, pending in *.
    destruct Hs as [Hs|[Hs|[Hs|Hs]]].
    + unfold send in Hs. rewrite Hbuf, Hcap in Hs.
      destruct (acquisition p) as [|aq|]; try discriminate.
      destruct (submission p); cbn in Hs; inversion Hs; subst p'.
      cbn [acquisition submission errors].
      rewrite IHf, IHe, app_nil_r. split; reflexivity.
    + unfold woken in Hs.
      destruct (acquisition p); inversion Hs; subst p'.
      cbn [acquisition submission errors].
      rewrite IHf, IHe.
      destruct (submission p); rewrite !app_nil_r; split; reflexivity.
    + unfold receive in Hs. rewrite Hbuf in Hs.
      destruct (submission p); discriminate.
    + unfold submitted in Hs.
      destruct (submission p); inversion Hs; subst p'.
      cbn [acquisition submission errors].
      rewrite IHf, IHe, !app_nil_r. split; reflexivity.
Qed.

Lemma channel_passes_every_reading_in_order_witness :
  flat_map forwarded
    [ (Some warmReading, None); (None, Some ioError);
      (Some nextReading, None) ]
  = ([warmReading] ++ pending secondReadingReady)%list
  /\ errors {| acquisition := Sending nextReading;
               submission := Submitting warmReading;
               ch := make 0;
               errors := [Println ioError] |}
     = flat_map printed
         [ (Some warmReading, None); (None, Some ioError);
           (Some nextReading, None) ].
Proof.
  apply (channel_passes_every_reading_in_order
           {| acquisition := Sending nextReading;
              submission := Submitting warmReading;
              ch := make 0;
              errors := [Println ioError] |}
           [ (Some warmReading, None); (None, Some ioError);
             (Some nextReading, None) ]
           [warmReading]).
  pose (p1 := {| acquisition := Sending warmReading; submission := Receiving;
                 ch := make 0; errors := [] |}).
  pose (p2 := {| acquisition := Sleeping; submission := Submitting warmReading;
                 ch := make 0; errors := [] |}).
  pose (p3 := {| acquisition := Analyzing;
                 submission := Submitting warmReading;
                 ch := make 0; errors := [] |}).
  pose (p4 := {| acquisition := Sleeping; submission := Submitting warmReading;
                 ch := make 0; errors := [Println ioError] |}).
  pose (p5 := {| acquisition := Analyzing;
                 submission := Submitting warmReading;
                 ch := make 0; errors := [Println ioError] |}).
  pose (p6 := {| acquisition := Sending nextReading;
                 submission := Submitting warmReading;
                 ch := make 0; errors := [Println ioError] |}).
  pose (r1 := (Some warmReading, @None error)).
  pose (r2 := (@None AirQualityMeasurement, Some ioError)).
  pose (r3 := (Some nextReading, @None error)).
  exact (history_analyzed p5 p6 r3 [r1; r2] [warmReading]
           (history_moved p4 p5 [r1; r2] [warmReading]
              (history_analyzed p3 p4 r2 [r1] [warmReading]
                 (history_moved p2 p3 [r1] [warmReading]
                    (history_moved p1 p2 [r1] []
                       (history_analyzed start p1 r1 [] [] history_start
                          eq_refl)
                       (or_introl eq_refl))
                    (or_intror (or_introl eq_refl)))
                 eq_refl)
              (or_intror (or_introl eq_refl)))
           eq_refl).
Defined.
End Channel.

Section Arguments.

(** X18.  [parseArguments] returns the arguments or an error, never both
    and never neither.  It returns the arguments exactly when the serial
    device path and the metric namespace are both given, and then hands
    the three values on unchanged: the poll interval is not looked at, so
    zero and negative intervals pass.  Otherwise the error names the
    flags that are missing, both in one message when both are, the
    serial device path first. *)
Theorem parseArguments_names_what_is_missing (flags : Flags) :
  (serialDevicePath flags <> EmptyString ->
   metricNamespace flags <> EmptyString ->
   parseArguments flags
   = (Some {| PollInterval := pollInterval flags;
              SerialDevicePath := serialDevicePath flags;
              MetricNamespace := metricNamespace flags |},
      None))
  /\ (serialDevicePath flags = EmptyString ->
      metricNamespace flags <> EmptyString ->
      parseArguments flags
      = (None, Some "missing required argument(s): serial-device-path"))
  /\ (serialDevicePath flags <> EmptyString ->
      metricNamespace flags = EmptyString ->
      parseArguments flags
      = (None, Some "missing required argument(s): metric-namespace"))
  /\ (serialDevicePath flags = EmptyString ->
      metricNamespace flags = EmptyString ->
      parseArguments flags
      = (None,
         Some "missing required argument(s): serial-device-path, metric-namespace")).
Proof.
  unfold parseArguments.
  destruct (String.eqb_spec (serialDevicePath flags) "") as [Hs|Hs];
    destruct (String.eqb_spec (metricNamespace flags) "") as [Hm|Hm];
    repeat split; intros; first [reflexivity|contradiction].
Qed.

Lemma parseArguments_names_what_is_missing_witness :
  parseArguments defaults
  = (None,
     Some "missing required argument(s): serial-device-path, metric-namespace")
  /\ parseArguments
       {| pollInterval := -1; serialDevicePath := "/dev/ttyUSB0";
          metricNamespace := "aq" |}
     = (Some {| PollInterval := -1; SerialDevicePath := "/dev/ttyUSB0";
                MetricNamespace := "aq" |},
        None).
Proof.
  split.
  - apply (proj2 (proj2 (proj2
             (parseArguments_names_what_is_missing defaults))));
      reflexivity.
  - apply (proj1 (parseArguments_names_what_is_missing
                    {| pollInterval := -1; serialDevicePath := "/dev/ttyUSB0";
                       metricNamespace := "aq" |}));
      discriminate.
Defined.
End Arguments.
